(** * turmyx: configuration-driven command resolution

    A shallow embedding of the rule store of turmyx and of the operations that
    resolve, add and remove command rules:

    - [turmyx.py]: the command line front end, whose [TurmyxConfig] is a
      [ConfigParser] with [guess_file_command] and [guess_url_command], and
      the commands [add] and [remove];
    - [turmyx/config.py]: the abstract [TurmyxConfig] interface and its two
      implementations, [CfgConfig] (a [ConfigParser], the flat store) and
      [YAMLConfig] (the structured store);
    - [turmyx.commands], which [config.py] imports and which is not among
      the sources: [Command] and [CommandDict] are modelled from the
      specification.

    Python strings are modelled as [string], a character being a code
    point below 256: cutting, searching, comparing and lower-casing are then
    exact.  Dictionaries keep insertion order and the scans depend on it,
    hence association lists.  Exceptions are values of [exn] carried by
    [result]; a mutator that raises hands on the store as the exception left
    it.

    The [ConfigParser] of the standard Python library is modelled with the
    [ExtendedInterpolation] that both parsers of the code are built with:
    [set] validates a value before it stores it, and every option is read
    through the interpolation of its references.  Reading and writing the
    file ([ConfigParser.read] and [write], [yaml.load] and [yaml.dump]) are
    outside the model: [load] and [save] of [YAMLConfig] are given on the
    data that goes to and comes from the file. *)

From Stdlib Require Import String Ascii List Bool Arith Lia.
Import ListNotations.
Open Scope list_scope.
Open Scope string_scope.

(** ** Python primitives *)

Module Py.

(** The exceptions that the code and its libraries raise, each with the
    arguments it is built from.  [InvalidInterpolationSyntax] is the
    [ValueError] of [ExtendedInterpolation.before_set], whose message is
    formatted from the value and a position; the message of an
    [InterpolationSyntaxError] is [msg % rest]. *)
Inductive exn : Type :=
| KeyError (key : string)
| TypeError (msg : string)
| ValueError (msg : string)
| AttributeError (msg : string)
| NoSectionError (section : string)
| NoOptionError (option section : string)
| InvalidInterpolationSyntax (value : string) (position : nat)
| InterpolationSyntaxError (option section msg rest : string)
| InterpolationMissingOptionError (option section rawval reference : string)
| InterpolationDepthError (option section rawval : string).

Inductive result (A : Type) : Type :=
| Ok (a : A)
| Raise (e : exn).
Arguments Ok {A} a.
Arguments Raise {A} e.

Definition bind {A B} (r : result A) (k : A -> result B) : result B :=
  match r with
  | Ok a => k a
  | Raise e => Raise e
  end.

Definition is_ok {A} (r : result A) : bool :=
  match r with Ok _ => true | Raise _ => false end.

(** Plain data, as [yaml.load] returns it and [yaml.dump] takes it:
    [None], strings, sequences, and mappings in insertion order. *)
#[warnings="-register-all"]
Inductive yaml : Type :=
| YNone
| YStr (s : string)
| YSeq (l : list yaml)
| YMap (d : list (string * yaml)).

(** Code that mutates an object [S] and may raise: the object is handed
    on as the exception left it. *)
Definition State (S A : Type) : Type := S -> result A * S.

Definition sbind {S A B} (m : State S A) (k : A -> State S B)
  : State S B :=
  fun s => match m s with
           | (Ok a, s') => k a s'
           | (Raise e, s') => (Raise e, s')
           end.

Definition sret {S A} (a : A) : State S A := fun s => (Ok a, s).

(** [sub in s] on strings. *)
Fixpoint contains (sub s : string) : bool :=
  String.prefix sub s
  || match s with
     | EmptyString => false
     | String _ s' => contains sub s'
     end.

(** [s.split(sep)] for a separator of one character. *)
Fixpoint split (sep : ascii) (s : string) : list string :=
  match s with
  | EmptyString => [EmptyString]
  | String c s' =>
      if Ascii.eqb c sep then EmptyString :: split sep s'
      else match split sep s' with
           | w :: ws => String c w :: ws
           | [] => [String c EmptyString]
           end
  end.

(** [sep.join(l)]. *)
Definition join (sep : string) (l : list string) : string :=
  String.concat sep l.

(** [x in l] on a list of strings. *)
Definition mem (x : string) (l : list string) : bool :=
  existsb (String.eqb x) l.

(** [l[0]] and [l[-1]] on the result of a split, which is never empty. *)
Definition first (l : list string) : string := hd EmptyString l.
Definition final (l : list string) : string := last l EmptyString.

(** Truth value of a string: empty is false. *)
Definition truthy (s : string) : bool :=
  match s with EmptyString => false | _ => true end.

(** [d.get(k)] on a dictionary kept as an association list. *)
Fixpoint dict_get {V} (k : string) (d : list (string * V)) : option V :=
  match d with
  | [] => None
  | (k', v) :: d' => if String.eqb k k' then Some v else dict_get k d'
  end.

(** [d[k] = v]: overwrite in place, or append a new key. *)
Fixpoint dict_set {V} (k : string) (v : V) (d : list (string * V))
  : list (string * V) :=
  match d with
  | [] => [(k, v)]
  | (k', v') :: d' =>
      if String.eqb k k' then (k, v) :: d' else (k', v') :: dict_set k v d'
  end.

(** [del d[k]]. *)
Definition dict_del {V} (k : string) (d : list (string * V))
  : list (string * V) :=
  filter (fun kv => negb (String.eqb k (fst kv))) d.

Definition dict_has {V} (k : string) (d : list (string * V)) : bool :=
  match dict_get k d with Some _ => true | None => false end.

(** [os.path.basename(p)]: what follows the last ["/"]. *)
Definition basename (p : string) : string := final (split "/" p).

(** [Path(p).name] (POSIX flavour): the last component, where empty
    components and ["."] components do not count. *)
Definition path_name (p : string) : string :=
  final (filter (fun c => negb (String.eqb c "") && negb (String.eqb c "."))
                (split "/" p)).

(** [s.lower()], character by character: the letters [A] to [Z] and the
    capital letters of Latin-1. *)
Definition lower_char (c : ascii) : ascii :=
  let n := nat_of_ascii c in
  if ((65 <=? n) && (n <=? 90)
      || (192 <=? n) && (n <=? 222) && negb (n =? 215))%nat
  then ascii_of_nat (n + 32) else c.

Fixpoint lower (s : string) : string :=
  match s with
  | EmptyString => EmptyString
  | String c s' => String (lower_char c) (lower s')
  end.

(** [s.find(c)] when [c] occurs in [s]. *)
Fixpoint str_find (c : ascii) (s : string) : nat :=
  match s with
  | EmptyString => 0
  | String c' s' => if Ascii.eqb c' c then 0 else S (str_find c s')
  end.

End Py.

Import Py.

Notation "x <- c1 ;; c2" := (Py.bind c1 (fun x => c2))
  (at level 61, c1 at next level, right associativity).
Notation "x <~ c1 ;; c2" := (Py.sbind c1 (fun x => c2))
  (at level 61, c1 at next level, right associativity).

(** ** The standard library's [ConfigParser] *)

Module configparser.

Definition options := list (string * string).

(** [_defaults] is the [DEFAULT] section, [_sections] the others in the
    order they were added. *)
Record ConfigParser : Type := mkConfigParser {
  _defaults : options;
  _sections : list (string * options)
}.

Definition empty : ConfigParser := mkConfigParser [] [].

Definition default_section : string := "DEFAULT".

Definition MAX_INTERPOLATION_DEPTH : nat := 10.

(** [self.optionxform(option)]. *)
Definition optionxform (option : string) : string := lower option.

Definition sections (self : ConfigParser) : list string :=
  map fst (_sections self).

Definition has_section (self : ConfigParser) (section : string) : bool :=
  dict_has section (_sections self).

(** [section in self]. *)
Definition contains_section (self : ConfigParser) (key : string) : bool :=
  String.eqb key default_section || has_section self key.

(** [self.has_option(section, option)]. *)
Definition has_option (self : ConfigParser) (section option : string)
  : bool :=
  if negb (truthy section) || String.eqb section default_section then
    dict_has (optionxform option) (_defaults self)
  else
    match dict_get section (_sections self) with
    | None => false
    | Some sectiondict =>
        dict_has (optionxform option) sectiondict
        || dict_has (optionxform option) (_defaults self)
    end.

(** [self._unify_values(section, None)], and [dict(self.items(section,
    raw=True))]: the options that a lookup in [section] goes through, its
    own before the defaults. *)
Definition _unify_values (self : ConfigParser) (section : string)
  : result options :=
  match dict_get section (_sections self) with
  | Some sectiondict => Ok (sectiondict ++ _defaults self)%list
  | None =>
      if String.eqb section default_section then Ok (_defaults self)
      else Raise (NoSectionError section)
  end.

(** [self.get(section, option, raw=True)]. *)
Definition get_raw (self : ConfigParser) (section option : string)
  : result string :=
  d <- _unify_values self section ;;
  let option := optionxform option in
  match dict_get option d with
  | Some value => Ok value
  | None => Raise (NoOptionError option section)
  end.

(** *** [ExtendedInterpolation] *)

(** [value.replace("$$", "")]. *)
Fixpoint strip_escaped (value : string) : string :=
  match value with
  | EmptyString => EmptyString
  | String c rest =>
      match rest with
      | String c' rest' =>
          if Ascii.eqb c "$" && Ascii.eqb c' "$" then strip_escaped rest'
          else String c (strip_escaped rest)
      | EmptyString => String c EmptyString
      end
  end.

(** [_KEYCRE.sub("", value)] for [_KEYCRE = re.compile(r"\$\{([^}]+)\}")]:
    [strip_group] is inside the braces of a candidate, [group] being what it
    has passed of it. *)
Fixpoint strip_references (value : string) : string :=
  match value with
  | EmptyString => EmptyString
  | String c rest =>
      match rest with
      | String c' body =>
          if Ascii.eqb c "$" && Ascii.eqb c' "{"
          then strip_group body EmptyString
          else String c (strip_references rest)
      | EmptyString => String c EmptyString
      end
  end
with strip_group (body group : string) : string :=
  match body with
  | EmptyString => "${" ++ group
  | String c rest =>
      if Ascii.eqb c "}" then
        if truthy group then strip_references rest
        else "${}" ++ strip_references rest
      else strip_group rest (group ++ String c EmptyString)
  end.

Definition before_set (value : string) : result string :=
  let tmp_value := strip_escaped value in
  let tmp_value := strip_references tmp_value in
  if contains "$" tmp_value
  then Raise (InvalidInterpolationSyntax value (str_find "$" tmp_value))
  else Ok value.

(** What the loop of [_interpolate_some] meets in a value, from left to
    right: a character of text, the escape ["$$"], a reference
    ["${group}"] with the text that follows it, or a ["$"] that starts
    neither, with the text from it on, where the loop raises. *)
Inductive piece : Type :=
| Char (c : ascii)
| Escape
| Reference (group rest : string)
| BadReference (rest : string)
| BadDollar (rest : string).

Fixpoint pieces (rest : string) : list piece :=
  match rest with
  | EmptyString => []
  | String c rest' =>
      if Ascii.eqb c "$" then
        match rest' with
        | String c' rest'' =>
            if Ascii.eqb c' "$" then Escape :: pieces rest''
            else if Ascii.eqb c' "{"
                 then pieces_group rest rest'' EmptyString
                 else [BadDollar rest]
        | EmptyString => [BadDollar rest]
        end
      else Char c :: pieces rest'
  end
with pieces_group (whole body group : string) : list piece :=
  match body with
  | EmptyString => [BadReference whole]
  | String c rest =>
      if Ascii.eqb c "}" then
        if truthy group then Reference group rest :: pieces rest
        else [BadReference whole]
      else pieces_group whole rest (group ++ String c EmptyString)
  end.

Section interpolate.

Variable parser : ConfigParser.

(** The recursive call of [_interpolate_some], one level deeper, on the
    option [opt] of the section [sect] with the raw value [v]. *)
Variable deeper : string -> string -> string -> result string.

(** One level of [_interpolate_some]: the text that its loop accumulates
    from the pieces of the value. *)
Fixpoint accumulate (option section rawval : string) (map : options)
         (todo : list piece) : result string :=
  match todo with
  | [] => Ok EmptyString
  | Char c :: todo' =>
      accum <- accumulate option section rawval map todo' ;;
      Ok (String c accum)
  | Escape :: todo' =>
      accum <- accumulate option section rawval map todo' ;;
      Ok (String "$" accum)
  | BadReference rest :: _ =>
      Raise (InterpolationSyntaxError
               option section "bad interpolation variable reference %r" rest)
  | BadDollar rest :: _ =>
      Raise (InterpolationSyntaxError
               option section
               "'$' must be followed by '$' or '{', found: %r" rest)
  | Reference group rest :: todo' =>
      let path := split ":" group in
      found <-
        match path with
        | [o] =>
            let opt := optionxform o in
            match dict_get opt map with
            | Some v => Ok (section, opt, v)
            | None =>
                Raise (InterpolationMissingOptionError
                         option section rawval (join ":" path))
            end
        | [sect; o] =>
            let opt := optionxform o in
            match get_raw parser sect opt with
            | Ok v => Ok (sect, opt, v)
            | Raise _ =>
                Raise (InterpolationMissingOptionError
                         option section rawval (join ":" path))
            end
        | _ =>
            Raise (InterpolationSyntaxError
                     option section "More than one ':' found: %r" rest)
        end ;;
      let '(sect, opt, v) := found in
      v <- (if contains "$" v then deeper opt v sect else Ok v) ;;
      accum <- accumulate option section rawval map todo' ;;
      Ok (v ++ accum)
  end.

End interpolate.

(** [_interpolate_some(parser, option, accum, rest, section, map, depth)],
    with [levels] the number of levels that [MAX_INTERPOLATION_DEPTH]
    still allows, this one included. *)
Fixpoint _interpolate_some (parser : ConfigParser) (levels : nat)
         (option rest section : string) (map : options) : result string :=
  match levels with
  | 0 => Raise (InterpolationDepthError option section rest)
  | S levels' =>
      accumulate parser
        (fun opt v sect =>
           map' <- _unify_values parser sect ;;
           _interpolate_some parser levels' opt v sect map')
        option section rest map (pieces rest)
  end.

Definition before_get (parser : ConfigParser)
           (section option value : string) (defaults : options)
  : result string :=
  _interpolate_some parser MAX_INTERPOLATION_DEPTH option value section
                    defaults.

(** [self.get(section, option)]. *)
Definition get (self : ConfigParser) (section option : string)
  : result string :=
  d <- _unify_values self section ;;
  let option := optionxform option in
  match dict_get option d with
  | Some value => before_get self section option value d
  | None => Raise (NoOptionError option section)
  end.

(** A section proxy is a view on its parser under a section name.  The
    code reads through a proxy at once, so the parser it views is the
    store at the time of [self[key]]. *)
Record SectionProxy : Type := mkSectionProxy {
  _parser : ConfigParser;
  name : string
}.

(** [self[key]]. *)
Definition getitem (self : ConfigParser) (key : string)
  : result SectionProxy :=
  if negb (String.eqb key default_section) && negb (has_section self key)
  then Raise (KeyError key)
  else Ok (mkSectionProxy self key).

(** [key in proxy]. *)
Definition proxy_contains (p : SectionProxy) (key : string) : bool :=
  has_option (_parser p) (name p) key.

(** [proxy[key]]. *)
Definition proxy_get (p : SectionProxy) (key : string) : result string :=
  if negb (has_option (_parser p) (name p) key) then Raise (KeyError key)
  else get (_parser p) (name p) key.

(** [self[key] = {}]: an existing section is emptied where it stands, a
    new one is appended. *)
Definition setitem_empty (self : ConfigParser) (key : string)
  : ConfigParser :=
  if String.eqb key default_section then
    mkConfigParser [] (_sections self)
  else
    mkConfigParser (_defaults self) (dict_set key [] (_sections self)).

(** [self.set(section, option, value)], where [option] may be [None]:
    the types are validated first, then a value that is not empty goes
    through [before_set], then the section is looked up. *)
Definition set (section : string) (option : Datatypes.option string)
           (value : string) : State ConfigParser unit :=
  fun self =>
  match option with
  | None => (Raise (TypeError "option keys must be strings"), self)
  | Some o =>
      match (if truthy value then before_set value else Ok value) with
      | Raise e => (Raise e, self)
      | Ok value =>
          if negb (truthy section) || String.eqb section default_section then
            (Ok tt, mkConfigParser
                      (dict_set (optionxform o) value (_defaults self))
                      (_sections self))
          else
            match dict_get section (_sections self) with
            | Some sectdict =>
                (Ok tt, mkConfigParser (_defaults self)
                          (dict_set section
                                    (dict_set (optionxform o) value sectdict)
                                    (_sections self)))
            | None => (Raise (NoSectionError section), self)
            end
      end
  end.

(** [self.remove_section(section)]. *)
Definition remove_section (self : ConfigParser) (section : string)
  : bool * ConfigParser :=
  if has_section self section then
    (true, mkConfigParser (_defaults self)
             (dict_del section (_sections self)))
  else (false, self).

End configparser.

Import configparser.

(** ** [turmyx.commands] *)

Module commands.

(** Modelled from the spec: the module [turmyx.commands], with [Command]
    and [CommandDict], is not among the sources.  A [Command] has the four
    fields that [CfgConfig.__get_command] passes to its constructor; the
    arguments are kept as the one string that the flat store holds. *)
Record Command : Type := mkCommand {
  command : string;
  args : string;
  classes : list string;
  name : string
}.

(** Modelled from the spec: a partition is a mapping from Command name to
    Command in insertion order, with an optional default Command
    ([default: Command?] in the persisted layout). *)
Record CommandDict : Type := mkCommandDict {
  default : option Command;
  items : list (string * Command)
}.

(** Modelled from the spec: [commands.values()], the Commands of the
    partition in insertion order, without the default. *)
Definition values (d : CommandDict) : list Command := map snd (items d).

(** Modelled from the spec: [Command.from_command] copies a Command; with
    no default to copy the resolution fails (the spec's
    ConfigurationIncomplete). *)
Definition from_command (c : option Command) : result Command :=
  match c with
  | Some c => Ok c
  | None => Raise (AttributeError "default")
  end.

(** Modelled from the spec: [d[name] = command] overwrites the entry of
    that name in place or appends a new one. *)
Definition setitem (d : CommandDict) (n : string) (c : Command)
  : CommandDict :=
  mkCommandDict (default d) (dict_set n c (items d)).

(** Modelled from the spec: [d.pop(name)] deletes the named entry and
    raises [KeyError] when there is none. *)
Definition pop (d : CommandDict) (n : string) : result unit * CommandDict :=
  if dict_has n (items d)
  then (Ok tt, mkCommandDict (default d) (dict_del n (items d)))
  else (Raise (KeyError n), d).

(** Modelled from the spec: a Command as plain data, with the keys
    [command], [args] and [classes] ([YAMLConfig] renames the last one to
    [extensions] or [domains] in the file). *)
Definition command_as_dict (c : Command) : yaml :=
  YMap [("command", YStr (command c)); ("args", YStr (args c));
        ("classes", YSeq (map YStr (classes c)))].

(** Modelled from the spec: [CommandDict.as_dict()], the persisted layout
    of a partition: its default, if any, and its entries by name. *)
Definition as_dict (d : CommandDict) : result yaml :=
  Ok (YMap ((match default d with
             | Some c => [("default", command_as_dict c)]
             | None => []
             end)
            ++ [("commands",
                 YMap (map (fun nc => (fst nc, command_as_dict (snd nc)))
                           (items d)))])%list).

(** Modelled from the spec: the readers of that layout, a sequence of
    strings for the classifiers and a mapping for each Command. *)
Fixpoint strings_of (l : list yaml) : result (list string) :=
  match l with
  | [] => Ok []
  | YStr s :: l' => bind (strings_of l') (fun r => Ok (s :: r))
  | _ :: _ => Raise (TypeError "classes")
  end.

Definition command_of_dict (n : string) (y : yaml) : result Command :=
  match y with
  | YMap m =>
      match dict_get "command" m, dict_get "args" m, dict_get "classes" m with
      | Some (YStr c), Some (YStr a), Some (YSeq l) =>
          bind (strings_of l) (fun cls => Ok (mkCommand c a cls n))
      | _, _, _ => Raise (KeyError "command")
      end
  | _ => Raise (TypeError "command")
  end.

Fixpoint commands_of_dict (m : list (string * yaml))
  : result (list (string * Command)) :=
  match m with
  | [] => Ok []
  | (n, y) :: m' =>
      bind (command_of_dict n y) (fun c =>
      bind (commands_of_dict m') (fun r => Ok ((n, c) :: r)))
  end.

(** Modelled from the spec: the constructor [CommandDict(d)], which reads
    the layout that [as_dict] writes. *)
Definition of_dict (y : yaml) : result CommandDict :=
  match y with
  | YMap m =>
      bind (match dict_get "default" m with
            | Some y => bind (command_of_dict "default" y)
                             (fun c => Ok (Some c))
            | None => Ok None
            end) (fun dflt =>
      match dict_get "commands" m with
      | Some (YMap cs) =>
          bind (commands_of_dict cs) (fun its => Ok (mkCommandDict dflt its))
      | _ => Raise (KeyError "commands")
      end)
  | _ => Raise (TypeError "CommandDict")
  end.

End commands.

Import commands.

(** ** [turmyx/config.py] *)

Module config.

(** The abstract class [TurmyxConfig]: what the resolver and the mutator
    see of a store.  ([load] and [save] move the store to and from a file
    and are given with each implementation.) *)
Class TurmyxConfig (T : Type) : Type := {
  get_file_editor : T -> string -> result Command;
  get_url_opener : T -> string -> result Command;
  set_file_editor : Command -> State T unit;
  set_url_opener : Command -> State T unit;
  remove_file_editor : string -> State T unit;
  remove_url_opener : string -> State T unit
}.

(** [TurmyxConfig.classes_name.get(kind)]. *)
Definition classes_name (kind : string) : option string :=
  dict_get kind [("file-editors", "extensions"); ("url-openers", "domains")].

(** *** The flat store: [CfgConfig(ConfigParser, TurmyxConfig)] *)

Module CfgConfig.

(** The loop of [__get_section] over the section names still to visit:
    [Ok (Some p)] when it returns the section [p], [Ok None] when it
    runs to its end, [Raise] when a visited section has no
    [class_kind] option or when the option cannot be interpolated. *)
Fixpoint scan (self : ConfigParser)
         (section_kind class_kind class_name : string)
         (todo : list string) : result (option SectionProxy) :=
  match todo with
  | [] => Ok None
  | section :: rest =>
      if negb (contains "default" section)
         && contains section_kind section
      then
        p <- getitem self section ;;
        v <- proxy_get p class_kind ;;
        if mem class_name (split " " v)
        then Ok (Some p)
        else scan self section_kind class_kind class_name rest
      else scan self section_kind class_kind class_name rest
  end.

Definition __get_section (self : ConfigParser)
           (section_kind class_kind class_name : string)
  : result SectionProxy :=
  found <- scan self section_kind class_kind class_name (sections self) ;;
  match found with
  | Some p => Ok p
  | None => getitem self (section_kind ++ ":default")
  end.

Definition __get_command (self : ConfigParser)
           (section_kind class_kind class_name : string)
  : result Command :=
  section <- __get_section self section_kind class_kind class_name ;;
  command <- proxy_get section "command" ;;
  args <- (if proxy_contains section "args"
           then proxy_get section "args" else Ok "") ;;
  classes <- (if proxy_contains section class_kind
              then v <- proxy_get section class_kind ;; Ok (split " " v)
              else Ok []) ;;
  Ok (mkCommand command args classes
                (first (split ":" (configparser.name section)))).

Definition get_file_editor (self : ConfigParser) (extension : string)
  : result Command :=
  __get_command self "file-editors" "extensions" extension.

Definition get_url_opener (self : ConfigParser) (domain : string)
  : result Command :=
  __get_command self "url-openers" "domains" domain.

Definition __set_command (command : Command) (kind : string)
  : State ConfigParser unit :=
  let name := if truthy (commands.name command)
              then commands.name command
              else path_name (commands.command command) in
  let section := kind ++ ":" ++ name in
  _ <~ (fun self =>
          (Ok tt, if negb (contains_section self section)
                  then setitem_empty self section else self)) ;;
  _ <~ set section (Some "command") (commands.command command) ;;
  _ <~ set section (Some "args") (commands.args command) ;;
  set section (classes_name kind) (join " " (commands.classes command)).

Definition set_file_editor (command : Command)
  : State ConfigParser unit :=
  __set_command command "file-editors".

Definition set_url_opener (command : Command)
  : State ConfigParser unit :=
  __set_command command "opener".

Definition __remove_command (command_name kind : string)
  : State ConfigParser unit :=
  fun self =>
    match remove_section self (kind ++ ":" ++ command_name) with
    | (true, self') => (Ok tt, self')
    | (false, self') =>
        (Raise (ValueError "Command not found in config file."), self')
    end.

Definition remove_file_editor (command_name : string)
  : State ConfigParser unit :=
  __remove_command command_name "file-editors".

Definition remove_url_opener (command_name : string)
  : State ConfigParser unit :=
  __remove_command command_name "url-openers".

End CfgConfig.

(** *** The structured store: [YAMLConfig(TurmyxConfig)] *)

Module YAMLConfig.

(** [file_editors] and [url_openers] are [None] until [load]. *)
Record t : Type := mk {
  file_editors : option CommandDict;
  url_openers : option CommandDict
}.

Definition __init__ : t := mk None None.

(** [o.get(k)]. *)
Definition get (o : yaml) (k : string) : result yaml :=
  match o with
  | YMap d => Ok (match dict_get k d with Some v => v | None => YNone end)
  | _ => Raise (AttributeError "get")
  end.

(** [d[to] = d.pop(from)]. *)
Definition rename (from to : string) (d : yaml) : result yaml :=
  match d with
  | YMap m =>
      match dict_get from m with
      | Some v => Ok (YMap (dict_set to v (dict_del from m)))
      | None => Raise (KeyError from)
      end
  | YSeq _ => Raise (TypeError "pop")
  | _ => Raise (AttributeError "pop")
  end.

Fixpoint rename_each (from to : string) (m : list (string * yaml))
  : result (list (string * yaml)) :=
  match m with
  | [] => Ok []
  | (k, d) :: m' =>
      d' <- rename from to d ;;
      m'' <- rename_each from to m' ;;
      Ok ((k, d') :: m'')
  end.

(** [for d in part.get("commands").values(): d[to] = d.pop(from)]. *)
Definition rename_commands (from to : string) (part : yaml)
  : result yaml :=
  commands <- get part "commands" ;;
  match commands, part with
  | YMap m, YMap p =>
      m' <- rename_each from to m ;;
      Ok (YMap (dict_set "commands" (YMap m') p))
  | _, _ => Raise (AttributeError "values")
  end.

Section store.

(** The constructor [CommandDict(d)] and the method
    [CommandDict.as_dict] belong to [turmyx.commands], which is not
    among the sources: they are parameters here. *)
Variable CommandDict_of : yaml -> result CommandDict.
Variable CommandDict_as_dict : CommandDict -> result yaml.

(** [load], from the data that [yaml.load] read from the file. *)
Definition load (yml_data : yaml) : State t unit :=
  fun self =>
    match (editors <- get yml_data "file-editors" ;;
           editors <- rename_commands "extensions" "classes" editors ;;
           CommandDict_of editors) with
    | Raise e => (Raise e, self)
    | Ok editors =>
        let self := mk (Some editors) (url_openers self) in
        match (openers <- get yml_data "url-openers" ;;
               openers <- rename_commands "domains" "classes" openers ;;
               CommandDict_of openers) with
        | Raise e => (Raise e, self)
        | Ok openers => (Ok tt, mk (file_editors self) (Some openers))
        end
    end.

Definition as_dict (self : t) : result yaml :=
  editors <- match file_editors self with
             | Some d => CommandDict_as_dict d
             | None => Raise (AttributeError "as_dict")
             end ;;
  openers <- match url_openers self with
             | Some d => CommandDict_as_dict d
             | None => Raise (AttributeError "as_dict")
             end ;;
  editors <- rename_commands "classes" "extensions" editors ;;
  openers <- rename_commands "classes" "domains" openers ;;
  Ok (YMap [("file_editors", editors); ("url_openers", openers)]).

(** [save]: the data handed to [yaml.dump]. *)
Definition save (self : t) : result yaml := as_dict self.

End store.

(** The loop of [__get_command] over [commands.values()]. *)
Fixpoint first_with (class_name : string) (todo : list Command)
  : option Command :=
  match todo with
  | [] => None
  | command :: rest =>
      if mem class_name (classes command) then Some command
      else first_with class_name rest
  end.

(** The static method [__get_command].  Under [class_name in
    all_classes] the loop always returns, so the [None] it would
    otherwise fall through to is given as a [TypeError]. *)
Definition __get_command (commands : CommandDict) (class_name : string)
  : result Command :=
  let all_classes := flat_map classes (values commands) in
  if mem class_name all_classes then
    match first_with class_name (values commands) with
    | Some command => from_command (Some command)
    | None => Raise (TypeError "None")
    end
  else from_command (default commands).

Definition get_file_editor (self : t) (extension : string)
  : result Command :=
  match file_editors self with
  | Some commands => __get_command commands extension
  | None => Raise (AttributeError "values")
  end.

Definition get_url_opener (self : t) (domain : string)
  : result Command :=
  match url_openers self with
  | Some commands => __get_command commands domain
  | None => Raise (AttributeError "values")
  end.

Definition set_file_editor (command : Command) : State t unit :=
  fun self =>
    match file_editors self with
    | Some d =>
        (Ok tt, mk (Some (setitem d (commands.name command) command))
                   (url_openers self))
    | None => (Raise (TypeError "item assignment"), self)
    end.

Definition set_url_opener (command : Command) : State t unit :=
  fun self =>
    match url_openers self with
    | Some d =>
        (Ok tt, mk (file_editors self)
                   (Some (setitem d (commands.name command) command)))
    | None => (Raise (TypeError "item assignment"), self)
    end.

Definition remove_file_editor (command_name : string) : State t unit :=
  fun self =>
    match file_editors self with
    | Some d =>
        let (r, d') := pop d command_name in
        (r, mk (Some d') (url_openers self))
    | None => (Raise (AttributeError "pop"), self)
    end.

Definition remove_url_opener (command_name : string) : State t unit :=
  fun self =>
    match url_openers self with
    | Some d =>
        let (r, d') := pop d command_name in
        (r, mk (file_editors self) (Some d'))
    | None => (Raise (AttributeError "pop"), self)
    end.

End YAMLConfig.

#[export] Instance YAMLConfig_TurmyxConfig : TurmyxConfig YAMLConfig.t := {
  get_file_editor := YAMLConfig.get_file_editor;
  get_url_opener := YAMLConfig.get_url_opener;
  set_file_editor := YAMLConfig.set_file_editor;
  set_url_opener := YAMLConfig.set_url_opener;
  remove_file_editor := YAMLConfig.remove_file_editor;
  remove_url_opener := YAMLConfig.remove_url_opener
}.

#[export] Instance CfgConfig_TurmyxConfig : TurmyxConfig ConfigParser := {
  get_file_editor := CfgConfig.get_file_editor;
  get_url_opener := CfgConfig.get_url_opener;
  set_file_editor := CfgConfig.set_file_editor;
  set_url_opener := CfgConfig.set_url_opener;
  remove_file_editor := CfgConfig.remove_file_editor;
  remove_url_opener := CfgConfig.remove_url_opener
}.

End config.


(** ** [turmyx.py] *)

Module turmyx.

(** *** [TurmyxConfig(ConfigParser)] *)

Module TurmyxConfig.

(** The loop of [guess_file_command] over the section names still to
    visit; it returns a section name. *)
Fixpoint scan_file (self : ConfigParser) (extension : string)
         (todo : list string) : result (option string) :=
  match todo with
  | [] => Ok None
  | section :: rest =>
      if negb (contains "default" section) && contains "editor" section
      then
        p <- getitem self section ;;
        v <- proxy_get p "extensions" ;;
        if mem extension (split " " v)
        then Ok (Some section)
        else scan_file self extension rest
      else scan_file self extension rest
  end.

Definition guess_file_command (self : ConfigParser) (file : string)
  : result string :=
  let file_name := basename file in
  let extension := final (split "." file_name) in
  found <- scan_file self extension (sections self) ;;
  match found with
  | Some section => Ok section
  | None => Ok "editor:default"
  end.

(** The loop of [guess_url_command], which prints the name of every section
    it tests: the lines printed, and the outcome. *)
Fixpoint scan_url (self : ConfigParser) (domain : string)
         (todo : list string) : list string * result (option string) :=
  match todo with
  | [] => ([], Ok None)
  | section :: rest =>
      if negb (contains "default" section) && contains "opener" section
      then
        match (p <- getitem self section ;; proxy_get p "domains") with
        | Raise e => ([section], Raise e)
        | Ok v =>
            if mem domain (split " " v)
            then ([section], Ok (Some section))
            else let (out, r) := scan_url self domain rest in
                 (section :: out, r)
        end
      else scan_url self domain rest
  end.

Section url.

(** [urlparse(url).netloc], of the standard library, which raises on a
    URL that it cannot split. *)
Variable netloc : string -> result string.

Definition guess_url_command (self : ConfigParser) (url : string)
  : list string * result string :=
  match netloc url with
  | Raise e => ([], Raise e)
  | Ok domain =>
      if negb (truthy domain) then
        (["Failed to parse URL. Attempt default opener."],
         Ok "opener:default")
      else
        let (out, r) := scan_url self domain (sections self) in
        (out, found <- r ;;
              match found with
              | Some section => Ok section
              | None => Ok "opener:default"
              end)
  end.

End url.

End TurmyxConfig.

(** *** The commands [add] and [remove] *)

(** What a command acts on: the store it is passed, the lines it echoes,
    and the stores it writes to the configuration file. *)
Record World : Type := mkWorld {
  config_ctx : ConfigParser;
  stdout : list string;
  written : list ConfigParser
}.

Definition echo (line : string) : State World unit :=
  fun w => (Ok tt, mkWorld (config_ctx w) (stdout w ++ [line]) (written w)).

(** [with open(config_ctx.config_path, "w") as f: config_ctx.write(f)]. *)
Definition write_config : State World unit :=
  fun w => (Ok tt, mkWorld (config_ctx w) (stdout w)
                           (written w ++ [config_ctx w])).

Definition on_config {A} (m : State ConfigParser A) : State World A :=
  fun w => let (r, c) := m (config_ctx w) in
           (r, mkWorld c (stdout w) (written w)).

Definition newline : string := String (ascii_of_nat 10) EmptyString.

Section add.

(** [shutil.which] and [os.path.abspath] look at the file system. *)
Variable which : string -> option string.
Variable abspath : string -> string.

Definition add (script mode : string) (cases_list : list string)
           (name : option string) (default : bool) : State World unit :=
  if negb (mem mode ["opener"; "editor"]) then
    echo (mode ++ " is not 'opener' or 'editor' mode.")
  else
    _ <~ echo ("Evaluating script: " ++ script) ;;
    match which script with
    | None => echo "Given script not found or not executable."
    | Some script_path =>
        let script_path := abspath script_path in
        _ <~ echo ("Absolute path found for script: " ++ script_path) ;;
        let basename := basename script_path in
        let section :=
          if negb default then
            mode ++ ":" ++ match name with
                           | Some n => if truthy n then n else basename
                           | None => basename
                           end
          else mode ++ ":default" in
        _ <~ on_config (fun c => (Ok tt, setitem_empty c section)) ;;
        _ <~ on_config (set section (Some "command") script_path) ;;
        _ <~ (match cases_list with
              | _ :: _ =>
                  if negb default then
                    on_config
                      (set section
                           (Some (if String.eqb mode "editor"
                                  then "extensions" else "domains"))
                           (join " " cases_list))
                  else sret tt
              | [] => sret tt
              end) ;;
        write_config
    end.

End add.

(** The list [section_guesses] that [remove] collects when the section is
    not there. *)
Definition section_guesses (config_ctx : ConfigParser) (script : string)
  : list string :=
  filter (fun section => contains script section) (sections config_ctx).

Definition remove (script : string) : State World unit :=
  fun w =>
    match remove_section (config_ctx w) script with
    | (true, c) =>
        (_ <~ echo "Script configuration successfully removed!" ;;
         write_config) (mkWorld c (stdout w) (written w))
    | (false, c) =>
        (_ <~ echo "Configuration not found." ;;
         match section_guesses c script with
         | (_ :: _) as guesses =>
             echo ("Maybe you want to say:" ++ newline
                   ++ join newline guesses)
         | [] => sret tt
         end) (mkWorld c (stdout w) (written w))
    end.

End turmyx.


(** ** Vocabulary of the statements *)

Import config.

(** Run a mutator on a store and keep the store. *)
Definition run {S A} (m : State S A) (s : S) : S := snd (m s).

(** *** The scan of the flat store *)

(** The sections that the scan of [__get_section] tests for [section_kind]:
    the non-default rules of the partition as the flat store sees it. *)
Definition visited (section_kind section : string) : bool :=
  negb (contains "default" section) && contains section_kind section.

(** The classifier list of a stored section, as the scan reads it. *)
Definition classifiers (self : ConfigParser) (class_kind section : string)
  : result (list string) :=
  p <- getitem self section ;;
  v <- proxy_get p class_kind ;;
  Ok (split " " v).

(** The section has a readable classifier list, and the classifier is
    (respectively is not) in it. *)
Definition matches (self : ConfigParser)
           (class_kind class_name section : string) : Prop :=
  exists l, classifiers self class_kind section = Ok l /\ In class_name l.

Definition misses (self : ConfigParser)
           (class_kind class_name section : string) : Prop :=
  exists l, classifiers self class_kind section = Ok l /\ ~ In class_name l.

(** No rule that the scan tests handles the classifier. *)
Definition no_match (self : ConfigParser)
           (section_kind class_kind class_name : string) : Prop :=
  forall s, In s (sections self) -> visited section_kind s = true ->
            misses self class_kind class_name s.

(** The extension that [guess_file_command] derives from a path. *)
Definition extension_of (file : string) : string :=
  final (split "." (basename file)).

(** The options that [__get_command] reads from a section can be read:
    the executable, and the arguments and the classifier list when the
    section has them. *)
Definition readable (p : SectionProxy) (class_kind : string) : Prop :=
  is_ok (proxy_get p "command") = true
  /\ (proxy_contains p "args" = true -> is_ok (proxy_get p "args") = true)
  /\ (proxy_contains p class_kind = true ->
      is_ok (proxy_get p class_kind) = true).

(** The stored sections are Commands: each rule that the scan tests has a
    classifier list that can be read, and the options of each section can
    be read. *)
Definition well_formed (self : ConfigParser)
           (section_kind class_kind : string) : Prop :=
  (forall s, In s (sections self) -> visited section_kind s = true ->
             is_ok (classifiers self class_kind s) = true)
  /\ (forall s p, In s (sections self) -> getitem self s = Ok p ->
                  readable p class_kind).

(** A value, and a store, without a dollar sign: nothing to interpolate. *)
Definition dollar_free (v : string) : Prop := contains "$" v = false.

Definition plain_options (opts : options) : Prop :=
  Forall (fun kv => dollar_free (snd kv)) opts.

Definition plain (self : ConfigParser) : Prop :=
  plain_options (_defaults self)
  /\ Forall (fun so => plain_options (snd so)) (_sections self).

(** The Command that [__get_command] builds from the section it found. *)
Definition command_of (section : SectionProxy) (class_kind : string)
  : result Command :=
  command <- proxy_get section "command" ;;
  args <- (if proxy_contains section "args"
           then proxy_get section "args" else Ok "") ;;
  classes <- (if proxy_contains section class_kind
              then v <- proxy_get section class_kind ;; Ok (split " " v)
              else Ok []) ;;
  Ok (mkCommand command args classes
                (first (split ":" (configparser.name section)))).

(** *** Updates of the flat store *)

(** The name under which [__set_command] stores a Command. *)
Definition stored_name (c : Command) : string :=
  if truthy (commands.name c) then commands.name c
  else path_name (commands.command c).

(** The section that [add] writes, and the options it leaves in it, for
    the path [script_path] that [abspath] gave. *)
Definition added_section (script_path mode : string) (name : option string)
           (default : bool) : string :=
  if default then mode ++ ":default"
  else mode ++ ":" ++ match name with
                      | Some n => if truthy n then n else basename script_path
                      | None => basename script_path
                      end.

Definition added_options (script_path mode : string)
           (cases_list : list string) (default : bool) : options :=
  ("command", script_path)
  :: match cases_list with
     | _ :: _ =>
         if default then []
         else [(if String.eqb mode "editor" then "extensions" else "domains",
                join " " cases_list)]
     | [] => []
     end.

(** A value that [set] stores: an empty one, or one that [before_set]
    lets through. *)
Definition accepts (value : string) : bool :=
  negb (truthy value) || is_ok (before_set value).

(** The three values of a Command that [__set_command] stores. *)
Definition accepted (c : Command) : bool :=
  accepts (commands.command c) && accepts (args c)
  && accepts (join " " (classes c)).

(** A Command without a dollar sign in its executable, arguments and
    classifiers. *)
Definition dollar_free_command (c : Command) : Prop :=
  dollar_free (commands.command c) /\ dollar_free (args c)
  /\ Forall dollar_free (classes c).

(** Two stores with the same defaults and the same sections but for the
    section [S]. *)
Definition same_but (S : string) (self self' : ConfigParser) : Prop :=
  _defaults self' = _defaults self
  /\ forall s, s <> S ->
               dict_get s (_sections self') = dict_get s (_sections self).

(** The outcome of a scan with the section it found seen through another
    store. *)
Definition renew (self' : ConfigParser)
           (found : result (option SectionProxy))
  : result (option SectionProxy) :=
  match found with
  | Ok (Some p) => Ok (Some (mkSectionProxy self' (configparser.name p)))
  | _ => found
  end.


(** The store with the options of one section replaced, or with the section
    appended when it is new. *)
Definition with_section (self : ConfigParser) (section : string)
           (opts : options) : ConfigParser :=
  mkConfigParser (_defaults self) (dict_set section opts (_sections self)).

(** The options that a section has of its own; none when it is absent. *)
Definition section_options (self : ConfigParser) (section : string)
  : options :=
  match dict_get section (_sections self) with
  | Some opts => opts
  | None => []
  end.

(** *** Suggestions, in the words of the specification *)

(** The rule name of a section of the partition: what follows
    ["<kind>:"]. *)
Definition entry_of (kind section : string) : option string :=
  if String.prefix (kind ++ ":") section
  then Some (substring (String.length kind + 1)
                       (String.length section - (String.length kind + 1))
                       section)
  else None.

(** [partition.names()]. *)
Definition partition_names (self : ConfigParser) (kind : string)
  : list string :=
  flat_map (fun s => match entry_of kind s with
                     | Some n => [n]
                     | None => []
                     end) (sections self).

(** [[n for n in partition.names() if name is a substring of n]]. *)
Definition spec_suggestions (self : ConfigParser) (kind name : string)
  : list string :=
  filter (fun n => contains name n) (partition_names self kind).

(** *** One rule set in both stores *)

(** The flat store that holds a rule set: every rule, then the default if
    there is one, is written by [__set_command] under its name in the
    partition. *)
Fixpoint write_rules (kind : string) (rules : list (string * Command))
  : State ConfigParser unit :=
  match rules with
  | [] => sret tt
  | (n, c) :: rest =>
      _ <~ CfgConfig.__set_command
             (mkCommand (commands.command c) (args c) (classes c) n) kind ;;
      write_rules kind rest
  end.

Definition write_partition (kind : string) (d : CommandDict)
  : State ConfigParser unit :=
  _ <~ write_rules kind (items d) ;;
  match default d with
  | Some c =>
      CfgConfig.__set_command
        (mkCommand (commands.command c) (args c) (classes c) "default") kind
  | None => sret tt
  end.

Definition flat_registry (editors openers : CommandDict) : ConfigParser :=
  run (_ <~ write_partition "file-editors" editors ;;
       write_partition "url-openers" openers) empty.

(** The structured store that holds the same rule set. *)
Definition structured_registry (editors openers : CommandDict)
  : YAMLConfig.t :=
  YAMLConfig.mk (Some editors) (Some openers).

(** The section of a rule as [__set_command] lays it out. *)
Definition flat_section (kind class_kind : string) (nc : string * Command)
  : string * options :=
  (kind ++ ":" ++ fst nc,
   [("command", commands.command (snd nc)); ("args", args (snd nc));
    (class_kind, join " " (classes (snd nc)))]).

Definition flat_partition (kind class_kind : string) (d : CommandDict)
  : list (string * options) :=
  (map (flat_section kind class_kind) (items d)
   ++ match default d with
      | Some c => [flat_section kind class_kind ("default", c)]
      | None => []
      end)%list.

(** Rules that both stores can tell apart: distinct non-empty names, no
    section name that contains ["default"] or the kind of the other
    partition, for every rule at least one classifier, none with a space,
    and no dollar sign in any rule nor in the default. *)
Definition valid_rules (kind other : string) (d : CommandDict) : Prop :=
  NoDup (map fst (items d))
  /\ (forall n c, In (n, c) (items d) ->
        truthy n = true
        /\ contains "default" (kind ++ ":" ++ n) = false
        /\ contains other (kind ++ ":" ++ n) = false
        /\ classes c <> []
        /\ Forall (fun x => contains " " x = false) (classes c)
        /\ dollar_free_command c)
  /\ (forall c, default d = Some c -> dollar_free_command c).

(** Two resolutions of one classifier agree: both fail, or both give a
    Command with the same executable and arguments, and with the same
    classifiers when a rule of the partition [d] has the classifier. *)
Definition agree (class_name : string) (d : CommandDict)
           (structured flat : result Command) : Prop :=
  match structured with
  | Ok c =>
      exists c', flat = Ok c'
                 /\ commands.command c' = commands.command c
                 /\ args c' = args c
                 /\ (mem class_name (flat_map classes (values d)) = true ->
                     classes c' = classes c)
  | Raise _ => is_ok flat = false
  end.

(** What [save] would hand to [yaml.dump] if it used the keys that [load]
    reads. *)
Definition with_load_keys (y : yaml) : yaml :=
  match y with
  | YMap [(_, editors); (_, openers)] =>
      YMap [("file-editors", editors); ("url-openers", openers)]
  | _ => y
  end.

(** ** Commands and stores used as examples *)

Definition nano : Command :=
  mkCommand "/usr/bin/nano" "" ["txt"; "md"] "nano".
Definition radare : Command :=
  mkCommand "/usr/bin/r2" "-A" ["exe"] "radare".
Definition vi : Command :=
  mkCommand "/usr/bin/vi" "" [] "default".
Definition vim : Command :=
  mkCommand "/usr/bin/vim" "" [] "vim".
Definition zathura : Command :=
  mkCommand "/usr/bin/zathura" "" ["pdf"] "default-pdf".
Definition ytdl : Command :=
  mkCommand "/usr/bin/youtube-dl" "" ["youtube.com"; "youtu.be"] "ytdl".
Definition qr : Command :=
  mkCommand "/usr/bin/qr" "" [] "default".

(** *** Flat stores of [CfgConfig] *)

(** The flat store after [set_file_editor] of [nano], [radare] and the
    default [vi], in that order. *)
Definition editors_store : ConfigParser :=
  run (_ <~ CfgConfig.set_file_editor nano ;;
       _ <~ CfgConfig.set_file_editor radare ;;
       CfgConfig.set_file_editor vi) empty.

(** A rule named like the default: [default-pdf] handles [pdf]. *)
Definition shadowed_store : ConfigParser :=
  run (_ <~ CfgConfig.set_file_editor zathura ;;
       CfgConfig.set_file_editor vi) empty.

(** The rule [default-pdf] alone, without a default. *)
Definition default_pdf_only_store : ConfigParser :=
  run (CfgConfig.set_file_editor zathura) empty.

(** A rule named like its partition. *)
Definition namesake_store : ConfigParser :=
  run (CfgConfig.set_file_editor
         (mkCommand "/usr/bin/nano" "" ["txt"] "file-editors")) empty.

(** A section whose name has the kind after other text. *)
Definition prefixed_store : ConfigParser :=
  mkConfigParser []
    [("old-file-editors:nano",
      [("command", "/usr/bin/nano"); ("args", ""); ("extensions", "txt")])].

(** An opener whose name contains the kind of the other partition. *)
Definition crossed_store : ConfigParser :=
  run (_ <~ CfgConfig.__set_command
              (mkCommand "/usr/bin/w3m" "" ["x.org"] "file-editors-web")
              "url-openers" ;;
       CfgConfig.set_file_editor vi) empty.

(** A rule stored without a classifier list, and a default. *)
Definition bare_rule_store : ConfigParser :=
  mkConfigParser []
    [("file-editors:nano", [("command", "/usr/bin/nano")]);
     ("file-editors:default", [("command", "/usr/bin/vi")])].

(** A default whose executable refers to an option that is not there. *)
Definition dangling_store : ConfigParser :=
  mkConfigParser []
    [("file-editors:default", [("command", "${editor}")])].

(** One opener: the partition [file-editors] of this store has no rule
    and no default. *)
Definition openers_only_store : ConfigParser :=
  mkConfigParser []
    [("url-openers:ytdl",
      [("command", "/usr/bin/youtube-dl"); ("args", "");
       ("domains", "youtube.com youtu.be")])].

(** The default opener only, written as [__set_command] writes a section
    of the partition [url-openers]. *)
Definition url_store : ConfigParser :=
  run (CfgConfig.__set_command qr "url-openers") empty.

(** *** Stores of the front end *)

(** The rules of [editors_store] as the front end names them. *)
Definition cli_store : ConfigParser :=
  mkConfigParser []
    [("editor:nano", [("command", "/usr/bin/nano"); ("extensions", "txt md")]);
     ("editor:radare", [("command", "/usr/bin/r2"); ("extensions", "exe")]);
     ("editor:default", [("command", "/usr/bin/vi")])].

(** Openers, one of them with an empty domain list. *)
Definition openers_store : ConfigParser :=
  mkConfigParser []
    [("opener:blank", [("command", "/usr/bin/true"); ("domains", "")]);
     ("opener:ytdl", [("command", "/usr/bin/youtube-dl");
                      ("domains", "youtube.com youtu.be")]);
     ("opener:default", [("command", "/usr/bin/qr")])].

(** An editor with an empty extension list, and a default. *)
Definition blank_editor_store : ConfigParser :=
  mkConfigParser []
    [("editor:blank", [("command", "/usr/bin/true"); ("extensions", "")]);
     ("editor:default", [("command", "/usr/bin/vi")])].

(** Two partitions with rules of similar names. *)
Definition guess_store : ConfigParser :=
  mkConfigParser []
    [("editor:nano", [("command", "/usr/bin/nano"); ("extensions", "txt")]);
     ("opener:nanoweb", [("command", "/usr/bin/nanoweb");
                         ("domains", "nano.org")])].

(** A stand-in for [urlparse(url).netloc] on URLs written
    [scheme://host/path]: the text between the double slash and the next
    slash, and nothing for a text of another shape; like [urlparse] it
    raises on a host with one square bracket and not the other. *)
Definition netloc_of (url : string) : result string :=
  match split "/" url with
  | _ :: "" :: host :: _ =>
      if xorb (contains "[" host) (contains "]" host)
      then Raise (ValueError "Invalid IPv6 URL")
      else Ok host
  | _ => Ok ""
  end.

(** A file system on which every script is found in [/usr/bin]. *)
Definition which_usr_bin (script : string) : option string :=
  Some ("/usr/bin/" ++ script).
Definition abspath_id (path : string) : string := path.

(** *** Rule sets and structured stores *)

(** A rule whose executable has a dollar sign. *)
Definition env_editor : Command :=
  mkCommand "/usr/bin/$EDITOR" "" ["txt"] "ed".
Definition dollar_dict : CommandDict :=
  mkCommandDict (Some vi) [("ed", env_editor)].

Definition editors_dict : CommandDict :=
  mkCommandDict (Some vi) [("nano", nano); ("radare", radare)].
Definition openers_dict : CommandDict :=
  mkCommandDict (Some qr) [("ytdl", ytdl)].
Definition shadowed_dict : CommandDict :=
  mkCommandDict (Some vi) [("default-pdf", zathura)].

(** Editors [nano] and [radare] with default [vi], opener [ytdl] with
    default [qr]. *)
Definition yaml_registry : YAMLConfig.t :=
  structured_registry editors_dict openers_dict.

(** What [save] hands to [yaml.dump] for [yaml_registry]. *)
Definition saved_registry : yaml :=
  Eval vm_compute in
    match YAMLConfig.save commands.as_dict yaml_registry with
    | Ok y => y
    | Raise _ => YNone
    end.

(** ** [turmyx.py]: the commands [editor] and [opener] *)

Module launch.

(** What [subprocess.check_call] does with an argument list: the program
    runs and exits with 0, or the program is not there
    ([FileNotFoundError]), or another exception is raised. *)
Inductive spawn : Type :=
| Returned
| FileNotFound
| Failed (e : exn).

(** What a command leaves behind: the lines on the standard output, the
    argument lists handed to [check_call], and how it ends. *)
Definition outcome : Type := list string * list (list string) * result unit.

Section launch.

Variable check_call : list string -> spawn.

(** The [try] block once the argument list is built: echo it, call it,
    and report a program that is not there. *)
Definition attempt (command : string) (call_args : list string) : outcome :=
  match check_call call_args with
  | Returned => ([join " " call_args], [call_args], Ok tt)
  | FileNotFound =>
      ([join " " call_args;
        "'" ++ command
        ++ "' not found. Please check the any typo or installation."],
       [call_args], Ok tt)
  | Failed e => ([join " " call_args], [call_args], Raise e)
  end.

(** What [editor] and [opener] do alike once the section is guessed: look
    the executable up, build the argument list and attempt the call.  The
    test ["command_args" in section] is on the name of the section. *)
Definition call_section (config_ctx : ConfigParser) (section target : string)
  : outcome :=
  match (p <- getitem config_ctx section ;; proxy_get p "command") with
  | Raise e => ([], [], Raise e)
  | Ok command =>
      match (if contains "command_args" section
             then p <- getitem config_ctx section ;;
                  arguments <- proxy_get p "command_args" ;;
                  Ok (command :: split " " arguments ++ [target])%list
             else Ok [command; target]) with
      | Raise e => ([], [], Raise e)
      | Ok call_args => attempt command call_args
      end
  end.

(** [editor]; the argument [file] is optional. *)
Definition editor (config_ctx : ConfigParser) (file : option string)
  : outcome :=
  match file with
  | None => ([], [], Ok tt)
  | Some file =>
      match turmyx.TurmyxConfig.guess_file_command config_ctx file with
      | Raise e => ([], [], Raise e)
      | Ok section => call_section config_ctx section file
      end
  end.

Variable netloc : string -> result string.

(** [opener]; what [guess_url_command] prints comes first. *)
Definition opener (config_ctx : ConfigParser) (url : option string)
  : outcome :=
  match url with
  | None => ([], [], Ok tt)
  | Some url =>
      let (printed, guessed) :=
        turmyx.TurmyxConfig.guess_url_command netloc config_ctx url in
      match guessed with
      | Raise e => (printed, [], Raise e)
      | Ok section =>
          let '(echoed, called, r) := call_section config_ctx section url in
          ((printed ++ echoed)%list, called, r)
      end
  end.

End launch.

End launch.

(** ** Further vocabulary *)

(** The store with one section deleted. *)
Definition without_section (self : ConfigParser) (section : string)
  : ConfigParser :=
  mkConfigParser (_defaults self) (dict_del section (_sections self)).

(** What [set] does to the options of the section it is given, after
    what came before it: nothing after an exception; [TypeError] for the
    option [None]; the value stored under the lower-cased option when
    [before_set] lets it through, and its [ValueError] otherwise. *)
Definition put (option : Datatypes.option string) (value : string)
           (st : result unit * options) : result unit * options :=
  match st with
  | (Raise e, opts) => (Raise e, opts)
  | (Ok _, opts) =>
      match option with
      | None => (Raise (TypeError "option keys must be strings"), opts)
      | Some o =>
          if accepts value
          then (Ok tt, dict_set (optionxform o) value opts)
          else (Raise (InvalidInterpolationSyntax
                         value
                         (str_find "$" (strip_references
                                          (strip_escaped value)))),
                opts)
      end
  end.

(** How [__set_command] ends, and the options it leaves in the section
    that had the options [old]. *)
Definition stored (c : Command) (kind : string) (old : options)
  : result unit * options :=
  put (classes_name kind) (join " " (classes c))
      (put (Some "args") (args c)
           (put (Some "command") (commands.command c) (Ok tt, old))).

(** Two mappings of the structured store with the same keys in the same
    order, each key with a mapping of the same lookups. *)
Definition same_commands (m m' : list (string * yaml)) : Prop :=
  Forall2 (fun kd kd' =>
             fst kd = fst kd'
             /\ exists d d', snd kd = YMap d /\ snd kd' = YMap d'
                             /\ forall k, dict_get k d' = dict_get k d)
          m m'.

(** A rule whose extension list refers to an option of a helper section. *)
Definition referring_store : ConfigParser :=
  mkConfigParser []
    [("paths", [("ext", "md")]);
     ("editor:nano", [("command", "/usr/bin/nano");
                      ("extensions", "${paths:ext} txt")]);
     ("editor:default", [("command", "/usr/bin/vi")])].

(** ** Strings and dictionaries *)

Lemma mem_In (x : string) (l : list string) : mem x l = true <-> In x l.
Proof.
  unfold mem. rewrite existsb_exists. split.
  - intros [y [Hy Heq]]. apply String.eqb_eq in Heq. now subst.
  - intros H. exists x. split; [assumption | apply String.eqb_refl].
Qed.

Lemma mem_false (x : string) (l : list string) : mem x l = false <-> ~ In x l.
Proof.
  rewrite <- mem_In. destruct (mem x l); split; intros; congruence.
Qed.

Lemma prefix_app (a b : string) : String.prefix a (a ++ b) = true.
Proof.
  induction a as [|c a IH]; simpl.
  - destruct b; reflexivity.
  - destruct (ascii_dec c c); [assumption | congruence].
Qed.

Lemma prefix_inv (a s : string) :
  String.prefix a s = true -> exists b, s = a ++ b.
Proof.
  revert s. induction a as [|c a IH]; intros s H.
  - now exists s.
  - destruct s as [|d s]; simpl in H; [discriminate|].
    destruct (ascii_dec c d) as [->|]; [|discriminate].
    destruct (IH _ H) as [b ->]. now exists b.
Qed.

Lemma contains_nil (sub : string) :
  contains sub "" = String.prefix sub "" || false.
Proof. reflexivity. Qed.

Lemma contains_cons (sub : string) (c : ascii) (s : string) :
  contains sub (String c s) = String.prefix sub (String c s) || contains sub s.
Proof. reflexivity. Qed.

Lemma contains_prefix (sub s : string) :
  String.prefix sub s = true -> contains sub s = true.
Proof.
  intros H. destruct s; [rewrite contains_nil | rewrite contains_cons];
    rewrite H; reflexivity.
Qed.

(** [contains] is the substring relation. *)
Lemma contains_spec (sub s : string) :
  contains sub s = true <-> exists a b, s = a ++ sub ++ b.
Proof.
  split.
  - induction s as [|c s IH]; intros H.
    + rewrite contains_nil, orb_false_r in H. apply prefix_inv in H as [b ->].
      now exists "", b.
    + rewrite contains_cons in H. apply orb_true_iff in H as [H|H].
      * apply prefix_inv in H as [b ->]. now exists "", b.
      * destruct (IH H) as (a & b & ->). now exists (String c a), b.
  - intros (a & b & ->). induction a as [|c a IH].
    + change ("" ++ sub ++ b) with (sub ++ b).
      apply contains_prefix, prefix_app.
    + change (String c a ++ sub ++ b) with (String c (a ++ sub ++ b)).
      rewrite contains_cons, IH. apply orb_true_r.
Qed.

Lemma dict_get_app {V} (k : string) (a b : list (string * V)) :
  dict_get k (a ++ b)
  = match dict_get k a with
    | Some v => Some v
    | None => dict_get k b
    end.
Proof.
  induction a as [|[k' v'] a IH]; simpl; [reflexivity|].
  destruct (String.eqb k k'); [reflexivity | exact IH].
Qed.

(** ** Sections and their proxies *)

Lemma getitem_inv (self : ConfigParser) (key : string) (p : SectionProxy) :
  getitem self key = Ok p ->
  p = mkSectionProxy self key /\ contains_section self key = true.
Proof.
  unfold getitem, contains_section.
  destruct (String.eqb key default_section); simpl.
  - intros [= <-]. now split.
  - destruct (has_section self key); simpl; [|discriminate].
    intros [= <-]. now split.
Qed.

Lemma getitem_ok (self : ConfigParser) (key : string) :
  contains_section self key = true ->
  getitem self key = Ok (mkSectionProxy self key).
Proof.
  unfold getitem, contains_section.
  destruct (String.eqb key default_section); simpl; [reflexivity|].
  now intros ->.
Qed.

Lemma getitem_name (self : ConfigParser) (key : string) (p : SectionProxy) :
  getitem self key = Ok p -> configparser.name p = key.
Proof. intros H. apply getitem_inv in H as [-> _]. reflexivity. Qed.

Lemma getitem_parser (self : ConfigParser) (key : string)
      (p : SectionProxy) :
  getitem self key = Ok p -> _parser p = self.
Proof. intros H. apply getitem_inv in H as [-> _]. reflexivity. Qed.

(** ** Values without a dollar sign *)

Lemma contains_dollar (c : ascii) (s : string) :
  contains "$" (String c s) = Ascii.eqb c "$" || contains "$" s.
Proof.
  rewrite contains_cons. f_equal. cbn [String.prefix].
  destruct (ascii_dec "$" c) as [<-|H].
  - now destruct s.
  - symmetry. apply Ascii.eqb_neq. congruence.
Qed.

Lemma pieces_dollar_free (v : string) :
  contains "$" v = false -> pieces v = map Char (list_ascii_of_string v).
Proof.
  induction v as [|c v IH]; intros H; [reflexivity|].
  rewrite contains_dollar in H. apply orb_false_iff in H as [Hc Hv].
  cbn [pieces list_ascii_of_string map]. rewrite Hc. now rewrite IH.
Qed.

Lemma accumulate_chars
      (parser : ConfigParser)
      (deeper : string -> string -> string -> result string)
      (option section rawval : string) (map : options) (v : string) :
  accumulate parser deeper option section rawval map
             (List.map Char (list_ascii_of_string v))
  = Ok v.
Proof.
  induction v as [|c v IH]; [reflexivity|].
  cbn [list_ascii_of_string List.map accumulate]. now rewrite IH.
Qed.

(** A value without a dollar sign is read as it is stored. *)
Lemma before_get_dollar_free
      (parser : ConfigParser) (section option value : string)
      (defaults : options) :
  contains "$" value = false ->
  before_get parser section option value defaults = Ok value.
Proof.
  intros H. unfold before_get, MAX_INTERPOLATION_DEPTH.
  cbn [_interpolate_some]. rewrite pieces_dollar_free by assumption.
  apply accumulate_chars.
Qed.

Lemma strip_escaped_dollar_free (v : string) :
  contains "$" v = false -> strip_escaped v = v.
Proof.
  induction v as [|c v IH]; intros H; [reflexivity|].
  rewrite contains_dollar in H. apply orb_false_iff in H as [Hc Hv].
  cbn [strip_escaped]. destruct v as [|c' v']; [reflexivity|].
  rewrite Hc. cbn [andb]. now rewrite IH.
Qed.

Lemma strip_references_dollar_free (v : string) :
  contains "$" v = false -> strip_references v = v.
Proof.
  induction v as [|c v IH]; intros H; [reflexivity|].
  rewrite contains_dollar in H. apply orb_false_iff in H as [Hc Hv].
  cbn [strip_references]. destruct v as [|c' v']; [reflexivity|].
  rewrite Hc. cbn [andb]. now rewrite IH.
Qed.

(** A value without a dollar sign is accepted as it is. *)
Lemma before_set_dollar_free (v : string) :
  contains "$" v = false -> before_set v = Ok v.
Proof.
  intros H. unfold before_set.
  rewrite strip_escaped_dollar_free, strip_references_dollar_free
    by assumption.
  now rewrite H.
Qed.

(** [before_set] hands the value on or raises the [ValueError]. *)
Lemma before_set_cases (v : string) :
  before_set v = Ok v
  \/ exists n, before_set v = Raise (InvalidInterpolationSyntax v n).
Proof.
  unfold before_set.
  destruct (contains "$" (strip_references (strip_escaped v)));
    [right; eexists; reflexivity | now left].
Qed.

(** The pieces of a split do not contain the separator. *)
Lemma split_pieces (sep : ascii) (s : string) :
  Forall (fun t => contains (String sep "") t = false) (split sep s).
Proof.
  induction s as [|c s IH]; simpl.
  - constructor; [reflexivity | constructor].
  - destruct (Ascii.eqb_spec c sep) as [->|Hne].
    + constructor; [reflexivity | exact IH].
    + destruct (split sep s) as [|w ws]; inversion IH; subst.
      * constructor; [|constructor]. rewrite contains_cons. simpl.
        destruct (ascii_dec sep c); [congruence | reflexivity].
      * constructor; [|assumption]. rewrite contains_cons.
        apply orb_false_iff. split; [|assumption]. simpl.
        destruct (ascii_dec sep c); [congruence | reflexivity].
Qed.

(** ** Stores that differ in one section *)

Section agree.

(** Two stores that are the same but for the section [S], whose name has a
    colon: a reference [${section:option}] names a section without a
    colon, so no reading of another section looks into [S]. *)
Variable S : string.
Variables self self' : ConfigParser.
Hypothesis S_colon : contains ":" S = true.
Hypothesis same : same_but S self self'.

Let same_defaults : _defaults self' = _defaults self := proj1 same.
Let same_sections :
  forall s, s <> S ->
            dict_get s (_sections self') = dict_get s (_sections self)
  := proj2 same.

Lemma unify_values_agree (section : string) :
  section <> S -> _unify_values self' section = _unify_values self section.
Proof.
  intros H. unfold _unify_values.
  now rewrite same_sections, same_defaults.
Qed.

Lemma get_raw_agree (section option : string) :
  section <> S -> get_raw self' section option = get_raw self section option.
Proof. intros H. unfold get_raw. now rewrite unify_values_agree. Qed.

Lemma has_option_agree (section option : string) :
  section <> S ->
  has_option self' section option = has_option self section option.
Proof.
  intros H. unfold has_option. now rewrite same_sections, same_defaults.
Qed.

Lemma has_section_agree (section : string) :
  section <> S -> has_section self' section = has_section self section.
Proof. intros H. unfold has_section, dict_has. now rewrite same_sections. Qed.

Lemma accumulate_agree
      (deeper deeper' : string -> string -> string -> result string)
      (option section rawval : string) (map : options) (todo : list piece) :
  (forall opt v sect, sect <> S -> deeper' opt v sect = deeper opt v sect) ->
  section <> S ->
  accumulate self' deeper' option section rawval map todo
  = accumulate self deeper option section rawval map todo.
Proof.
  intros Hd Hs. induction todo as [|t todo IH]; [reflexivity|].
  destruct t as [c| |group rest|rest|rest]; cbn [accumulate];
    try (now rewrite IH); try reflexivity.
  pose proof (split_pieces ":" group) as Hp.
  destruct (split ":" group) as [|a [|b [|? ?]]]; try reflexivity.
  - destruct (dict_get (optionxform a) map) as [v|]; [|reflexivity].
    cbn [bind]. rewrite IH.
    destruct (contains "$" v); [now rewrite Hd | reflexivity].
  - assert (Ha : a <> S).
    { intros ->. inversion Hp; subst. congruence. }
    rewrite get_raw_agree by assumption.
    destruct (get_raw self a (optionxform b)) as [v|]; [|reflexivity].
    cbn [bind]. rewrite IH.
    destruct (contains "$" v); [now rewrite Hd | reflexivity].
Qed.

Lemma interpolate_some_agree (levels : nat) :
  forall option rest section map,
    section <> S ->
    _interpolate_some self' levels option rest section map
    = _interpolate_some self levels option rest section map.
Proof.
  induction levels as [|n IH]; intros o rest s m Hs; [reflexivity|].
  cbn [_interpolate_some]. apply accumulate_agree; [|assumption].
  intros opt v sect Hsect. rewrite unify_values_agree by assumption.
  destruct (_unify_values self sect); [|reflexivity].
  cbn [bind]. now apply IH.
Qed.

Lemma get_agree (section option : string) :
  section <> S -> get self' section option = get self section option.
Proof.
  intros H. unfold get. rewrite (unify_values_agree section H).
  destruct (_unify_values self section) as [d|]; cbn [bind]; [|reflexivity].
  destruct (dict_get (optionxform option) d); [|reflexivity].
  unfold before_get. now apply interpolate_some_agree.
Qed.

(** Reading another section through a proxy gives the same in both
    stores. *)
Lemma proxy_get_agree (section key : string) :
  section <> S ->
  proxy_get (mkSectionProxy self' section) key
  = proxy_get (mkSectionProxy self section) key.
Proof.
  intros H. unfold proxy_get. cbn [_parser configparser.name].
  rewrite (has_option_agree section key H), (get_agree section key H).
  reflexivity.
Qed.

Lemma proxy_contains_agree (section key : string) :
  section <> S ->
  proxy_contains (mkSectionProxy self' section) key
  = proxy_contains (mkSectionProxy self section) key.
Proof.
  intros H. unfold proxy_contains. cbn [_parser configparser.name].
  now apply has_option_agree.
Qed.

End agree.

(** ** The scan of [__get_section] *)

Section scan.

Variable self : ConfigParser.
Variables section_kind class_kind class_name : string.

Let scan := CfgConfig.scan self section_kind class_kind class_name.

Lemma classifiers_inv (s : string) (l : list string) :
  classifiers self class_kind s = Ok l ->
  exists p v, getitem self s = Ok p /\ proxy_get p class_kind = Ok v
              /\ l = split " " v.
Proof.
  unfold classifiers. destruct (getitem self s) as [p|]; [|discriminate].
  simpl. destruct (proxy_get p class_kind) as [v|] eqn:Hv; [|discriminate].
  simpl. intros [= <-]. now exists p, v.
Qed.

Lemma scan_skip (s : string) (rest : list string) :
  visited section_kind s = false -> scan (s :: rest) = scan rest.
Proof.
  intros H. unfold scan. simpl. unfold visited in H. rewrite H. reflexivity.
Qed.

Lemma scan_miss (s : string) (rest : list string) :
  visited section_kind s = true -> misses self class_kind class_name s ->
  scan (s :: rest) = scan rest.
Proof.
  intros Hv (l & Hl & Hn). unfold scan. simpl.
  unfold visited in Hv. rewrite Hv.
  apply classifiers_inv in Hl as (p & v & Hp & Hg & ->).
  rewrite Hp. simpl. rewrite Hg. simpl.
  apply mem_false in Hn. rewrite Hn. reflexivity.
Qed.

Lemma scan_hit (s : string) (rest : list string) :
  visited section_kind s = true -> matches self class_kind class_name s ->
  exists p, getitem self s = Ok p /\ scan (s :: rest) = Ok (Some p).
Proof.
  intros Hv (l & Hl & Hn). unfold scan. simpl.
  unfold visited in Hv. rewrite Hv.
  apply classifiers_inv in Hl as (p & v & Hp & Hg & ->). exists p.
  rewrite Hp. simpl. rewrite Hg. simpl.
  apply mem_In in Hn. rewrite Hn. split; reflexivity.
Qed.

(** Sections that are not tested, or tested without success, are passed
    over. *)
Lemma scan_app (pre rest : list string) :
  (forall s, In s pre -> visited section_kind s = true ->
             misses self class_kind class_name s) ->
  scan (pre ++ rest) = scan rest.
Proof.
  induction pre as [|s pre IH]; intros H; [reflexivity|].
  change ((s :: pre) ++ rest)%list with (s :: (pre ++ rest)%list).
  destruct (visited section_kind s) eqn:Hv.
  - rewrite scan_miss; [|assumption|apply H; [now left | assumption]].
    apply IH. intros s' Hs'. apply H. now right.
  - rewrite scan_skip by assumption.
    apply IH. intros s' Hs'. apply H. now right.
Qed.

(** What the scan returns is a tested section that lists the classifier. *)
Lemma scan_found (todo : list string) (p : SectionProxy) :
  scan todo = Ok (Some p) ->
  In (configparser.name p) todo
  /\ visited section_kind (configparser.name p) = true
  /\ getitem self (configparser.name p) = Ok p
  /\ matches self class_kind class_name (configparser.name p).
Proof.
  induction todo as [|s todo IH]; [discriminate|].
  destruct (visited section_kind s) eqn:Hv.
  - unfold scan. simpl. unfold visited in Hv. rewrite Hv. fold (visited section_kind s) in Hv.
    destruct (getitem self s) as [q|] eqn:Hq; [|discriminate]. simpl.
    destruct (proxy_get q class_kind) as [v|] eqn:Hg; [|discriminate]. simpl.
    destruct (mem class_name (split " " v)) eqn:Hm.
    + intros [= <-]. pose proof (getitem_name _ _ _ Hq) as ->.
      repeat split; [now left | assumption | assumption |].
      exists (split " " v). split.
      * unfold classifiers. rewrite Hq. simpl. rewrite Hg. reflexivity.
      * now apply mem_In.
    + intros H. destruct (IH H) as (? & ? & ? & ?).
      repeat split; [now right | assumption..].
  - rewrite scan_skip by assumption. intros H.
    destruct (IH H) as (? & ? & ? & ?).
    repeat split; [now right | assumption..].
Qed.

(** The scan runs to its end exactly when every tested section has a
    classifier list without the classifier. *)
Lemma scan_none (todo : list string) :
  scan todo = Ok None <->
  (forall s, In s todo -> visited section_kind s = true ->
             misses self class_kind class_name s).
Proof.
  split.
  - induction todo as [|s todo IH]; [intros _ s []|].
    destruct (visited section_kind s) eqn:Hv.
    + unfold scan. simpl. unfold visited in Hv. rewrite Hv.
      fold (visited section_kind s) in Hv.
      destruct (getitem self s) as [q|] eqn:Hq; [|discriminate]. simpl.
      destruct (proxy_get q class_kind) as [v|] eqn:Hg; [|discriminate]. simpl.
      destruct (mem class_name (split " " v)) eqn:Hm; [discriminate|].
      intros H s' [<-|Hs'] Hv'; [|now apply IH].
      exists (split " " v). split.
      * unfold classifiers. rewrite Hq. simpl. rewrite Hg. reflexivity.
      * now apply mem_false.
    + rewrite scan_skip by assumption.
      intros H s' [<-|Hs'] Hv'; [congruence | now apply IH].
  - intros H. rewrite <- (app_nil_r todo). now rewrite scan_app.
Qed.

End scan.

(** ** [__get_section] and the front end's [guess_file_command] *)

Lemma get_section_first_match
      (self : ConfigParser) (section_kind class_kind class_name : string)
      (pre : list string) (s : string) (post : list string) :
  sections self = (pre ++ s :: post)%list ->
  (forall s', In s' pre -> visited section_kind s' = true ->
              misses self class_kind class_name s') ->
  visited section_kind s = true ->
  matches self class_kind class_name s ->
  CfgConfig.__get_section self section_kind class_kind class_name
  = getitem self s
  /\ is_ok (getitem self s) = true.
Proof.
  intros Hs Hpre Hv Hm. unfold CfgConfig.__get_section.
  rewrite Hs, scan_app by assumption.
  destruct (scan_hit self section_kind class_kind class_name s post Hv Hm)
    as (p & Hp & ->).
  rewrite Hp. split; reflexivity.
Qed.

Lemma get_section_fallback
      (self : ConfigParser) (section_kind class_kind class_name : string) :
  no_match self section_kind class_kind class_name ->
  CfgConfig.__get_section self section_kind class_kind class_name
  = getitem self (section_kind ++ ":default").
Proof.
  intros H. unfold CfgConfig.__get_section.
  apply scan_none in H. rewrite H. reflexivity.
Qed.

(** The front end's loop is the scan for ["editor"] and ["extensions"],
    returning the name of the section instead of the section. *)
Lemma scan_file_scan (self : ConfigParser) (extension : string)
      (todo : list string) :
  turmyx.TurmyxConfig.scan_file self extension todo
  = (found <- CfgConfig.scan self "editor" "extensions" extension todo ;;
     Ok (option_map configparser.name found)).
Proof.
  induction todo as [|s todo IH]; [reflexivity|].
  cbn [turmyx.TurmyxConfig.scan_file CfgConfig.scan].
  destruct (negb (contains "default" s) && contains "editor" s);
    [|exact IH].
  destruct (getitem self s) as [p|] eqn:Hp; [|reflexivity].
  cbn [bind]. destruct (proxy_get p "extensions") as [v|]; [|reflexivity].
  cbn [bind]. destruct (mem extension (split " " v)); [|exact IH].
  cbn. now rewrite (getitem_name _ _ _ Hp).
Qed.

(** ** The loop of the structured store *)

Lemma first_with_none (class_name : string) (todo : list Command) :
  YAMLConfig.first_with class_name todo = None <->
  mem class_name (flat_map classes todo) = false.
Proof.
  induction todo as [|c todo IH]; [split; reflexivity|].
  simpl. unfold mem in *. rewrite existsb_app.
  destruct (existsb (String.eqb class_name) (classes c)); simpl.
  - split; discriminate.
  - exact IH.
Qed.

Lemma first_with_is_find (class_name : string) (todo : list Command) :
  YAMLConfig.first_with class_name todo
  = find (fun c => mem class_name (classes c)) todo.
Proof.
  induction todo as [|c todo IH]; [reflexivity|].
  simpl. now rewrite IH.
Qed.

(** [__get_command] of the structured store returns the first Command, in
    the order of the partition, that lists the classifier, else the
    default. *)
Lemma yaml_get_command_first_match (commands : CommandDict)
      (class_name : string) :
  YAMLConfig.__get_command commands class_name
  = match find (fun c => mem class_name (classes c)) (values commands) with
    | Some c => Ok c
    | None => from_command (default commands)
    end.
Proof.
  unfold YAMLConfig.__get_command.
  destruct (mem class_name (flat_map classes (values commands))) eqn:Hm.
  - destruct (YAMLConfig.first_with class_name (values commands)) as [c|]
      eqn:Hf.
    + now rewrite <- first_with_is_find, Hf.
    + apply first_with_none in Hf. congruence.
  - apply first_with_none in Hm.
    now rewrite <- first_with_is_find, Hm.
Qed.

Lemma guess_file_command_first_match
      (self : ConfigParser) (file : string)
      (pre : list string) (s : string) (post : list string) :
  sections self = (pre ++ s :: post)%list ->
  (forall s', In s' pre -> visited "editor" s' = true ->
              misses self "extensions" (extension_of file) s') ->
  visited "editor" s = true ->
  matches self "extensions" (extension_of file) s ->
  turmyx.TurmyxConfig.guess_file_command self file = Ok s.
Proof.
  intros Hs Hpre Hv Hm. unfold turmyx.TurmyxConfig.guess_file_command.
  fold (extension_of file). rewrite scan_file_scan, Hs, scan_app by assumption.
  destruct (scan_hit self "editor" "extensions" (extension_of file) s post Hv Hm)
    as (p & Hp & ->).
  cbn. now rewrite (getitem_name _ _ _ Hp).
Qed.

Lemma guess_file_command_fallback (self : ConfigParser) (file : string) :
  no_match self "editor" "extensions" (extension_of file) ->
  turmyx.TurmyxConfig.guess_file_command self file = Ok "editor:default".
Proof.
  intros H. unfold turmyx.TurmyxConfig.guess_file_command.
  fold (extension_of file). rewrite scan_file_scan.
  apply scan_none in H. rewrite H. reflexivity.
Qed.

(** [guess_file_command] is the scan for the extension of the file. *)
Lemma guess_file_command_result (self : ConfigParser) (file : string) :
  turmyx.TurmyxConfig.guess_file_command self file
  = (found <- CfgConfig.scan self "editor" "extensions" (extension_of file)
                             (sections self) ;;
     Ok (match found with
         | Some p => configparser.name p
         | None => "editor:default"
         end)).
Proof.
  unfold turmyx.TurmyxConfig.guess_file_command. fold (extension_of file).
  rewrite scan_file_scan.
  destruct (CfgConfig.scan self "editor" "extensions" (extension_of file)
                           (sections self)) as [[p|]|]; reflexivity.
Qed.

(** ** Resolution: first match, else the default *)

(** C1, as amended.  Resolution on the flat store visits, in the order of
    the store, the sections whose name contains the kind and does not
    contain ["default"], and returns the first one whose classifier list has
    the classifier; when none has it, it returns the section
    ["<kind>:default"].  This holds for [__get_section], whatever the
    partition, and for [guess_file_command] of the front end.  The
    structured store returns the first Command of the partition that lists
    the classifier, else the default.  With [nano] for [txt] and [md],
    [radare] for [exe] and the default [vi], [md] resolves to [nano], [exe]
    to [radare] and [bin] to [vi]. *)
Theorem resolve_first_match_or_default :
  (forall self section_kind class_kind class_name pre s post,
      sections self = (pre ++ s :: post)%list ->
      (forall s', In s' pre -> visited section_kind s' = true ->
                  misses self class_kind class_name s') ->
      visited section_kind s = true ->
      matches self class_kind class_name s ->
      CfgConfig.__get_section self section_kind class_kind class_name
      = getitem self s
      /\ is_ok (getitem self s) = true)
  /\ (forall self section_kind class_kind class_name,
         no_match self section_kind class_kind class_name ->
         CfgConfig.__get_section self section_kind class_kind class_name
         = getitem self (section_kind ++ ":default"))
  /\ (forall self file pre s post,
         sections self = (pre ++ s :: post)%list ->
         (forall s', In s' pre -> visited "editor" s' = true ->
                     misses self "extensions" (extension_of file) s') ->
         visited "editor" s = true ->
         matches self "extensions" (extension_of file) s ->
         turmyx.TurmyxConfig.guess_file_command self file = Ok s)
  /\ (forall self file,
         no_match self "editor" "extensions" (extension_of file) ->
         turmyx.TurmyxConfig.guess_file_command self file
         = Ok "editor:default")
  /\ (forall commands class_name,
         YAMLConfig.__get_command commands class_name
         = match find (fun c => mem class_name (classes c))
                      (values commands) with
           | Some c => Ok c
           | None => from_command (default commands)
           end)
  /\ (CfgConfig.__get_section editors_store "file-editors" "extensions" "md"
      = getitem editors_store "file-editors:nano"
      /\ CfgConfig.__get_section editors_store "file-editors" "extensions" "exe"
         = getitem editors_store "file-editors:radare"
      /\ CfgConfig.__get_section editors_store "file-editors" "extensions" "bin"
         = getitem editors_store "file-editors:default"
      /\ CfgConfig.get_file_editor editors_store "md"
         = Ok (mkCommand "/usr/bin/nano" "" ["txt"; "md"] "file-editors")
      /\ CfgConfig.get_file_editor editors_store "exe"
         = Ok (mkCommand "/usr/bin/r2" "-A" ["exe"] "file-editors")
      /\ CfgConfig.get_file_editor editors_store "bin"
         = Ok (mkCommand "/usr/bin/vi" "" [""] "file-editors")
      /\ turmyx.TurmyxConfig.guess_file_command cli_store "notes.md"
         = Ok "editor:nano"
      /\ turmyx.TurmyxConfig.guess_file_command cli_store "/sdcard/a.exe"
         = Ok "editor:radare"
      /\ turmyx.TurmyxConfig.guess_file_command cli_store "blob.bin"
         = Ok "editor:default").
Proof.
  split; [exact get_section_first_match|].
  split; [exact get_section_fallback|].
  split; [exact guess_file_command_first_match|].
  split; [exact guess_file_command_fallback|].
  split; [exact yaml_get_command_first_match|].
  repeat split; vm_compute; reflexivity.
Qed.

Lemma resolve_first_match_or_default_witness :
  CfgConfig.__get_section editors_store "file-editors" "extensions" "exe"
  = getitem editors_store "file-editors:radare"
  /\ is_ok (getitem editors_store "file-editors:radare") = true.
Proof.
  apply (proj1 resolve_first_match_or_default editors_store
               "file-editors" "extensions" "exe"
               ["file-editors:nano"] "file-editors:radare"
               ["file-editors:default"]).
  - reflexivity.
  - intros s' [<-|[]] _. exists ["txt"; "md"]. split; [reflexivity|].
    intros [H|[H|[]]]; discriminate H.
  - reflexivity.
  - exists ["exe"]. split; [reflexivity | now left].
Defined.

(** C1 as stated fails.  The rule [default-pdf] is a non-default Command
    of the partition [file-editors] and the only one whose classifier list
    has [pdf], yet the flat store resolves [pdf] to the default [vi]: the
    scan does not test a section whose name contains ["default"].  And the
    opener [file-editors-web], whose section name contains the kind
    ["file-editors"], is tested as an editor: resolution of [txt] raises
    on its missing [extensions] instead of returning the default. *)
Lemma first_match_skips_default_named_rule :
  sections shadowed_store
  = ["file-editors:default-pdf"; "file-editors:default"]
  /\ classifiers shadowed_store "extensions" "file-editors:default-pdf"
     = Ok ["pdf"]
  /\ CfgConfig.__get_section shadowed_store "file-editors" "extensions" "pdf"
     = getitem shadowed_store "file-editors:default"
  /\ CfgConfig.get_file_editor shadowed_store "pdf"
     = Ok (mkCommand "/usr/bin/vi" "" [""] "file-editors")
  /\ sections crossed_store
     = ["url-openers:file-editors-web"; "file-editors:default"]
  /\ CfgConfig.get_file_editor crossed_store "txt"
     = Raise (KeyError "extensions").
Proof.
  repeat split; vm_compute; reflexivity.
Qed.

(** ** Sections named like the default *)

(** C10. In the flat store a section whose name contains ["default"] is
    never returned by the scan, whatever its classifier list: when
    [__get_section] (or the front end's [guess_file_command]) returns such a
    section, it is the fallback section ["<kind>:default"] and no rule of
    the partition had the classifier. *)
Theorem default_named_sections_never_matched :
  (forall self section_kind class_kind class_name todo p,
      CfgConfig.scan self section_kind class_kind class_name todo
      = Ok (Some p) ->
      contains "default" (configparser.name p) = false)
  /\ (forall self section_kind class_kind class_name p,
         CfgConfig.__get_section self section_kind class_kind class_name
         = Ok p ->
         contains "default" (configparser.name p) = true ->
         configparser.name p = section_kind ++ ":default"
         /\ no_match self section_kind class_kind class_name)
  /\ (forall self file s,
         turmyx.TurmyxConfig.guess_file_command self file = Ok s ->
         contains "default" s = true ->
         s = "editor:default"
         /\ no_match self "editor" "extensions" (extension_of file)).
Proof.
  assert (Hscan : forall self section_kind class_kind class_name todo p,
             CfgConfig.scan self section_kind class_kind class_name todo
             = Ok (Some p) ->
             contains "default" (configparser.name p) = false).
  { intros self k ck cn todo p H.
    apply scan_found in H as (_ & Hv & _).
    unfold visited in Hv. apply andb_true_iff in Hv as [Hv _].
    now apply negb_true_iff in Hv. }
  split; [exact Hscan|]. split.
  - intros self k ck cn p. unfold CfgConfig.__get_section.
    destruct (CfgConfig.scan self k ck cn (sections self))
      as [[q|]|] eqn:Hs; cbn [bind]; [| |discriminate].
    + intros [= <-] Hd. apply Hscan in Hs. congruence.
    + intros Hp _. split; [now apply getitem_name in Hp|].
      exact (proj1 (scan_none _ _ _ _ _) Hs).
  - intros self file s. unfold turmyx.TurmyxConfig.guess_file_command.
    fold (extension_of file). rewrite scan_file_scan.
    destruct (CfgConfig.scan self "editor" "extensions" (extension_of file)
                             (sections self))
      as [[q|]|] eqn:Hs; cbn [bind option_map]; [| |discriminate].
    + intros [= <-] Hd. apply Hscan in Hs. congruence.
    + intros [= <-] _. split; [reflexivity|].
      exact (proj1 (scan_none _ _ _ _ _) Hs).
Qed.

Lemma default_named_sections_never_matched_witness :
  matches shadowed_store "extensions" "pdf" "file-editors:default-pdf"
  /\ CfgConfig.__get_section shadowed_store "file-editors" "extensions" "pdf"
     = getitem shadowed_store "file-editors:default"
  /\ no_match shadowed_store "file-editors" "extensions" "pdf".
Proof.
  split; [exists ["pdf"]; split; [reflexivity | now left]|].
  split; [reflexivity|].
  apply (proj1 (proj2 default_named_sections_never_matched)
               shadowed_store "file-editors" "extensions" "pdf"
               (mkSectionProxy shadowed_store "file-editors:default")).
  - reflexivity.
  - reflexivity.
Defined.

(** ** The Command that [__get_command] builds *)

Lemma append_length (a b : string) :
  String.length (a ++ b) = String.length a + String.length b.
Proof. induction a as [|c a IH]; simpl; [reflexivity | now rewrite IH]. Qed.

Lemma default_key_not_DEFAULT (section_kind : string) :
  String.eqb (section_kind ++ ":default") default_section = false.
Proof.
  apply String.eqb_neq. intros H.
  apply (f_equal String.length) in H. rewrite append_length in H.
  simpl in H. lia.
Qed.

Lemma split_nonempty (sep : ascii) (s : string) : split sep s <> [].
Proof.
  destruct s as [|c s]; simpl; [discriminate|].
  destruct (Ascii.eqb c sep); [discriminate|].
  destruct (split sep s); discriminate.
Qed.

(** The text before the first separator. *)
Lemma first_split_app (sep : ascii) (k e : string) :
  contains (String sep "") k = false ->
  first (split sep (k ++ String sep e)) = k.
Proof.
  induction k as [|a k IH]; intros H.
  - simpl. now rewrite Ascii.eqb_refl.
  - rewrite contains_cons in H. apply orb_false_iff in H as [Ha Hk].
    simpl in Ha. destruct (ascii_dec sep a) as [->|Hne].
    + destruct k; discriminate Ha.
    + simpl. destruct (Ascii.eqb_spec a sep) as [->|_]; [congruence|].
      specialize (IH Hk).
      destruct (split sep (k ++ String sep e)) as [|w ws] eqn:E.
      * now apply split_nonempty in E.
      * simpl in IH. simpl. now subst.
Qed.

Lemma append_inj (a b c : string) : a ++ b = a ++ c -> b = c.
Proof.
  induction a as [|x a IH]; simpl; [easy|]. intros [= H]. now apply IH.
Qed.

Lemma contains_kind (kind rest : string) : contains kind (kind ++ rest) = true.
Proof. apply contains_spec. now exists "", rest. Qed.

Lemma contains_default (kind : string) :
  contains "default" (kind ++ ":" ++ "default") = true.
Proof.
  apply contains_spec. exists (kind ++ ":"), "".
  induction kind as [|a k IH]; simpl in *; [reflexivity | now f_equal].
Qed.

(** [split] undoes [join] on tokens without the separator. *)
Lemma split_app (sep : ascii) (x r : string) :
  contains (String sep "") x = false ->
  split sep (x ++ String sep r) = x :: split sep r.
Proof.
  induction x as [|a x IH]; intros H.
  - simpl. now rewrite Ascii.eqb_refl.
  - rewrite contains_cons in H. apply orb_false_iff in H as [Ha Hx].
    simpl in Ha. destruct (ascii_dec sep a) as [->|Hne].
    + destruct x; discriminate Ha.
    + simpl. destruct (Ascii.eqb_spec a sep) as [->|_]; [congruence|].
      now rewrite IH.
Qed.

Lemma split_token (sep : ascii) (x : string) :
  contains (String sep "") x = false -> split sep x = [x].
Proof.
  induction x as [|a x IH]; intros H; [reflexivity|].
  rewrite contains_cons in H. apply orb_false_iff in H as [Ha Hx].
  simpl in Ha. destruct (ascii_dec sep a) as [->|Hne].
  - destruct x; discriminate Ha.
  - simpl. destruct (Ascii.eqb_spec a sep) as [->|_]; [congruence|].
    now rewrite IH.
Qed.

Lemma split_join (l : list string) :
  l <> [] -> Forall (fun x => contains " " x = false) l ->
  split " " (join " " l) = l.
Proof.
  induction l as [|x l IH]; intros Hne Hall; [congruence|].
  inversion Hall as [|? ? Hx Hl]; subst.
  destruct l as [|y l].
  - simpl. now apply split_token.
  - change (join " " (x :: y :: l)) with (x ++ String " " (join " " (y :: l))).
    rewrite split_app by assumption.
    f_equal. apply IH; [discriminate | assumption].
Qed.

(** Splitting at a separator splits what comes before and what comes
    after. *)
Lemma split_at_separator (sep : ascii) (a b : string) :
  split sep (a ++ String sep b) = (split sep a ++ split sep b)%list.
Proof.
  induction a as [|c a IH]; simpl.
  - now rewrite Ascii.eqb_refl.
  - destruct (Ascii.eqb c sep); rewrite IH; [reflexivity|].
    destruct (split sep a) as [|w ws] eqn:E; [|reflexivity].
    now apply split_nonempty in E.
Qed.

Lemma final_app (l1 l2 : list string) :
  l2 <> [] -> final (l1 ++ l2) = final l2.
Proof.
  intros H. unfold final. induction l1 as [|x l1 IH]; [reflexivity|].
  simpl. destruct (l1 ++ l2)%list eqn:E; [|exact IH].
  apply app_eq_nil in E as [_ E]. congruence.
Qed.

(** Appending text without the separator extends the last piece. *)
Lemma final_split_app (sep : ascii) (a b : string) :
  contains (String sep "") b = false ->
  final (split sep (a ++ b)) = final (split sep a) ++ b.
Proof.
  intros Hb.
  assert (H : exists init lst,
             split sep a = (init ++ [lst])%list
             /\ split sep (a ++ b) = (init ++ [(lst ++ b)%string])%list).
  { induction a as [|c a (init & lst & Ha & Hab)].
    - exists [], "". split; [reflexivity|]. simpl. now apply split_token.
    - simpl. destruct (Ascii.eqb c sep).
      + exists ("" :: init), lst. rewrite Ha, Hab. split; reflexivity.
      + rewrite Ha, Hab. destruct init as [|i init].
        * exists [], (String c lst). split; reflexivity.
        * exists (String c i :: init), lst. split; reflexivity. }
  destruct H as (init & lst & -> & ->).
  rewrite !final_app by discriminate. reflexivity.
Qed.

Lemma basename_of_path (dir name : string) :
  basename (dir ++ "/" ++ name) = basename name.
Proof.
  unfold basename. change (dir ++ "/" ++ name) with (dir ++ String "/" name).
  rewrite split_at_separator. apply final_app, split_nonempty.
Qed.

Lemma extension_of_suffix (stem ext : string) :
  contains "/" ext = false -> contains "." ext = false ->
  extension_of (stem ++ "." ++ ext) = ext.
Proof.
  intros Hs Hd. unfold extension_of, basename.
  rewrite final_split_app.
  - change (final (split "/" stem) ++ "." ++ ext)
      with (final (split "/" stem) ++ String "." ext).
    rewrite split_at_separator, final_app by apply split_nonempty.
    now rewrite split_token.
  - change ("." ++ ext) with (String "." ext).
    rewrite contains_cons, Hs. reflexivity.
Qed.

Lemma extension_of_plain (name : string) :
  contains "/" name = false -> contains "." name = false ->
  extension_of name = name.
Proof.
  intros Hs Hd. unfold extension_of, basename.
  rewrite (split_token "/") by assumption. cbn [final last].
  now rewrite split_token.
Qed.

Lemma get_command_inv
      (self : ConfigParser) (section_kind class_kind class_name : string)
      (c : Command) :
  CfgConfig.__get_command self section_kind class_kind class_name = Ok c ->
  exists p,
    CfgConfig.__get_section self section_kind class_kind class_name = Ok p
    /\ proxy_get p "command" = Ok (commands.command c)
    /\ commands.name c = first (split ":" (configparser.name p)).
Proof.
  unfold CfgConfig.__get_command.
  destruct (CfgConfig.__get_section self section_kind class_kind class_name)
    as [p|]; [|discriminate]. cbn [bind].
  destruct (proxy_get p "command") as [cmd|] eqn:Hc; [|discriminate].
  cbn [bind].
  destruct (if proxy_contains p "args" then proxy_get p "args" else Ok "")
    as [a|]; [|discriminate]. cbn [bind].
  destruct (if proxy_contains p class_kind
            then v <- proxy_get p class_kind;; Ok (split " " v)
            else Ok []) as [l|]; [|discriminate]. cbn [bind].
  intros [= <-]. exists p. repeat split. exact Hc.
Qed.

(** C9, as amended.  The [name] of the Command that the flat store resolves
    to is the text of the matched section's name before its first [":"].
    For a section named ["<kind>:<entry>"], with no [":"] in the kind, that
    text is the kind; it is the rule's own entry name only when the rule is
    named like the kind. *)
Theorem command_name_is_section_prefix
        (self : ConfigParser) (section_kind class_kind class_name : string)
        (c : Command) :
  CfgConfig.__get_command self section_kind class_kind class_name = Ok c ->
  exists p,
    CfgConfig.__get_section self section_kind class_kind class_name = Ok p
    /\ commands.name c = first (split ":" (configparser.name p))
    /\ (forall kind entry,
           contains ":" kind = false ->
           configparser.name p = kind ++ ":" ++ entry ->
           commands.name c = kind
           /\ (commands.name c = entry <-> entry = kind)).
Proof.
  intros H. apply get_command_inv in H as (p & Hp & _ & Hn).
  exists p. split; [assumption|]. split; [assumption|].
  intros kind entry Hk Hname. rewrite Hn, Hname.
  change (kind ++ ":" ++ entry) with (kind ++ String ":" entry).
  rewrite first_split_app by assumption.
  split; [reflexivity|]. split; intros; now subst.
Qed.

(** On [editors_store], where [md] resolves to the section
    ["file-editors:nano"]. *)
Lemma command_name_is_section_prefix_witness :
  CfgConfig.get_file_editor editors_store "md"
  = Ok (mkCommand "/usr/bin/nano" "" ["txt"; "md"] "file-editors")
  /\ exists p,
       CfgConfig.__get_section editors_store "file-editors" "extensions" "md"
       = Ok p
       /\ "file-editors" = first (split ":" (configparser.name p))
       /\ (forall kind entry,
              contains ":" kind = false ->
              configparser.name p = kind ++ ":" ++ entry ->
              "file-editors" = kind
              /\ ("file-editors" = entry <-> entry = kind)).
Proof.
  split; [reflexivity|].
  apply (command_name_is_section_prefix editors_store
           "file-editors" "extensions" "md"
           (mkCommand "/usr/bin/nano" "" ["txt"; "md"] "file-editors")).
  reflexivity.
Defined.

(** C9 as stated fails.  The rule named [file-editors] of the partition
    [file-editors] is stored as ["file-editors:file-editors"], and the
    Command resolved from it carries the rule's own entry name.  And the
    section ["old-file-editors:nano"], which the scan tests because its
    name contains the kind, gives a Command whose name is not the kind. *)
Lemma command_name_equals_entry_name :
  (exists c p,
      CfgConfig.get_file_editor namesake_store "txt" = Ok c
      /\ CfgConfig.__get_section namesake_store "file-editors" "extensions"
                                 "txt" = Ok p
      /\ configparser.name p = "file-editors" ++ ":" ++ "file-editors"
      /\ commands.name c = "file-editors")
  /\ CfgConfig.get_file_editor prefixed_store "txt"
     = Ok (mkCommand "/usr/bin/nano" "" ["txt"] "old-file-editors").
Proof.
  split; [|reflexivity].
  eexists. eexists. repeat split; vm_compute; reflexivity.
Qed.

(** ** Resolution without a default *)

Lemma has_section_In (self : ConfigParser) (key : string) :
  has_section self key = true <-> In key (sections self).
Proof.
  unfold has_section, dict_has, sections.
  induction (_sections self) as [|[k o] d IH]; simpl.
  - split; [discriminate | intros []].
  - destruct (String.eqb_spec key k) as [->|Hne].
    + split; [now left | reflexivity].
    + rewrite IH. split; [now right | intros [H|H]; congruence].
Qed.

Lemma getitem_in_sections (self : ConfigParser) (key : string)
      (p : SectionProxy) :
  getitem self key = Ok p -> String.eqb key default_section = false ->
  In key (sections self).
Proof.
  intros H Hk. apply getitem_inv in H as [_ H].
  unfold contains_section in H. rewrite Hk in H. now apply has_section_In.
Qed.

Lemma getitem_absent (self : ConfigParser) (key : string) :
  String.eqb key default_section = false ->
  has_section self key = false ->
  getitem self key = Raise (KeyError key).
Proof. unfold getitem. now intros -> ->. Qed.

Lemma getitem_present (self : ConfigParser) (key : string) :
  has_section self key = true -> is_ok (getitem self key) = true.
Proof.
  intros H. rewrite getitem_ok; [reflexivity|].
  unfold contains_section. rewrite H. apply orb_true_r.
Qed.

(** ** Stores without a dollar sign *)

Lemma plain_options_get (opts : options) (o v : string) :
  plain_options opts -> dict_get o opts = Some v -> dollar_free v.
Proof.
  intros H. induction H as [|[k w] opts Hw _ IH]; [discriminate|].
  simpl. destruct (String.eqb o k); [|exact IH].
  now intros [= <-].
Qed.

Lemma plain_sections_get (self : ConfigParser) (s : string) (opts : options) :
  plain self -> dict_get s (_sections self) = Some opts -> plain_options opts.
Proof.
  intros [_ H]. induction H as [|[k w] d Hw _ IH]; [discriminate|].
  simpl. destruct (String.eqb s k); [|exact IH].
  now intros [= <-].
Qed.

Lemma plain_unify_values (self : ConfigParser) (s : string) (d : options) :
  plain self -> _unify_values self s = Ok d -> plain_options d.
Proof.
  intros Hp. unfold _unify_values.
  destruct (dict_get s (_sections self)) as [opts|] eqn:Hs.
  - intros [= <-]. apply Forall_app. split.
    + exact (plain_sections_get _ _ _ Hp Hs).
    + exact (proj1 Hp).
  - destruct (String.eqb s default_section); [|discriminate].
    intros [= <-]. exact (proj1 Hp).
Qed.

(** On a store without a dollar sign an option that a section has can be
    read, and reads as it is stored. *)
Lemma proxy_get_plain (self : ConfigParser) (s o : string)
      (p : SectionProxy) :
  plain self -> getitem self s = Ok p -> proxy_contains p o = true ->
  exists d v, _unify_values self s = Ok d
              /\ dict_get (optionxform o) d = Some v
              /\ proxy_get p o = Ok v.
Proof.
  intros Hplain Hp Hc. apply getitem_inv in Hp as [-> Hs].
  unfold proxy_get. unfold proxy_contains in Hc.
  cbn [_parser configparser.name] in *. rewrite Hc. cbn [negb].
  assert (exists d v, _unify_values self s = Ok d
                      /\ dict_get (optionxform o) d = Some v)
    as (d & v & Hd & Hv).
  { unfold has_option, _unify_values, dict_has in *.
    unfold contains_section, has_section, dict_has in Hs.
    destruct (dict_get s (_sections self)) as [opts|].
    - exists (opts ++ _defaults self)%list.
      rewrite dict_get_app.
      destruct (negb (truthy s) || String.eqb s default_section).
      + destruct (dict_get (optionxform o) opts) as [v|];
          [now exists v|].
        destruct (dict_get (optionxform o) (_defaults self)) as [v|];
          [now exists v | discriminate].
      + destruct (dict_get (optionxform o) opts) as [v|];
          [now exists v|].
        destruct (dict_get (optionxform o) (_defaults self)) as [v|];
          [now exists v | discriminate].
    - rewrite orb_false_r in Hs. rewrite Hs in *. rewrite orb_true_r in Hc.
      exists (_defaults self).
      destruct (dict_get (optionxform o) (_defaults self)) as [v|];
        [now exists v | discriminate]. }
  exists d, v. split; [assumption|]. split; [assumption|].
  unfold get. rewrite Hd. cbn [bind]. rewrite Hv.
  apply before_get_dollar_free.
  exact (plain_options_get _ _ _ (plain_unify_values _ _ _ Hplain Hd) Hv).
Qed.

(** On a store whose tested sections all have a classifier list, the scan
    does not raise. *)
Lemma scan_total
      (self : ConfigParser) (section_kind class_kind class_name : string)
      (todo : list string) :
  (forall s, In s todo -> visited section_kind s = true ->
             is_ok (classifiers self class_kind s) = true) ->
  is_ok (CfgConfig.scan self section_kind class_kind class_name todo) = true.
Proof.
  induction todo as [|s todo IH]; intros H; [reflexivity|].
  assert (IH' := IH (fun s' Hs' => H s' (or_intror Hs'))).
  destruct (visited section_kind s) eqn:Hv.
  - specialize (H s (or_introl eq_refl) Hv).
    destruct (classifiers self class_kind s) as [l|] eqn:Hl; [|discriminate].
    destruct (in_dec string_dec class_name l) as [Hin|Hnin].
    + destruct (scan_hit self section_kind class_kind class_name s todo Hv)
        as (p & _ & ->); [now exists l | reflexivity].
    + rewrite scan_miss; [assumption | assumption | now exists l].
  - now rewrite scan_skip.
Qed.

Lemma get_command_without_default
      (self : ConfigParser) (section_kind class_kind class_name : string) :
  no_match self section_kind class_kind class_name ->
  has_section self (section_kind ++ ":default") = false ->
  CfgConfig.__get_command self section_kind class_kind class_name
  = Raise (KeyError (section_kind ++ ":default")).
Proof.
  intros Hn Hd. unfold CfgConfig.__get_command.
  rewrite get_section_fallback by assumption.
  rewrite getitem_absent; [reflexivity | apply default_key_not_DEFAULT
                          | assumption].
Qed.

Lemma readable_command (p : SectionProxy) (class_kind : string) :
  readable p class_kind ->
  is_ok (command <- proxy_get p "command" ;;
         args <- (if proxy_contains p "args"
                  then proxy_get p "args" else Ok "") ;;
         classes <- (if proxy_contains p class_kind
                     then v <- proxy_get p class_kind ;; Ok (split " " v)
                     else Ok []) ;;
         Ok (mkCommand command args classes
                       (first (split ":" (configparser.name p)))))
  = true.
Proof.
  intros (Hc & Ha & Hk).
  destruct (proxy_get p "command") as [c|]; [|discriminate]. cbn [bind].
  destruct (proxy_contains p "args").
  - specialize (Ha eq_refl).
    destruct (proxy_get p "args") as [a|]; [|discriminate]. cbn [bind].
    destruct (proxy_contains p class_kind); [|reflexivity].
    specialize (Hk eq_refl).
    destruct (proxy_get p class_kind) as [v|]; [|discriminate]. reflexivity.
  - cbn [bind]. destruct (proxy_contains p class_kind); [|reflexivity].
    specialize (Hk eq_refl).
    destruct (proxy_get p class_kind) as [v|]; [|discriminate]. reflexivity.
Qed.

Lemma get_command_fails_inv
      (self : ConfigParser) (section_kind class_kind class_name : string) :
  well_formed self section_kind class_kind ->
  is_ok (CfgConfig.__get_command self section_kind class_kind class_name)
  = false ->
  no_match self section_kind class_kind class_name
  /\ has_section self (section_kind ++ ":default") = false.
Proof.
  intros [Hcls Hcmd] Hfail.
  pose proof (scan_total self section_kind class_kind class_name
                         (sections self) Hcls) as Htot.
  unfold CfgConfig.__get_command, CfgConfig.__get_section in Hfail.
  destruct (CfgConfig.scan self section_kind class_kind class_name
                           (sections self)) as [[p|]|] eqn:Hs;
    [| |discriminate]; cbn [bind] in Hfail.
  - exfalso. pose proof (scan_found _ _ _ _ _ _ Hs) as (Hin & _ & Hp & _).
    rewrite (readable_command p class_kind (Hcmd _ _ Hin Hp)) in Hfail.
    discriminate.
  - assert (Hn : no_match self section_kind class_kind class_name)
      by exact (proj1 (scan_none _ _ _ _ _) Hs).
    split; [assumption|].
    destruct (has_section self (section_kind ++ ":default")) eqn:Hd;
      [|reflexivity].
    exfalso. apply getitem_present in Hd.
    destruct (getitem self (section_kind ++ ":default")) as [p|] eqn:Hp;
      [|discriminate]. cbn [bind] in Hfail.
    rewrite (readable_command p class_kind) in Hfail; [discriminate|].
    apply (Hcmd _ _ (getitem_in_sections _ _ _ Hp
                       (default_key_not_DEFAULT _)) Hp).
Qed.

(** A store without a dollar sign is well formed as soon as each section
    has an executable and each tested rule a classifier list. *)
Lemma plain_well_formed
      (self : ConfigParser) (section_kind class_kind : string) :
  plain self ->
  (forall s p, In s (sections self) -> visited section_kind s = true ->
               getitem self s = Ok p -> proxy_contains p class_kind = true) ->
  (forall s p, In s (sections self) -> getitem self s = Ok p ->
               proxy_contains p "command" = true) ->
  well_formed self section_kind class_kind.
Proof.
  intros Hplain Hcls Hcmd. split.
  - intros s Hin Hv. unfold classifiers.
    assert (Hs : getitem self s = Ok (mkSectionProxy self s)).
    { apply getitem_ok. unfold contains_section.
      rewrite (proj2 (has_section_In self s) Hin). apply orb_true_r. }
    rewrite Hs. cbn [bind].
    destruct (proxy_get_plain self s class_kind _ Hplain Hs
                              (Hcls _ _ Hin Hv Hs)) as (d & v & _ & _ & ->).
    reflexivity.
  - intros s p Hin Hp. repeat split.
    + destruct (proxy_get_plain self s "command" _ Hplain Hp
                                (Hcmd _ _ Hin Hp)) as (d & v & _ & _ & ->).
      reflexivity.
    + intros H.
      destruct (proxy_get_plain self s "args" _ Hplain Hp H)
        as (d & v & _ & _ & ->).
      reflexivity.
    + intros H.
      destruct (proxy_get_plain self s class_kind _ Hplain Hp H)
        as (d & v & _ & _ & ->).
      reflexivity.
Qed.

(** C5, as amended.  A store whose partition has no rule for the
    classifier and no default section does not resolve to a Command:
    [__get_command] raises [KeyError] for ["<kind>:default"] (raised once,
    nothing is tried again).  On a store whose sections can be read as
    Commands this is the only way in which resolution fails, where the
    rules of the partition are the sections that the scan tests: a section
    whose name contains ["default"] is not one of them.  A store without a
    dollar sign is such a store when each of its sections has an executable
    and each tested rule a classifier list.  The structured store fails
    exactly when no Command lists the classifier and the partition has no
    default. *)
Theorem resolve_fails_only_without_default :
  (forall self section_kind class_kind class_name,
      no_match self section_kind class_kind class_name ->
      has_section self (section_kind ++ ":default") = false ->
      CfgConfig.__get_command self section_kind class_kind class_name
      = Raise (KeyError (section_kind ++ ":default")))
  /\ (forall self section_kind class_kind class_name,
         well_formed self section_kind class_kind ->
         is_ok (CfgConfig.__get_command self section_kind class_kind
                                        class_name) = false ->
         no_match self section_kind class_kind class_name
         /\ has_section self (section_kind ++ ":default") = false)
  /\ (forall self section_kind class_kind,
         plain self ->
         (forall s p, In s (sections self) ->
                      visited section_kind s = true ->
                      getitem self s = Ok p ->
                      proxy_contains p class_kind = true) ->
         (forall s p, In s (sections self) -> getitem self s = Ok p ->
                      proxy_contains p "command" = true) ->
         well_formed self section_kind class_kind)
  /\ (forall commands class_name,
         is_ok (YAMLConfig.__get_command commands class_name) = false
         <-> (forall c, In c (values commands) ->
                        ~ In class_name (classes c))
             /\ default commands = None).
Proof.
  split; [exact get_command_without_default|].
  split; [exact get_command_fails_inv|].
  split; [exact plain_well_formed|].
  intros d cn. unfold YAMLConfig.__get_command.
  destruct (mem cn (flat_map classes (values d))) eqn:Hm.
  - destruct (YAMLConfig.first_with cn (values d)) as [c0|] eqn:Hf.
    + split; [discriminate|]. intros [Hn _]. exfalso.
      apply mem_In, in_flat_map in Hm as (c & Hc & Hin).
      exact (Hn c Hc Hin).
    + apply first_with_none in Hf. congruence.
  - split.
    + intros Hd. split.
      * intros c Hc Hin. apply mem_false in Hm. apply Hm.
        apply in_flat_map. now exists c.
      * destruct (default d); [discriminate | reflexivity].
    + intros [_ ->]. reflexivity.
Qed.

(** On a store with one opener and nothing for files: it is well formed,
    a file does not resolve, and so the partition has neither a rule for
    it nor a default; and with neither, the resolution raises. *)
Lemma resolve_fails_only_without_default_witness :
  well_formed openers_only_store "file-editors" "extensions"
  /\ no_match openers_only_store "file-editors" "extensions" "md"
  /\ has_section openers_only_store "file-editors:default" = false
  /\ CfgConfig.get_file_editor openers_only_store "md"
     = Raise (KeyError "file-editors:default").
Proof.
  assert (Hwf : well_formed openers_only_store "file-editors" "extensions").
  { apply (proj1 (proj2 (proj2 resolve_fails_only_without_default))).
    - split; repeat constructor.
    - intros s p [<-|[]] Hv. discriminate Hv.
    - intros s p [<-|[]] [= <-]. reflexivity. }
  assert (Hno : no_match openers_only_store "file-editors" "extensions" "md"
                /\ has_section openers_only_store "file-editors:default"
                   = false).
  { apply (proj1 (proj2 resolve_fails_only_without_default)
                 openers_only_store "file-editors" "extensions" "md" Hwf).
    reflexivity. }
  split; [exact Hwf|]. split; [exact (proj1 Hno)|].
  split; [exact (proj2 Hno)|].
  apply (proj1 resolve_fails_only_without_default openers_only_store
               "file-editors" "extensions" "md" (proj1 Hno) (proj2 Hno)).
Defined.

(** C5 as stated fails.  The partition [file-editors] holds the rule
    [default-pdf], whose classifier list has [pdf], and no default: the
    flat store does not test the rule, because its name contains
    ["default"], and resolution of [pdf] fails although a Command of the
    partition matches.  And with a default in place, resolution still
    fails when a tested section has no classifier list, or when the
    executable of the default refers to an option that is not there. *)
Lemma resolve_fails_despite_matching_rule :
  sections default_pdf_only_store = ["file-editors:default-pdf"]
  /\ classifiers default_pdf_only_store "extensions"
                 "file-editors:default-pdf" = Ok ["pdf"]
  /\ CfgConfig.get_file_editor default_pdf_only_store "pdf"
     = Raise (KeyError "file-editors:default")
  /\ has_section bare_rule_store "file-editors:default" = true
  /\ CfgConfig.get_file_editor bare_rule_store "txt"
     = Raise (KeyError "extensions")
  /\ has_section dangling_store "file-editors:default" = true
  /\ CfgConfig.get_file_editor dangling_store "txt"
     = Raise (InterpolationMissingOptionError
                "command" "file-editors:default" "${editor}" "editor").
Proof.
  repeat split; vm_compute; reflexivity.
Qed.

(** ** An input without a classifier *)

(** C8, as amended.  When no domain can be derived from the URL (its parsed
    host is empty), [guess_url_command] does not run the scan: whatever the
    store holds, it prints the one line of failure, none of the section
    names that the scan prints, and returns the default opener section; and
    when [urlparse] raises on the URL, it raises and resolves nothing.
    [guess_file_command] has no such short cut: it always derives a
    classifier, the text after the last dot of the file name, which is empty
    for a name that ends in a dot, and runs the scan with it. *)
Theorem no_domain_short_circuits_to_default :
  (forall netloc self url,
      netloc url = Ok "" ->
      turmyx.TurmyxConfig.guess_url_command netloc self url
      = (["Failed to parse URL. Attempt default opener."],
         Ok "opener:default"))
  /\ (forall netloc self url e,
         netloc url = Raise e ->
         turmyx.TurmyxConfig.guess_url_command netloc self url
         = ([], Raise e))
  /\ (forall self file,
         turmyx.TurmyxConfig.guess_file_command self file
         = (found <- CfgConfig.scan self "editor" "extensions"
                                    (extension_of file) (sections self) ;;
            Ok (match found with
                | Some p => configparser.name p
                | None => "editor:default"
                end)))
  /\ (forall stem, extension_of (stem ++ ".") = "").
Proof.
  split; [|split; [|split]].
  - intros netloc self url H.
    unfold turmyx.TurmyxConfig.guess_url_command. now rewrite H.
  - intros netloc self url e H.
    unfold turmyx.TurmyxConfig.guess_url_command. now rewrite H.
  - exact guess_file_command_result.
  - intros stem. exact (extension_of_suffix stem "" eq_refl eq_refl).
Qed.

(** On [openers_store] the scan with the empty classifier would print and
    return the section [opener:blank]; the short cut does not. *)
Lemma no_domain_short_circuits_to_default_witness :
  turmyx.TurmyxConfig.scan_url openers_store "" (sections openers_store)
  = (["opener:blank"], Ok (Some "opener:blank"))
  /\ turmyx.TurmyxConfig.guess_url_command netloc_of openers_store
       "https://youtu.be/watch"
     = (["opener:blank"; "opener:ytdl"], Ok "opener:ytdl")
  /\ turmyx.TurmyxConfig.guess_url_command netloc_of openers_store
       "not a url"
     = (["Failed to parse URL. Attempt default opener."],
        Ok "opener:default")
  /\ turmyx.TurmyxConfig.guess_url_command netloc_of openers_store
       "http://[::1/page"
     = ([], Raise (ValueError "Invalid IPv6 URL")).
Proof.
  split; [reflexivity|]. split; [reflexivity|]. split.
  - apply (proj1 no_domain_short_circuits_to_default netloc_of openers_store
                 "not a url").
    reflexivity.
  - apply (proj1 (proj2 no_domain_short_circuits_to_default) netloc_of
                 openers_store "http://[::1/page").
    reflexivity.
Defined.

(** C8 as stated fails.  From the file name [notes.] no extension can be
    derived, yet [guess_file_command] passes the empty classifier through
    the scan, which returns the rule [editor:blank], whose extension list
    is empty, and not the default. *)
Lemma empty_extension_goes_through_the_scan :
  extension_of "notes." = ""
  /\ classifiers blank_editor_store "extensions" "editor:blank" = Ok [""]
  /\ turmyx.TurmyxConfig.guess_file_command blank_editor_store "notes."
     = Ok "editor:blank"
  /\ turmyx.TurmyxConfig.guess_file_command blank_editor_store "notes.txt"
     = Ok "editor:default".
Proof.
  repeat split; vm_compute; reflexivity.
Qed.

(** ** Removing a rule that is not there *)

Lemma section_guesses_spec (self : ConfigParser) (script s : string) :
  In s (turmyx.section_guesses self script)
  <-> In s (sections self) /\ exists a b, s = a ++ script ++ b.
Proof.
  unfold turmyx.section_guesses. rewrite filter_In, contains_spec.
  reflexivity.
Qed.

Lemma remove_absent (w : turmyx.World) (script : string) :
  has_section (turmyx.config_ctx w) script = false ->
  turmyx.remove script w
  = (Ok tt,
     turmyx.mkWorld
       (turmyx.config_ctx w)
       (List.app
          (turmyx.stdout w)
          ("Configuration not found."
           :: match turmyx.section_guesses (turmyx.config_ctx w) script with
              | [] => []
              | guesses =>
                  ["Maybe you want to say:" ++ turmyx.newline
                   ++ join turmyx.newline guesses]
              end))
       (turmyx.written w)).
Proof.
  intros H. unfold turmyx.remove, remove_section. rewrite H.
  unfold sbind, turmyx.echo, sret. cbn [turmyx.config_ctx turmyx.stdout
                                        turmyx.written].
  destruct (turmyx.section_guesses (turmyx.config_ctx w) script).
  - reflexivity.
  - cbn [turmyx.config_ctx turmyx.stdout turmyx.written].
    now rewrite <- app_assoc.
Qed.

Lemma remove_command_absent (self : ConfigParser) (kind command_name : string) :
  has_section self (kind ++ ":" ++ command_name) = false ->
  CfgConfig.__remove_command command_name kind self
  = (Raise (ValueError "Command not found in config file."), self).
Proof.
  intros H. unfold CfgConfig.__remove_command, remove_section.
  now rewrite H.
Qed.

(** C4, as amended.  Removing a section that the store does not have fails
    and leaves the store as it was, and nothing is written to the
    configuration file.  The front end's [remove], which is given a whole
    section name, echoes that the configuration was not found and, when
    there are any, the stored section names of which the given text is a
    substring, of every partition and in the order of the store.
    [CfgConfig]'s [remove_file_editor] and [remove_url_opener] raise
    [ValueError] with a fixed message. *)
Theorem remove_absent_fails_and_preserves :
  (forall w script,
      has_section (turmyx.config_ctx w) script = false ->
      turmyx.remove script w
      = (Ok tt,
         turmyx.mkWorld
           (turmyx.config_ctx w)
           (List.app
              (turmyx.stdout w)
              ("Configuration not found."
               :: match turmyx.section_guesses (turmyx.config_ctx w) script
                  with
                  | [] => []
                  | guesses =>
                      ["Maybe you want to say:" ++ turmyx.newline
                       ++ join turmyx.newline guesses]
                  end))
           (turmyx.written w)))
  /\ (forall self script s,
         In s (turmyx.section_guesses self script)
         <-> In s (sections self) /\ exists a b, s = a ++ script ++ b)
  /\ (forall self command_name,
         has_section self ("file-editors" ++ ":" ++ command_name) = false ->
         CfgConfig.remove_file_editor command_name self
         = (Raise (ValueError "Command not found in config file."), self))
  /\ (forall self command_name,
         has_section self ("url-openers" ++ ":" ++ command_name) = false ->
         CfgConfig.remove_url_opener command_name self
         = (Raise (ValueError "Command not found in config file."), self)).
Proof.
  split; [exact remove_absent|].
  split; [exact section_guesses_spec|].
  split; intros self n H; now apply remove_command_absent.
Qed.

Lemma remove_absent_fails_and_preserves_witness :
  turmyx.remove "nan" (turmyx.mkWorld guess_store [] [])
  = (Ok tt,
     turmyx.mkWorld guess_store
       ["Configuration not found.";
        "Maybe you want to say:" ++ turmyx.newline ++ "editor:nano"
        ++ turmyx.newline ++ "opener:nanoweb"] []).
Proof.
  apply (proj1 remove_absent_fails_and_preserves
               (turmyx.mkWorld guess_store [] []) "nan").
  reflexivity.
Defined.

(** C4 as stated fails.  With the rules [editor:nano] and [opener:nanoweb]
    stored, the names of the partition [editor] of which ["ano"] is a
    substring are just [nano].  The front end's [remove] suggests nothing
    when it is given ["editor:ano"], and both section names, one of the
    other partition, when it is given ["ano"]; [CfgConfig]'s
    [remove_file_editor] raises without any suggestion. *)
Lemma remove_suggestions_are_not_partition_names :
  has_section guess_store "editor:ano" = false
  /\ spec_suggestions guess_store "editor" "ano" = ["nano"]
  /\ turmyx.remove "editor:ano" (turmyx.mkWorld guess_store [] [])
     = (Ok tt, turmyx.mkWorld guess_store ["Configuration not found."] [])
  /\ turmyx.remove "ano" (turmyx.mkWorld guess_store [] [])
     = (Ok tt,
        turmyx.mkWorld guess_store
          ["Configuration not found.";
           "Maybe you want to say:" ++ turmyx.newline ++ "editor:nano"
           ++ turmyx.newline ++ "opener:nanoweb"] [])
  /\ CfgConfig.remove_file_editor "ano" editors_store
     = (Raise (ValueError "Command not found in config file."),
        editors_store).
Proof.
  repeat split; vm_compute; reflexivity.
Qed.

(** ** Updates of the flat store *)

Lemma dict_get_set_eq {V} (k : string) (v : V) (d : list (string * V)) :
  dict_get k (dict_set k v d) = Some v.
Proof.
  induction d as [|[k' v'] d IH]; simpl.
  - now rewrite String.eqb_refl.
  - destruct (String.eqb k k') eqn:E; simpl; rewrite ?String.eqb_refl, ?E;
      [reflexivity | exact IH].
Qed.

Lemma dict_get_set_neq {V} (k k' : string) (v : V) (d : list (string * V)) :
  k' <> k -> dict_get k' (dict_set k v d) = dict_get k' d.
Proof.
  intros Hne. apply String.eqb_neq in Hne.
  induction d as [|[k0 v0] d IH]; simpl.
  - now rewrite Hne.
  - destruct (String.eqb_spec k k0) as [->|Hk]; simpl.
    + now rewrite Hne.
    + destruct (String.eqb k' k0); [reflexivity | exact IH].
Qed.

Lemma dict_set_set {V} (k : string) (v v' : V) (d : list (string * V)) :
  dict_set k v (dict_set k v' d) = dict_set k v d.
Proof.
  induction d as [|[k0 v0] d IH]; simpl.
  - now rewrite String.eqb_refl.
  - destruct (String.eqb k k0) eqn:E; simpl; rewrite ?String.eqb_refl, ?E;
      [reflexivity | now rewrite IH].
Qed.

Lemma dict_keys_set {V} (k : string) (v : V) (d : list (string * V)) :
  map fst (dict_set k v d)
  = if dict_has k d then map fst d else (map fst d ++ [k])%list.
Proof.
  unfold dict_has. induction d as [|[k0 v0] d IH]; simpl; [reflexivity|].
  destruct (String.eqb_spec k k0) as [->|Hk]; simpl; [reflexivity|].
  rewrite IH. now destruct (dict_get k d).
Qed.

Lemma section_key_not_DEFAULT (kind n : string) :
  String.eqb (kind ++ ":" ++ n) default_section = false.
Proof.
  apply String.eqb_neq. intros H.
  assert (Hc : contains ":" (kind ++ ":" ++ n) = true)
    by (apply contains_spec; now exists kind, n).
  rewrite H in Hc. discriminate Hc.
Qed.

Lemma section_key_truthy (kind n : string) : truthy (kind ++ ":" ++ n) = true.
Proof. destruct kind; reflexivity. Qed.

(** ** One section rewritten *)

Lemma with_section_same_but (self : ConfigParser) (S : string)
      (opts : options) :
  same_but S self (with_section self S opts).
Proof.
  split; [reflexivity|]. intros s Hs. unfold with_section.
  cbn [_sections]. now apply dict_get_set_neq.
Qed.

Lemma with_section_own (self : ConfigParser) (S : string) (opts : options) :
  dict_get S (_sections (with_section self S opts)) = Some opts.
Proof. unfold with_section. cbn [_sections]. apply dict_get_set_eq. Qed.

Lemma has_section_with_section (self : ConfigParser) (S : string)
      (opts : options) :
  has_section (with_section self S opts) S = true.
Proof. unfold has_section, dict_has. now rewrite with_section_own. Qed.

Lemma getitem_with_section_eq (self : ConfigParser) (S : string)
      (opts : options) :
  getitem (with_section self S opts) S
  = Ok (mkSectionProxy (with_section self S opts) S).
Proof.
  apply getitem_ok. unfold contains_section.
  rewrite has_section_with_section. apply orb_true_r.
Qed.

(** Whether another section is there does not change. *)
Lemma getitem_same_but (S : string) (self self' : ConfigParser) (s : string) :
  same_but S self self' -> s <> S ->
  getitem self' s
  = match getitem self s with
    | Ok _ => Ok (mkSectionProxy self' s)
    | Raise e => Raise e
    end.
Proof.
  intros Hsame Hs. unfold getitem.
  rewrite (has_section_agree S self self' Hsame s Hs).
  now destruct (negb (String.eqb s default_section)
                && negb (has_section self s)).
Qed.

Lemma sections_with_section (self : ConfigParser) (S : string)
      (opts : options) :
  sections (with_section self S opts)
  = if has_section self S then sections self
    else (sections self ++ [S])%list.
Proof. unfold sections, with_section, has_section. simpl. apply dict_keys_set. Qed.

(** ** Reading the options that a section has of its own *)

Lemma has_option_own (self : ConfigParser) (S o : string) (opts : options) :
  String.eqb S default_section = false -> truthy S = true ->
  dict_get S (_sections self) = Some opts ->
  has_option self S o
  = dict_has (optionxform o) opts
    || dict_has (optionxform o) (_defaults self).
Proof.
  intros Hd Ht Hs. unfold has_option. now rewrite Hd, Ht, Hs.
Qed.

(** An option of the section's own whose value has no dollar sign reads
    as it is stored, whatever else the store holds. *)
Lemma proxy_get_own (self : ConfigParser) (S o v : string) (opts : options) :
  String.eqb S default_section = false -> truthy S = true ->
  dict_get S (_sections self) = Some opts ->
  dict_get (optionxform o) opts = Some v ->
  dollar_free v ->
  proxy_get (mkSectionProxy self S) o = Ok v.
Proof.
  intros Hd Ht Hs Ho Hv. unfold proxy_get. cbn [_parser configparser.name].
  rewrite (has_option_own self S o opts Hd Ht Hs).
  unfold dict_has at 1. rewrite Ho. cbn [orb negb].
  unfold get, _unify_values. rewrite Hs. cbn [bind].
  rewrite dict_get_app, Ho. now apply before_get_dollar_free.
Qed.

(** ** [set] on a section that is there *)

Lemma accepts_before_set (v : string) :
  accepts v = true ->
  (if truthy v then before_set v else Ok v) = Ok v.
Proof.
  unfold accepts. destruct (truthy v); [|reflexivity]. cbn [negb orb].
  destruct (before_set_cases v) as [->|[n ->]]; [reflexivity | discriminate].
Qed.

Lemma rejects_before_set (v : string) :
  accepts v = false ->
  exists n, (if truthy v then before_set v else Ok v)
            = Raise (InvalidInterpolationSyntax v n).
Proof.
  unfold accepts. destruct (truthy v); [|discriminate]. cbn [negb orb].
  destruct (before_set_cases v) as [->|[n ->]]; [discriminate|].
  now exists n.
Qed.

Lemma dollar_free_accepts (v : string) : dollar_free v -> accepts v = true.
Proof.
  intros H. unfold accepts. rewrite (before_set_dollar_free v H).
  apply orb_true_r.
Qed.

Lemma set_with_section (self : ConfigParser) (S o v : string) (opts : options) :
  String.eqb S default_section = false -> truthy S = true ->
  accepts v = true ->
  set S (Some o) v (with_section self S opts)
  = (Ok tt, with_section self S (dict_set (optionxform o) v opts)).
Proof.
  intros Hd Ht Hv. unfold set. rewrite (accepts_before_set v Hv).
  rewrite Hd, Ht. cbn [negb orb]. rewrite with_section_own.
  unfold with_section. cbn [_defaults _sections].
  now rewrite dict_set_set.
Qed.

(** [set] of a value that [before_set] refuses raises the [ValueError] and
    leaves the store as it is. *)
Lemma set_rejected (self : ConfigParser) (S o v : string) :
  accepts v = false ->
  exists n, set S (Some o) v self
            = (Raise (InvalidInterpolationSyntax v n), self).
Proof.
  intros Hv. destruct (rejects_before_set v Hv) as [n Hn].
  exists n. unfold set. now rewrite Hn.
Qed.

(** [if section not in self: self[section] = dict()] leaves the store with
    the section's own options, none for a new section. *)
Lemma ensure_section (self : ConfigParser) (S : string) :
  String.eqb S default_section = false ->
  (if negb (contains_section self S) then setitem_empty self S else self)
  = with_section self S (section_options self S).
Proof.
  intros Hd. unfold contains_section, setitem_empty, with_section,
               section_options, has_section, dict_has.
  rewrite Hd. simpl.
  destruct self as [dflt secs]. simpl.
  destruct (dict_get S secs) as [o|] eqn:E; simpl; [|reflexivity].
  f_equal. clear Hd. induction secs as [|[k v] d IH]; [discriminate|].
  simpl in E |- *. destruct (String.eqb_spec S k) as [->|Hk].
  - now injection E as ->.
  - now rewrite <- IH.
Qed.

Lemma classes_name_inv (kind ck : string) :
  classes_name kind = Some ck ->
  (kind = "file-editors" /\ ck = "extensions")
  \/ (kind = "url-openers" /\ ck = "domains").
Proof.
  unfold classes_name. cbn [dict_get].
  destruct (String.eqb_spec kind "file-editors") as [->|_].
  - intros [= <-]. now left.
  - destruct (String.eqb_spec kind "url-openers") as [->|_]; [|discriminate].
    intros [= <-]. now right.
Qed.

Lemma class_kind_not_reserved (kind class_kind : string) :
  classes_name kind = Some class_kind ->
  String.eqb class_kind "command" = false
  /\ String.eqb class_kind "args" = false.
Proof.
  intros H. destruct (classes_name_inv _ _ H) as [[_ ->]|[_ ->]];
    split; reflexivity.
Qed.

Lemma classes_name_lower (kind ck : string) :
  classes_name kind = Some ck -> optionxform ck = ck.
Proof.
  intros H. destruct (classes_name_inv _ _ H) as [[_ ->]|[_ ->]];
    reflexivity.
Qed.

(** The store that [__set_command] leaves when [set] accepts the three
    values, for a kind that has a classes option. *)
Lemma set_command_run (self : ConfigParser) (c : Command) (kind ck : string) :
  classes_name kind = Some ck ->
  accepted c = true ->
  let S := kind ++ ":" ++ stored_name c in
  CfgConfig.__set_command c kind self
  = (Ok tt,
     with_section self S
       (dict_set ck (join " " (classes c))
          (dict_set "args" (args c)
             (dict_set "command" (commands.command c)
                (section_options self S))))).
Proof.
  intros Hck Hacc S. unfold accepted in Hacc.
  apply andb_true_iff in Hacc as [Hacc Hj].
  apply andb_true_iff in Hacc as [Hc Ha].
  unfold CfgConfig.__set_command. fold (stored_name c). fold S.
  unfold sbind at 1.
  rewrite ensure_section by apply section_key_not_DEFAULT.
  unfold sbind at 1.
  rewrite set_with_section
    by (apply section_key_not_DEFAULT || apply section_key_truthy
        || assumption).
  unfold sbind at 1.
  rewrite set_with_section
    by (apply section_key_not_DEFAULT || apply section_key_truthy
        || assumption).
  rewrite Hck.
  rewrite set_with_section
    by (apply section_key_not_DEFAULT || apply section_key_truthy
        || assumption).
  now rewrite (classes_name_lower _ _ Hck).
Qed.

(** Whatever the Command and the kind, and whether it raises or not,
    [__set_command] rewrites the one section and nothing else. *)
Lemma set_command_shape (self : ConfigParser) (c : Command) (kind : string) :
  exists opts,
    run (CfgConfig.__set_command c kind) self
    = with_section self (kind ++ ":" ++ stored_name c) opts.
Proof.
  unfold run, CfgConfig.__set_command. fold (stored_name c).
  set (S := kind ++ ":" ++ stored_name c).
  unfold sbind at 1.
  rewrite ensure_section by apply section_key_not_DEFAULT.
  set (o0 := section_options self S).
  unfold sbind at 1.
  destruct (accepts (commands.command c)) eqn:Hc.
  2:{ destruct (set_rejected (with_section self S o0) S "command" _ Hc)
        as [n ->]. now exists o0. }
  rewrite set_with_section
    by (apply section_key_not_DEFAULT || apply section_key_truthy
        || assumption).
  unfold sbind at 1.
  destruct (accepts (args c)) eqn:Ha.
  2:{ destruct (set_rejected
                  (with_section self S
                     (dict_set (optionxform "command")
                               (commands.command c) o0))
                  S "args" _ Ha) as [n ->].
      eexists. reflexivity. }
  rewrite set_with_section
    by (apply section_key_not_DEFAULT || apply section_key_truthy
        || assumption).
  destruct (classes_name kind) as [ck|]; [|eexists; reflexivity].
  destruct (accepts (join " " (classes c))) eqn:Hj.
  2:{ match goal with
      | |- context [set S (Some ck) ?v ?st] =>
          destruct (set_rejected st S ck v Hj) as [n ->]
      end.
      eexists. reflexivity. }
  rewrite set_with_section
    by (apply section_key_not_DEFAULT || apply section_key_truthy
        || assumption).
  eexists. reflexivity.
Qed.

(** ** The scan on a store with one section rewritten *)

(** The sections that the scan tests, other than [S], read the same in
    both stores: the scan ends the same way, on the same section. *)
Lemma scan_renew (S : string) (self self' : ConfigParser)
      (section_kind class_kind class_name : string) (todo : list string) :
  contains ":" S = true -> same_but S self self' ->
  (forall s, In s todo -> visited section_kind s = true -> s <> S) ->
  CfgConfig.scan self' section_kind class_kind class_name todo
  = renew self' (CfgConfig.scan self section_kind class_kind class_name todo).
Proof.
  intros Hcolon Hsame. induction todo as [|s todo IH]; intros H;
    [reflexivity|].
  cbn [CfgConfig.scan]. fold (visited section_kind s).
  rewrite IH by (intros s' Hs'; apply H; now right).
  destruct (visited section_kind s) eqn:Hv; [|reflexivity].
  assert (Hs : s <> S) by (apply H; [now left | assumption]).
  rewrite (getitem_same_but S self self' s Hsame Hs).
  destruct (getitem self s) as [p|] eqn:Hp; [|reflexivity].
  apply getitem_inv in Hp as [-> _]. cbn [bind].
  rewrite (proxy_get_agree S self self' Hcolon Hsame s class_kind Hs).
  destruct (proxy_get (mkSectionProxy self s) class_kind) as [v|];
    [|reflexivity].
  cbn [bind]. now destruct (mem class_name (split " " v)).
Qed.

Lemma scan_app_unvisited (self : ConfigParser)
      (section_kind class_kind class_name : string) (l post : list string) :
  (forall s, In s post -> visited section_kind s = false) ->
  CfgConfig.scan self section_kind class_kind class_name (l ++ post)
  = CfgConfig.scan self section_kind class_kind class_name l.
Proof.
  intros H. induction l as [|s l IH].
  - induction post as [|s post IH]; [reflexivity|].
    change ([] ++ s :: post)%list with (s :: post).
    rewrite scan_skip by (apply H; now left).
    apply IH. intros s' Hs'. apply H. now right.
  - change ((s :: l) ++ post)%list with (s :: (l ++ post)%list).
    cbn [CfgConfig.scan]. now rewrite IH.
Qed.

(** Rewriting a section that the scan does not test, and that no
    reference can name, does not change how the scan ends. *)
Lemma scan_with_section (self : ConfigParser) (S : string) (opts : options)
      (section_kind class_kind class_name : string) :
  contains ":" S = true ->
  visited section_kind S = false ->
  CfgConfig.scan (with_section self S opts) section_kind class_kind class_name
                 (sections (with_section self S opts))
  = renew (with_section self S opts)
          (CfgConfig.scan self section_kind class_kind class_name
                          (sections self)).
Proof.
  intros Hcolon Hv. rewrite sections_with_section.
  assert (Hext : forall todo,
             CfgConfig.scan (with_section self S opts)
                            section_kind class_kind class_name todo
             = renew (with_section self S opts)
                     (CfgConfig.scan self section_kind class_kind class_name
                                     todo)).
  { intros todo. apply (scan_renew S); [assumption | |].
    - apply with_section_same_but.
    - intros s _ Hs ->. congruence. }
  destruct (has_section self S); [apply Hext|].
  rewrite scan_app_unvisited by (intros s [<-|[]]; assumption).
  apply Hext.
Qed.

(** ** The Command of a section that was not rewritten *)

Lemma get_command_unfold
      (self : ConfigParser) (section_kind class_kind class_name : string) :
  CfgConfig.__get_command self section_kind class_kind class_name
  = (section <- CfgConfig.__get_section self section_kind class_kind
                                        class_name ;;
     command_of section class_kind).
Proof. reflexivity. Qed.

Lemma command_of_agree (S : string) (self self' : ConfigParser)
      (s class_kind : string) :
  contains ":" S = true -> same_but S self self' -> s <> S ->
  command_of (mkSectionProxy self' s) class_kind
  = command_of (mkSectionProxy self s) class_kind.
Proof.
  intros Hcolon Hsame Hs. unfold command_of.
  rewrite !(proxy_get_agree S self self' Hcolon Hsame s _ Hs).
  rewrite !(proxy_contains_agree S self self' Hsame s _ Hs).
  reflexivity.
Qed.

(** The names that a scan can end on. *)
Lemma renew_name (self' : ConfigParser)
      (found : result (option SectionProxy)) :
  (r <- renew self' found ;; Ok (option_map configparser.name r))
  = (r <- found ;; Ok (option_map configparser.name r)).
Proof. now destruct found as [[p|]|]. Qed.

(** Resolution on a store in which a section was rewritten that the scan
    does not test, that is not the default, and whose name has a colon. *)
Lemma get_command_with_section
      (self : ConfigParser) (S : string) (opts : options)
      (section_kind class_kind class_name : string) :
  contains ":" S = true ->
  visited section_kind S = false ->
  S <> section_kind ++ ":default" ->
  CfgConfig.__get_command (with_section self S opts)
                          section_kind class_kind class_name
  = CfgConfig.__get_command self section_kind class_kind class_name.
Proof.
  intros Hcolon Hv Hne. rewrite !get_command_unfold.
  unfold CfgConfig.__get_section. rewrite scan_with_section by assumption.
  pose proof (with_section_same_but self S opts) as Hsame.
  destruct (CfgConfig.scan self section_kind class_kind class_name
                           (sections self)) as [[p|]|] eqn:Hscan;
    cbn [renew bind]; [| |reflexivity].
  - apply scan_found in Hscan as (_ & Hvp & Hp & _).
    apply getitem_inv in Hp as [Hp _]. rewrite Hp at 2.
    apply (command_of_agree S); [assumption..|].
    intros E. rewrite E in Hvp. congruence.
  - rewrite (getitem_same_but S self _ _ Hsame) by congruence.
    destruct (getitem self (section_kind ++ ":default")) as [p|] eqn:Hp;
      [|reflexivity].
    apply getitem_inv in Hp as [-> _]. cbn [bind].
    apply (command_of_agree S); [assumption..|congruence].
Qed.
(** ** Adding a URL opener to the flat store *)

Lemma set_command_without_classes_name
      (c : Command) (kind : string) (self : ConfigParser) :
  classes_name kind = None ->
  (accepts (commands.command c) && accepts (args c) = true
   /\ fst (CfgConfig.__set_command c kind self)
      = Raise (TypeError "option keys must be strings"))
  \/ (accepts (commands.command c) && accepts (args c) = false
      /\ exists v n, fst (CfgConfig.__set_command c kind self)
                     = Raise (InvalidInterpolationSyntax v n)).
Proof.
  intros Hk. remember (fst (CfgConfig.__set_command c kind self)) as r eqn:Hr.
  unfold CfgConfig.__set_command in Hr.
  fold (stored_name c) in Hr. set (S := kind ++ ":" ++ stored_name c) in Hr.
  unfold sbind at 1 in Hr.
  rewrite ensure_section in Hr by apply section_key_not_DEFAULT.
  unfold sbind at 1 in Hr.
  destruct (accepts (commands.command c)) eqn:Hc.
  2:{ right. split; [reflexivity|].
      destruct (set_rejected (with_section self S (section_options self S))
                             S "command" _ Hc) as [n Hn].
      rewrite Hn in Hr. now exists (commands.command c), n. }
  rewrite set_with_section in Hr
    by (apply section_key_not_DEFAULT || apply section_key_truthy
        || assumption).
  unfold sbind at 1 in Hr.
  destruct (accepts (args c)) eqn:Ha.
  2:{ right. split; [reflexivity|].
      match type of Hr with
      | context [set S (Some "args") ?v ?st] =>
          destruct (set_rejected st S "args" v Ha) as [n Hn]
      end.
      rewrite Hn in Hr. now exists (args c), n. }
  rewrite set_with_section in Hr
    by (apply section_key_not_DEFAULT || apply section_key_truthy
        || assumption).
  rewrite Hk in Hr. left. split; [reflexivity | exact Hr].
Qed.

Lemma set_url_opener_outcome (c : Command) (self : ConfigParser) :
  (accepts (commands.command c) && accepts (args c) = true
   /\ fst (CfgConfig.set_url_opener c self)
      = Raise (TypeError "option keys must be strings"))
  \/ (accepts (commands.command c) && accepts (args c) = false
      /\ exists v n, fst (CfgConfig.set_url_opener c self)
                     = Raise (InvalidInterpolationSyntax v n)).
Proof. now apply set_command_without_classes_name. Qed.

(** C6 fails on the code.  [set_url_opener] passes the kind ["opener"],
    for which [classes_name] has no option name: it raises for every
    Command.  When [set] accepts the executable and the arguments it
    writes the section ["opener:<name>"] with [command] and [args] and
    then raises [TypeError]; the section, whose name does not contain
    ["url-openers"], is not tested by [get_url_opener].  The same Command
    written by [__set_command] with the kind ["url-openers"] that
    [get_url_opener] and [remove_url_opener] use is resolved by its
    domains. *)
Theorem set_url_opener_raises :
  (forall c self, is_ok (fst (CfgConfig.set_url_opener c self)) = false)
  /\ (forall c self,
         accepts (commands.command c) = true -> accepts (args c) = true ->
         fst (CfgConfig.set_url_opener c self)
         = Raise (TypeError "option keys must be strings"))
  /\ CfgConfig.set_url_opener ytdl url_store
     = (Raise (TypeError "option keys must be strings"),
        with_section url_store "opener:ytdl"
          [("command", "/usr/bin/youtube-dl"); ("args", "")])
  /\ CfgConfig.get_url_opener (run (CfgConfig.set_url_opener ytdl) url_store)
                              "youtu.be"
     = Ok (mkCommand "/usr/bin/qr" "" [""] "url-openers")
  /\ CfgConfig.get_url_opener (run (CfgConfig.set_url_opener ytdl) empty)
                              "youtu.be"
     = Raise (KeyError "url-openers:default")
  /\ CfgConfig.get_url_opener
       (run (CfgConfig.__set_command ytdl "url-openers") url_store) "youtu.be"
     = Ok (mkCommand "/usr/bin/youtube-dl" "" ["youtube.com"; "youtu.be"]
                     "url-openers").
Proof.
  split; [|split; [|repeat split; vm_compute; reflexivity]].
  - intros c self.
    destruct (set_url_opener_outcome c self) as [[_ ->]|[_ (v & n & ->)]];
      reflexivity.
  - intros c self Hc Ha.
    destruct (set_url_opener_outcome c self) as [[_ H]|[H _]];
      [exact H|].
    rewrite Hc, Ha in H. discriminate H.
Qed.

(** On the opener [ytdl], whose executable and arguments [set] accepts. *)
Lemma set_url_opener_raises_witness :
  fst (CfgConfig.set_url_opener ytdl url_store)
  = Raise (TypeError "option keys must be strings").
Proof.
  apply (proj1 (proj2 set_url_opener_raises) ytdl url_store); reflexivity.
Defined.

(** ** Saving and loading the structured store *)

Lemma as_dict_keys (as_d : CommandDict -> result yaml)
      (self : YAMLConfig.t) (y : yaml) :
  YAMLConfig.as_dict as_d self = Ok y ->
  exists editors openers,
    y = YMap [("file_editors", editors); ("url_openers", openers)].
Proof.
  unfold YAMLConfig.as_dict.
  destruct (match YAMLConfig.file_editors self with
            | Some d => as_d d
            | None => Raise (AttributeError "as_dict")
            end) as [e|]; [|discriminate]. cbn [bind].
  destruct (match YAMLConfig.url_openers self with
            | Some d => as_d d
            | None => Raise (AttributeError "as_dict")
            end) as [o|]; [|discriminate]. cbn [bind].
  destruct (YAMLConfig.rename_commands "classes" "extensions" e) as [e'|];
    [|discriminate]. cbn [bind].
  destruct (YAMLConfig.rename_commands "classes" "domains" o) as [o'|];
    [|discriminate]. cbn [bind].
  intros [= <-]. now exists e', o'.
Qed.

(** C2 fails on the code for the structured encoding.  [as_dict] stores the
    partitions under the keys [file_editors] and [url_openers], and [load]
    reads the keys [file-editors] and [url-openers]: whatever [save]
    produces, [load] finds [None] under its first key, raises
    [AttributeError] and leaves the store as it was. *)
Theorem yaml_save_then_load_fails
        (CommandDict_of : yaml -> result CommandDict)
        (CommandDict_as_dict : CommandDict -> result yaml)
        (self self0 : YAMLConfig.t) (y : yaml) :
  YAMLConfig.save CommandDict_as_dict self = Ok y ->
  YAMLConfig.load CommandDict_of y self0 = (Raise (AttributeError "get"), self0).
Proof.
  intros H. apply as_dict_keys in H as (e & o & ->). reflexivity.
Qed.

(** On [yaml_registry], with the partitions laid out as the specification
    gives them: [save] succeeds, [load] of what it saved fails, and [load]
    of the same data under the keys it reads gives the registry back. *)
Lemma yaml_save_then_load_fails_witness :
  YAMLConfig.save commands.as_dict yaml_registry = Ok saved_registry
  /\ YAMLConfig.load commands.of_dict saved_registry YAMLConfig.__init__
     = (Raise (AttributeError "get"), YAMLConfig.__init__)
  /\ YAMLConfig.load commands.of_dict (with_load_keys saved_registry)
                     YAMLConfig.__init__
     = (Ok tt, yaml_registry).
Proof.
  split; [reflexivity|]. split; [|reflexivity].
  apply (yaml_save_then_load_fails commands.of_dict commands.as_dict
                                   yaml_registry YAMLConfig.__init__
                                   saved_registry).
  reflexivity.
Defined.
(** ** Replacing the default *)

Lemma contains_dollar_app (a b : string) :
  contains "$" (a ++ b) = contains "$" a || contains "$" b.
Proof.
  induction a as [|c a IH]; [now destruct b|].
  change (String c a ++ b) with (String c (a ++ b)).
  rewrite !contains_dollar, IH. apply orb_assoc.
Qed.

Lemma join_dollar_free (l : list string) :
  Forall dollar_free l -> dollar_free (join " " l).
Proof.
  unfold dollar_free. induction 1 as [|x l Hx Hl IH]; [reflexivity|].
  destruct l as [|y l]; [exact Hx|].
  change (join " " (x :: y :: l)) with (x ++ " " ++ join " " (y :: l)).
  rewrite !contains_dollar_app, Hx, IH. reflexivity.
Qed.

Lemma dollar_free_accepted (c : Command) :
  dollar_free_command c -> accepted c = true.
Proof.
  intros (Hc & Ha & Hl). unfold accepted.
  rewrite !dollar_free_accepts; auto using join_dollar_free.
Qed.

(** The Command that [__get_command] builds from a section of a partition
    that has the three options of its own, without a dollar sign. *)
Lemma command_of_own
      (self : ConfigParser) (kind ck n cmd a j : string) (opts : options) :
  classes_name kind = Some ck ->
  dict_get (kind ++ ":" ++ n) (_sections self) = Some opts ->
  dict_get "command" opts = Some cmd ->
  dict_get "args" opts = Some a ->
  dict_get ck opts = Some j ->
  dollar_free cmd -> dollar_free a -> dollar_free j ->
  command_of (mkSectionProxy self (kind ++ ":" ++ n)) ck
  = Ok (mkCommand cmd a (split " " j) kind).
Proof.
  intros Hck Hown Hgc Hga Hgk Hc Ha Hj.
  set (S := kind ++ ":" ++ n) in *.
  pose proof (classes_name_lower _ _ Hck) as Hlow.
  assert (Hd : String.eqb S default_section = false)
    by apply section_key_not_DEFAULT.
  assert (Ht : truthy S = true) by apply section_key_truthy.
  unfold command_of. unfold proxy_contains.
  cbn [_parser configparser.name].
  rewrite !(has_option_own _ S _ opts Hd Ht Hown).
  unfold dict_has. rewrite Hlow.
  change (optionxform "args") with "args". rewrite Hga, Hgk. cbn [orb].
  rewrite (proxy_get_own _ S "command" cmd opts Hd Ht Hown Hgc Hc).
  rewrite (proxy_get_own _ S "args" a opts Hd Ht Hown Hga Ha).
  rewrite (proxy_get_own _ S ck j opts Hd Ht Hown); [|now rewrite Hlow|exact Hj].
  cbn [bind]. f_equal. f_equal.
  unfold S. change (kind ++ ":" ++ n) with (kind ++ String ":" n).
  apply first_split_app.
  destruct (classes_name_inv _ _ Hck) as [[-> _]|[-> _]]; reflexivity.
Qed.

(** The options that [__set_command] writes. *)
Lemma written_options (ck cmd a j : string) (old : options) :
  String.eqb ck "command" = false -> String.eqb ck "args" = false ->
  let opts := dict_set ck j (dict_set "args" a (dict_set "command" cmd old)) in
  dict_get "command" opts = Some cmd
  /\ dict_get "args" opts = Some a
  /\ dict_get ck opts = Some j.
Proof.
  intros Hk1 Hk2 opts. apply String.eqb_neq in Hk1, Hk2. unfold opts.
  repeat split.
  - rewrite dict_get_set_neq by congruence.
    rewrite dict_get_set_neq by discriminate. apply dict_get_set_eq.
  - rewrite dict_get_set_neq by congruence. apply dict_get_set_eq.
  - apply dict_get_set_eq.
Qed.

(** The Command that [__get_command] builds from a section that
    [__set_command] wrote with values without a dollar sign. *)
Lemma command_of_written
      (self : ConfigParser) (kind ck n cmd a j : string) (old : options) :
  classes_name kind = Some ck ->
  dollar_free cmd -> dollar_free a -> dollar_free j ->
  command_of
    (mkSectionProxy
       (with_section self (kind ++ ":" ++ n)
          (dict_set ck j (dict_set "args" a (dict_set "command" cmd old))))
       (kind ++ ":" ++ n)) ck
  = Ok (mkCommand cmd a (split " " j) kind).
Proof.
  intros Hck Hc Ha Hj.
  destruct (class_kind_not_reserved _ _ Hck) as [Hk1 Hk2].
  destruct (written_options ck cmd a j old Hk1 Hk2) as (Hgc & Hga & Hgk).
  apply (command_of_own _ kind ck n cmd a j _ Hck (with_section_own _ _ _));
    assumption.
Qed.

Lemma default_section_unvisited (kind section_kind : string) :
  visited section_kind (kind ++ ":" ++ "default") = false.
Proof. unfold visited. now rewrite contains_default. Qed.

Lemma section_key_colon (kind n : string) :
  contains ":" (kind ++ ":" ++ n) = true.
Proof. apply contains_spec. now exists kind, n. Qed.




(** What a scan ends on, by name, when the section it found is seen
    through another store. *)
Lemma renew_named (self' : ConfigParser)
      (found : result (option SectionProxy)) (dflt : string) :
  (r <- renew self' found ;;
   Ok (match r with Some p => configparser.name p | None => dflt end))
  = (r <- found ;;
     Ok (match r with Some p => configparser.name p | None => dflt end)).
Proof. now destruct found as [[p|]|]. Qed.


Lemma added_section_key
      (script_path mode : string) (name : option string) (default : bool) :
  String.eqb (added_section script_path mode name default) default_section
  = false
  /\ truthy (added_section script_path mode name default) = true
  /\ contains ":" (added_section script_path mode name default) = true.
Proof.
  unfold added_section. destruct default.
  - split; [apply (section_key_not_DEFAULT mode "default")|].
    split; [apply (section_key_truthy mode "default")|].
    apply (section_key_colon mode "default").
  - split; [apply section_key_not_DEFAULT|].
    split; [apply section_key_truthy | apply section_key_colon].
Qed.

Section add.

Variable which : string -> option string.
Variable abspath : string -> string.
Variable w : turmyx.World.
Variables script mode : string.
Variable cases_list : list string.
Variable name : option string.
Variable default : bool.
Variable path : string.

Hypothesis Hmode : mem mode ["opener"; "editor"] = true.
Hypothesis Hwhich : which script = Some path.

Let S : string := added_section (abspath path) mode name default.
Let out : list string :=
  List.app (turmyx.stdout w)
           ["Evaluating script: " ++ script;
            "Absolute path found for script: " ++ abspath path].

(** [add] up to the first [set]: the lines are echoed and the section is
    emptied, or created empty. *)
Lemma add_unfold :
  turmyx.add which abspath script mode cases_list name default w
  = (_ <~ turmyx.on_config (set S (Some "command") (abspath path)) ;;
     _ <~ (match cases_list with
           | _ :: _ =>
               if negb default then
                 turmyx.on_config
                   (set S (Some (if String.eqb mode "editor"
                                 then "extensions" else "domains"))
                        (join " " cases_list))
               else sret tt
           | [] => sret tt
           end) ;;
     turmyx.write_config)
      (turmyx.mkWorld (with_section (turmyx.config_ctx w) S []) out
                      (turmyx.written w)).
Proof.
  unfold turmyx.add. rewrite Hmode, Hwhich. cbn [negb].
  assert (Hsec : (if negb default
                  then
                   mode ++ ":" ++
                   match name with
                   | Some n => if truthy n then n else basename (abspath path)
                   | None => basename (abspath path)
                   end
                  else mode ++ ":default") = S).
  { unfold S, added_section. now destruct default. }
  rewrite Hsec.
  unfold sbind at 1. unfold turmyx.echo at 1.
  unfold sbind at 1. unfold turmyx.echo at 1.
  cbn [turmyx.config_ctx turmyx.stdout turmyx.written].
  unfold sbind at 1. unfold turmyx.on_config at 1.
  cbn [turmyx.config_ctx turmyx.stdout turmyx.written].
  unfold setitem_empty.
  pose proof (proj1 (added_section_key (abspath path) mode name default))
    as Hkey.
  fold S in Hkey. rewrite Hkey.
  unfold out. rewrite <- app_assoc. reflexivity.
Qed.

(** [set] accepts the path and, when they are stored, the joined cases:
    [add] succeeds and writes the store it leaves. *)
Lemma add_accepted :
  accepts (abspath path) = true ->
  default = true \/ cases_list = []
  \/ accepts (join " " cases_list) = true ->
  turmyx.add which abspath script mode cases_list name default w
  = (Ok tt,
     turmyx.mkWorld
       (with_section (turmyx.config_ctx w) S
                     (added_options (abspath path) mode cases_list default))
       out
       (List.app (turmyx.written w)
                 [with_section (turmyx.config_ctx w) S
                    (added_options (abspath path) mode cases_list default)])).
Proof.
  intros Hp Hc. rewrite add_unfold.
  destruct (added_section_key (abspath path) mode name default)
    as (Hkey & Htruthy & _). fold S in Hkey, Htruthy.
  unfold sbind at 1. unfold turmyx.on_config at 1.
  cbn [turmyx.config_ctx turmyx.stdout turmyx.written].
  rewrite set_with_section by assumption.
  change (dict_set (optionxform "command") (abspath path) [])
    with [("command", abspath path)].
  unfold added_options. destruct cases_list as [|x l].
  - reflexivity.
  - destruct default; [reflexivity|]. cbn [negb].
    destruct Hc as [Hc|[Hc|Hc]]; [discriminate..|].
    unfold sbind at 1. unfold turmyx.on_config at 1.
    cbn [turmyx.config_ctx turmyx.stdout turmyx.written].
    rewrite set_with_section by assumption.
    destruct (String.eqb mode "editor"); reflexivity.
Qed.

(** [set] refuses the path: [add] raises the [ValueError] with the section
    left empty, and writes nothing. *)
Lemma add_path_rejected :
  accepts (abspath path) = false ->
  exists n,
    turmyx.add which abspath script mode cases_list name default w
    = (Raise (InvalidInterpolationSyntax (abspath path) n),
       turmyx.mkWorld (with_section (turmyx.config_ctx w) S []) out
                      (turmyx.written w)).
Proof.
  intros Hp. rewrite add_unfold.
  destruct (set_rejected (with_section (turmyx.config_ctx w) S [])
                         S "command" _ Hp) as [n Hn].
  exists n. unfold sbind at 1. unfold turmyx.on_config at 1.
  cbn [turmyx.config_ctx turmyx.stdout turmyx.written].
  now rewrite Hn.
Qed.

(** [set] refuses the joined cases: [add] raises the [ValueError] with the
    path alone in the section, and writes nothing. *)
Lemma add_cases_rejected :
  accepts (abspath path) = true ->
  default = false -> cases_list <> [] ->
  accepts (join " " cases_list) = false ->
  exists n,
    turmyx.add which abspath script mode cases_list name default w
    = (Raise (InvalidInterpolationSyntax (join " " cases_list) n),
       turmyx.mkWorld
         (with_section (turmyx.config_ctx w) S [("command", abspath path)])
         out (turmyx.written w)).
Proof.
  intros Hp Hd Hne Hc. rewrite add_unfold.
  destruct (added_section_key (abspath path) mode name default)
    as (Hkey & Htruthy & _). fold S in Hkey, Htruthy.
  unfold sbind at 1. unfold turmyx.on_config at 1.
  cbn [turmyx.config_ctx turmyx.stdout turmyx.written].
  rewrite set_with_section by assumption.
  change (dict_set (optionxform "command") (abspath path) [])
    with [("command", abspath path)].
  destruct cases_list as [|x l]; [congruence|]. rewrite Hd. cbn [negb].
  unfold sbind at 1. unfold turmyx.on_config at 1.
  cbn [turmyx.config_ctx turmyx.stdout turmyx.written].
  match goal with
  | |- context [set S (Some ?o) ?v ?st] =>
      destruct (set_rejected st S o v Hc) as [n Hn]
  end.
  exists n. now rewrite Hn.
Qed.

End add.

(** ** Resolution after a section was written *)

Lemma classifiers_agree (S : string) (self self' : ConfigParser)
      (class_kind s : string) :
  contains ":" S = true -> same_but S self self' -> s <> S ->
  classifiers self' class_kind s = classifiers self class_kind s.
Proof.
  intros Hcolon Hsame Hs. unfold classifiers.
  rewrite (getitem_same_but S self self' s Hsame Hs).
  destruct (getitem self s) as [p|] eqn:Hp; [|reflexivity].
  apply getitem_inv in Hp as [-> _]. cbn [bind].
  now rewrite (proxy_get_agree S self self' Hcolon Hsame s class_kind Hs).
Qed.




(** ** The default slot of the front end *)





(** ** One rule set in the flat and in the structured store *)

Lemma dict_get_none {V} (k : string) (d : list (string * V)) :
  dict_get k d = None <-> ~ In k (map fst d).
Proof.
  induction d as [|[k' v'] d IH]; simpl; [tauto|].
  destruct (String.eqb_spec k k') as [->|Hne].
  - split; [discriminate | intros H; exfalso; apply H; now left].
  - rewrite IH. split.
    + intros H [E|HIn]; [now apply Hne | now apply H].
    + intros H HIn. apply H. now right.
Qed.

Lemma dict_set_absent {V} (k : string) (v : V) (d : list (string * V)) :
  dict_get k d = None -> dict_set k v d = (d ++ [(k, v)])%list.
Proof.
  induction d as [|[k' v'] d IH]; simpl; [reflexivity|].
  destruct (String.eqb k k'); [discriminate|].
  intros H. now rewrite IH.
Qed.

(** In a dictionary of distinct keys, each entry is found under its key. *)
Lemma dict_get_in {V} (k : string) (v : V) (d : list (string * V)) :
  NoDup (map fst d) -> In (k, v) d -> dict_get k d = Some v.
Proof.
  induction d as [|[k' v'] d IH]; simpl; [intros _ []|].
  intros Hnd [E|HIn]; inversion Hnd as [|? ? Hk Hd]; subst.
  - injection E as -> ->. now rewrite String.eqb_refl.
  - destruct (String.eqb_spec k k') as [->|_]; [|now apply IH].
    exfalso. apply Hk. apply in_map_iff. now exists (k', v).
Qed.

Section written.

Variables kind class_kind : string.
Hypothesis Hkind : classes_name kind = Some class_kind.

Lemma class_kind_fresh (cmd a : string) (j : string) :
  dict_set class_kind j (dict_set "args" a (dict_set "command" cmd []))
  = [("command", cmd); ("args", a); (class_kind, j)].
Proof.
  destruct (classes_name_inv _ _ Hkind) as [[_ ->]|[_ ->]]; reflexivity.
Qed.

(** [__set_command] for a rule whose section is new appends the section. *)
Lemma set_command_fresh (self : ConfigParser) (n : string) (c : Command) :
  truthy n = true ->
  dollar_free_command c ->
  dict_get (kind ++ ":" ++ n) (_sections self) = None ->
  CfgConfig.__set_command
    (mkCommand (commands.command c) (args c) (classes c) n) kind self
  = (Ok tt,
     mkConfigParser (_defaults self)
                    (_sections self ++ [flat_section kind class_kind (n, c)])).
Proof.
  intros Hn Hfree Habs.
  pose proof (set_command_run self
                (mkCommand (commands.command c) (args c) (classes c) n)
                kind class_kind Hkind (dollar_free_accepted _ Hfree))
    as Hrun.
  unfold stored_name in Hrun.
  cbn [commands.name commands.command args classes] in Hrun.
  rewrite Hn in Hrun. cbv zeta in Hrun. rewrite Hrun.
  unfold section_options. rewrite Habs, class_kind_fresh.
  unfold with_section. now rewrite dict_set_absent.
Qed.

Lemma write_rules_fresh (rules : list (string * Command)) :
  forall self,
    NoDup (map fst rules) ->
    (forall n c, In (n, c) rules ->
                 truthy n = true
                 /\ dollar_free_command c
                 /\ dict_get (kind ++ ":" ++ n) (_sections self) = None) ->
    write_rules kind rules self
    = (Ok tt,
       mkConfigParser (_defaults self)
         (_sections self ++ map (flat_section kind class_kind) rules)).
Proof.
  induction rules as [|[n c] rules IH]; intros self Hnd H.
  - cbn. rewrite app_nil_r. now destruct self.
  - inversion Hnd as [|? ? Hn Hnd']; subst.
    destruct (H n c (or_introl eq_refl)) as (Ht & Hfree & Habs).
    cbn [write_rules]. unfold sbind.
    rewrite set_command_fresh by assumption.
    rewrite IH; [|assumption|].
    + cbn [_defaults _sections]. now rewrite <- app_assoc.
    + intros n' c' HIn.
      destruct (H n' c' (or_intror HIn)) as (Ht' & Hfree' & Habs').
      split; [assumption|]. split; [assumption|]. cbn [_sections].
      rewrite dict_get_app, Habs'. cbn [dict_get flat_section fst].
      destruct (String.eqb_spec (kind ++ ":" ++ n') (kind ++ ":" ++ n))
        as [E|_]; [|reflexivity].
      exfalso. apply append_inj in E. injection E as ->.
      apply Hn. apply in_map_iff. now exists (n, c').
Qed.

(** A partition whose sections are all new is appended to the store in
    the layout of [flat_partition]. *)
Lemma write_partition_fresh (d : CommandDict) (self : ConfigParser) :
  NoDup (map fst (items d)) ->
  (forall n c, In (n, c) (items d) ->
               truthy n = true
               /\ contains "default" (kind ++ ":" ++ n) = false
               /\ dollar_free_command c
               /\ dict_get (kind ++ ":" ++ n) (_sections self) = None) ->
  (forall c, default d = Some c -> dollar_free_command c) ->
  dict_get (kind ++ ":" ++ "default") (_sections self) = None ->
  write_partition kind d self
  = (Ok tt,
     mkConfigParser (_defaults self)
                    (_sections self ++ flat_partition kind class_kind d)).
Proof.
  intros Hnd H Hdfree Hdef. unfold write_partition, sbind.
  rewrite write_rules_fresh;
    [|assumption
     | intros n c HIn; destruct (H n c HIn) as (? & _ & ? & ?); auto].
  unfold flat_partition. destruct (default d) as [c0|].
  - rewrite set_command_fresh; [|reflexivity|now apply Hdfree|].
    + cbn [_defaults _sections]. now rewrite <- app_assoc.
    + cbn [_sections]. rewrite dict_get_app, Hdef.
      apply dict_get_none. rewrite map_map. intros HIn.
      apply in_map_iff in HIn as ([n c] & E & HIn).
      change (kind ++ ":" ++ n = kind ++ ":" ++ "default") in E.
      destruct (H n c HIn) as (_ & Hd & _).
      rewrite E, contains_default in Hd. discriminate Hd.
  - unfold sret. now rewrite app_nil_r.
Qed.

End written.

Lemma flat_keys_NoDup (kind class_kind : string)
      (rules : list (string * Command)) :
  NoDup (map fst rules) ->
  NoDup (map fst (map (flat_section kind class_kind) rules)).
Proof.
  induction rules as [|[n c] rules IH]; intros H; [constructor|].
  inversion H as [|? ? Hn Hnd]; subst. cbn [map flat_section fst].
  constructor; [|now apply IH].
  intros HIn. apply Hn. rewrite map_map in HIn.
  apply in_map_iff in HIn as ([n' c'] & E & HIn).
  cbn [flat_section fst] in E. apply append_inj in E. injection E as ->.
  apply in_map_iff. now exists (n, c').
Qed.

(** The first rule that lists the classifier. *)
Lemma first_with_find (class_name : string)
      (rules : list (string * Command)) :
  YAMLConfig.first_with class_name (map snd rules)
  = option_map snd (find (fun nc => mem class_name (classes (snd nc))) rules).
Proof.
  induction rules as [|[n c] rules IH]; [reflexivity|].
  cbn [map snd YAMLConfig.first_with find].
  destruct (mem class_name (classes c)); [reflexivity | exact IH].
Qed.

Section partition.

Variables kind class_kind : string.
Hypothesis Hkind : classes_name kind = Some class_kind.
Variable d : CommandDict.
Variables before after : list (string * options).

Hypothesis Hnames : NoDup (map fst (items d)).
Hypothesis Hrules :
  forall n c, In (n, c) (items d) ->
    contains "default" (kind ++ ":" ++ n) = false
    /\ classes c <> []
    /\ Forall (fun x => contains " " x = false) (classes c)
    /\ dollar_free_command c.
Hypothesis Hdefault : forall c, default d = Some c -> dollar_free_command c.
Hypothesis Hothers :
  forall k, In k (map fst before) \/ In k (map fst after) ->
    visited kind k = false /\ k <> kind ++ ":" ++ "default".

Let store : ConfigParser :=
  mkConfigParser []
    (before ++ flat_partition kind class_kind d ++ after).

Let proxy_of (nc : string * Command) : SectionProxy :=
  mkSectionProxy store (fst (flat_section kind class_kind nc)).

Lemma rule_visited (n : string) (c : Command) :
  In (n, c) (items d) -> visited kind (kind ++ ":" ++ n) = true.
Proof.
  intros H. destruct (Hrules n c H) as (Hd & _). unfold visited.
  now rewrite Hd, contains_kind.
Qed.

Lemma own_rule (n : string) (c : Command) :
  In (n, c) (items d) ->
  dict_get (kind ++ ":" ++ n) (_sections store)
  = Some (snd (flat_section kind class_kind (n, c))).
Proof.
  intros H. unfold store. cbn [_sections _defaults].
  rewrite dict_get_app.
  assert (Hb : dict_get (kind ++ ":" ++ n) before = None).
  { apply dict_get_none. intros HIn.
    destruct (Hothers _ (or_introl HIn)) as [Hv _].
    rewrite (rule_visited n c H) in Hv. discriminate Hv. }
  rewrite Hb. unfold flat_partition. rewrite <- app_assoc, dict_get_app.
  rewrite (dict_get_in (kind ++ ":" ++ n)
                       (snd (flat_section kind class_kind (n, c)))).
  - reflexivity.
  - now apply flat_keys_NoDup.
  - apply in_map_iff. now exists (n, c).
Qed.

Lemma lookup_rule (n : string) (c : Command) :
  In (n, c) (items d) ->
  getitem store (kind ++ ":" ++ n) = Ok (proxy_of (n, c)).
Proof.
  intros H. apply getitem_ok. unfold contains_section, has_section, dict_has.
  rewrite (own_rule n c H). apply orb_true_r.
Qed.

Lemma own_default :
  dict_get (kind ++ ":" ++ "default") (_sections store)
  = match default d with
    | Some c => Some (snd (flat_section kind class_kind ("default", c)))
    | None => None
    end.
Proof.
  unfold store. cbn [_sections _defaults].
  rewrite dict_get_app.
  assert (Hb : dict_get (kind ++ ":" ++ "default") before = None).
  { apply dict_get_none. intros HIn.
    now destruct (Hothers _ (or_introl HIn)) as [_ Hk]. }
  assert (Ha : dict_get (kind ++ ":" ++ "default") after = None).
  { apply dict_get_none. intros HIn.
    now destruct (Hothers _ (or_intror HIn)) as [_ Hk]. }
  assert (Hr : dict_get (kind ++ ":" ++ "default")
                        (map (flat_section kind class_kind) (items d))
               = None).
  { apply dict_get_none. rewrite map_map. intros HIn.
    apply in_map_iff in HIn as ([n c] & E & HIn).
    change (kind ++ ":" ++ n = kind ++ ":" ++ "default") in E.
    destruct (Hrules n c HIn) as (Hd & _).
    rewrite E, contains_default in Hd. discriminate Hd. }
  rewrite Hb. unfold flat_partition.
  rewrite <- app_assoc, dict_get_app, Hr, dict_get_app.
  destruct (default d) as [c|].
  - cbn [dict_get flat_section fst]. now rewrite String.eqb_refl.
  - cbn [dict_get]. now rewrite Ha.
Qed.

Lemma lookup_default :
  getitem store (kind ++ ":" ++ "default")
  = match default d with
    | Some c => Ok (proxy_of ("default", c))
    | None => Raise (KeyError (kind ++ ":" ++ "default"))
    end.
Proof.
  pose proof own_default as H. destruct (default d) as [c|].
  - apply getitem_ok. unfold contains_section, has_section, dict_has.
    rewrite H. apply orb_true_r.
  - apply getitem_absent; [apply section_key_not_DEFAULT|].
    unfold has_section, dict_has. now rewrite H.
Qed.

(** The Command of a section laid out by [__set_command]. *)
Lemma command_of_proxy (nc : string * Command) :
  dict_get (kind ++ ":" ++ fst nc) (_sections store)
  = Some (snd (flat_section kind class_kind nc)) ->
  dollar_free_command (snd nc) ->
  command_of (proxy_of nc) class_kind
  = Ok (mkCommand (commands.command (snd nc)) (args (snd nc))
                  (split " " (join " " (classes (snd nc)))) kind).
Proof.
  intros Hown (Hc & Ha & Hl).
  destruct (class_kind_not_reserved _ _ Hkind) as [Hk1 Hk2].
  apply (command_of_own store kind class_kind (fst nc)
                        (commands.command (snd nc)) (args (snd nc))
                        (join " " (classes (snd nc)))
                        (snd (flat_section kind class_kind nc)) Hkind Hown);
    auto using join_dollar_free;
    cbn [flat_section snd dict_get]; rewrite ?Hk1, ?Hk2;
    now rewrite ?String.eqb_refl.
Qed.

(** Over the sections of the rules, the scan finds the first rule that
    lists the classifier. *)
Lemma scan_rules (class_name : string) (rest : list string)
      (rules : list (string * Command)) :
  (forall nc, In nc rules -> In nc (items d)) ->
  CfgConfig.scan store kind class_kind class_name
    (map fst (map (flat_section kind class_kind) rules) ++ rest)
  = match find (fun nc => mem class_name (classes (snd nc))) rules with
    | Some nc => Ok (Some (proxy_of nc))
    | None => CfgConfig.scan store kind class_kind class_name rest
    end.
Proof.
  induction rules as [|[n c] rules IH]; intros Hsub; [reflexivity|].
  assert (HIn : In (n, c) (items d)) by (apply Hsub; now left).
  cbn [map flat_section fst app find snd CfgConfig.scan].
  fold (visited kind (kind ++ ":" ++ n)).
  rewrite (rule_visited n c HIn), (lookup_rule n c HIn).
  cbn [bind].
  destruct (Hrules n c HIn) as (_ & Hne & Hsp & (_ & _ & Hfree)).
  destruct (class_kind_not_reserved _ _ Hkind) as [Hc Ha].
  assert (Hread : proxy_get (proxy_of (n, c)) class_kind
                  = Ok (join " " (classes c))).
  { unfold proxy_of. cbn [flat_section fst].
    apply (proxy_get_own store (kind ++ ":" ++ n) class_kind
                         (join " " (classes c))
                         (snd (flat_section kind class_kind (n, c)))).
    - apply section_key_not_DEFAULT.
    - apply section_key_truthy.
    - now apply own_rule.
    - rewrite (classes_name_lower _ _ Hkind).
      cbn [flat_section snd dict_get]. rewrite Hc, Ha.
      now rewrite String.eqb_refl.
    - now apply join_dollar_free. }
  rewrite Hread. cbn [bind]. rewrite split_join by assumption.
  destruct (mem class_name (classes c)); [reflexivity|].
  apply IH. intros nc Hnc. apply Hsub. now right.
Qed.
Lemma sections_store :
  sections store
  = (map fst before
     ++ map fst (map (flat_section kind class_kind) (items d))
     ++ match default d with
        | Some c => [(kind ++ ":" ++ "default")%string]
        | None => []
        end
     ++ map fst after)%list.
Proof.
  unfold sections, store, flat_partition. cbn [_sections].
  rewrite !map_app, <- app_assoc. now destruct (default d).
Qed.

Lemma scan_store (class_name : string) :
  CfgConfig.scan store kind class_kind class_name (sections store)
  = match find (fun nc => mem class_name (classes (snd nc))) (items d) with
    | Some nc => Ok (Some (proxy_of nc))
    | None => Ok None
    end.
Proof.
  rewrite sections_store, scan_app.
  2:{ intros s Hs Hv. destruct (Hothers s (or_introl Hs)) as [Hu _].
      congruence. }
  rewrite scan_rules by auto.
  destruct (find (fun nc => mem class_name (classes (snd nc))) (items d));
    [reflexivity|].
  apply scan_none. intros s Hs Hv. exfalso.
  apply in_app_or in Hs as [Hs|Hs].
  - destruct (default d); [|contradiction].
    destruct Hs as [<-|[]]. unfold visited in Hv.
    rewrite contains_default in Hv. discriminate Hv.
  - destruct (Hothers s (or_intror Hs)) as [Hu _]. congruence.
Qed.

(** The two resolutions of a classifier agree on the partition. *)
Lemma partition_agree (class_name : string) :
  agree class_name d
        (YAMLConfig.__get_command d class_name)
        (CfgConfig.__get_command store kind class_kind class_name).
Proof.
  rewrite get_command_unfold.
  unfold CfgConfig.__get_section, YAMLConfig.__get_command, values.
  rewrite scan_store, first_with_find.
  destruct (find (fun nc => mem class_name (classes (snd nc))) (items d))
    as [[n c]|] eqn:Hf.
  - assert (Hm : mem class_name (flat_map classes (map snd (items d)))
                 = true).
    { apply find_some in Hf as [HIn Hc]. cbn [snd] in Hc.
      apply mem_In, in_flat_map. exists c. split.
      - apply in_map_iff. now exists (n, c).
      - now apply mem_In. }
    rewrite Hm. cbn [option_map snd from_command bind agree].
    apply find_some in Hf as [HIn _].
    destruct (Hrules n c HIn) as (_ & Hne & Hsp & Hfree).
    rewrite (command_of_proxy (n, c) (own_rule n c HIn) Hfree).
    eexists. split; [reflexivity|].
    cbn [commands.command args classes snd].
    split; [reflexivity|]. split; [reflexivity|]. intros _.
    now apply split_join.
  - assert (Hm : mem class_name (flat_map classes (map snd (items d)))
                 = false).
    { apply first_with_none. rewrite first_with_find, Hf. reflexivity. }
    rewrite Hm. cbn [bind].
    change (kind ++ ":default") with (kind ++ ":" ++ "default").
    rewrite lookup_default. pose proof own_default as Hown.
    destruct (default d) as [c0|] eqn:Hd0; cbn [from_command agree bind].
    + rewrite (command_of_proxy ("default", c0) Hown (Hdefault c0 eq_refl)).
      eexists. split; [reflexivity|].
      cbn [commands.command args classes snd].
      split; [reflexivity|]. split; [reflexivity|].
      intros H. unfold values in H. congruence.
    + reflexivity.
Qed.

End partition.

Lemma flat_partition_keys (kind class_kind : string) (d : CommandDict)
      (k : string) :
  In k (map fst (flat_partition kind class_kind d)) ->
  (exists n c, In (n, c) (items d) /\ k = kind ++ ":" ++ n)
  \/ k = kind ++ ":" ++ "default".
Proof.
  unfold flat_partition. rewrite map_app. intros H.
  apply in_app_or in H as [H|H].
  - left. rewrite map_map in H. apply in_map_iff in H as ([n c] & <- & HIn).
    now exists n, c.
  - right. destruct (default d); [|contradiction].
    now destruct H as [<-|[]].
Qed.

(** The sections of another partition are neither tested by the scan for
    this kind nor taken for its default. *)
Lemma other_partition_apart (kind other class_kind : string)
      (d : CommandDict) (k : string) :
  valid_rules other kind d ->
  other ++ ":" ++ "default" <> kind ++ ":" ++ "default" ->
  In k (map fst (flat_partition other class_kind d)) ->
  visited kind k = false /\ k <> kind ++ ":" ++ "default".
Proof.
  intros (_ & Hv & _) Hne H.
  apply flat_partition_keys in H as [(n & c & HIn & ->) | ->].
  - destruct (Hv n c HIn) as (_ & _ & Hk & _). split.
    + unfold visited. rewrite Hk. apply andb_false_r.
    + intros E. rewrite E, contains_kind in Hk. discriminate Hk.
  - split; [|assumption]. unfold visited.
    now rewrite contains_default.
Qed.

Lemma other_partition_fresh (kind other class_kind : string)
      (d : CommandDict) (n : string) :
  valid_rules other kind d ->
  other ++ ":" ++ "default" <> kind ++ ":" ++ n ->
  dict_get (kind ++ ":" ++ n) (flat_partition other class_kind d) = None.
Proof.
  intros (_ & Hv & _) Hne. apply dict_get_none. intros H.
  apply flat_partition_keys in H as [(m & c & HIn & E)|E].
  - destruct (Hv m c HIn) as (_ & _ & Hk & _).
    rewrite <- E, contains_kind in Hk. discriminate Hk.
  - now apply Hne.
Qed.

(** The store that the flat implementation writes for a valid rule set. *)
Lemma flat_registry_layout (editors openers : CommandDict) :
  valid_rules "file-editors" "url-openers" editors ->
  valid_rules "url-openers" "file-editors" openers ->
  flat_registry editors openers
  = mkConfigParser []
      (flat_partition "file-editors" "extensions" editors
       ++ flat_partition "url-openers" "domains" openers).
Proof.
  intros He Ho. unfold flat_registry, run, sbind.
  rewrite (write_partition_fresh "file-editors" "extensions" eq_refl
                                 editors empty).
  - rewrite (write_partition_fresh "url-openers" "domains" eq_refl openers).
    + reflexivity.
    + apply Ho.
    + intros n c HIn. destruct Ho as (_ & Ho & _).
      destruct (Ho n c HIn) as (Ht & Hd & _ & _ & _ & Hfree).
      split; [assumption|]. split; [assumption|]. split; [assumption|].
      apply (other_partition_fresh "url-openers" "file-editors" "extensions");
        [assumption | discriminate].
    + apply Ho.
    + apply (other_partition_fresh "url-openers" "file-editors" "extensions");
        [assumption | discriminate].
  - apply He.
  - intros n c HIn. destruct He as (_ & He & _).
    destruct (He n c HIn) as (Ht & Hd & _ & _ & _ & Hfree). auto.
  - apply He.
  - reflexivity.
Qed.

(** C7, as amended.  For a rule set whose rules have distinct non-empty
    names, section names that contain neither ["default"] nor the kind of
    the other partition, and non-empty lists of classifiers without
    spaces, and that has no dollar sign in any of its executables,
    arguments and classifiers, the flat store written by [__set_command]
    and the structured store resolve every classifier alike in both
    partitions: both fail, when
    no rule lists the classifier and the partition has no default, or both
    return a Command with the same executable and arguments, and with the
    same classifiers when a rule lists the classifier. *)
Theorem stores_agree_on_valid_rules
        (editors openers : CommandDict) (class_name : string) :
  valid_rules "file-editors" "url-openers" editors ->
  valid_rules "url-openers" "file-editors" openers ->
  agree class_name editors
        (get_file_editor (structured_registry editors openers) class_name)
        (get_file_editor (flat_registry editors openers) class_name)
  /\ agree class_name openers
           (get_url_opener (structured_registry editors openers) class_name)
           (get_url_opener (flat_registry editors openers) class_name).
Proof.
  intros He Ho. rewrite flat_registry_layout by assumption.
  cbn [get_file_editor get_url_opener YAMLConfig_TurmyxConfig
       CfgConfig_TurmyxConfig].
  unfold YAMLConfig.get_file_editor, YAMLConfig.get_url_opener,
         structured_registry, CfgConfig.get_file_editor,
         CfgConfig.get_url_opener.
  cbn [YAMLConfig.file_editors YAMLConfig.url_openers].
  split.
  - apply (partition_agree "file-editors" "extensions" eq_refl editors []
             (flat_partition "url-openers" "domains" openers)).
    + apply He.
    + intros n c HIn. destruct He as (_ & He & _).
      destruct (He n c HIn) as (_ & Hd & _ & Hc & Hs & Hfree). auto.
    + apply He.
    + intros k [[]|Hk].
      apply (other_partition_apart "file-editors" "url-openers" "domains"
                                   openers); [assumption | discriminate
                                              | assumption].
  - rewrite <- (app_nil_r (flat_partition "url-openers" "domains" openers)).
    apply (partition_agree "url-openers" "domains" eq_refl openers
             (flat_partition "file-editors" "extensions" editors) []).
    + apply Ho.
    + intros n c HIn. destruct Ho as (_ & Ho & _).
      destruct (Ho n c HIn) as (_ & Hd & _ & Hc & Hs & Hfree). auto.
    + apply Ho.
    + intros k [Hk|[]].
      apply (other_partition_apart "url-openers" "file-editors" "extensions"
                                   editors); [assumption | discriminate
                                              | assumption].
Qed.

Lemma editors_dict_valid : valid_rules "file-editors" "url-openers" editors_dict.
Proof.
  split; [|split].
  - repeat constructor; simpl; intuition discriminate.
  - intros n c [[= <- <-]|[[= <- <-]|[]]];
      repeat split; try reflexivity; try discriminate; repeat constructor.
  - intros c [= <-]. repeat split; repeat constructor.
Defined.

Lemma openers_dict_valid : valid_rules "url-openers" "file-editors" openers_dict.
Proof.
  split; [|split].
  - repeat constructor; simpl; intuition discriminate.
  - intros n c [[= <- <-]|[]];
      repeat split; try reflexivity; try discriminate; repeat constructor.
  - intros c [= <-]. repeat split; repeat constructor.
Defined.

Lemma stores_agree_on_valid_rules_witness :
  agree "md" editors_dict
        (get_file_editor (structured_registry editors_dict openers_dict) "md")
        (get_file_editor (flat_registry editors_dict openers_dict) "md")
  /\ agree "md" openers_dict
           (get_url_opener (structured_registry editors_dict openers_dict)
                           "md")
           (get_url_opener (flat_registry editors_dict openers_dict) "md").
Proof.
  apply (stores_agree_on_valid_rules editors_dict openers_dict "md").
  - exact editors_dict_valid.
  - exact openers_dict_valid.
Defined.

(** C7 as stated fails.  With the rule [default-pdf] for [pdf] and the
    default [vi], the structured store resolves [pdf] to [zathura] and the
    flat store, which does not test a section whose name contains
    ["default"], to [vi].  And where both fall back to the same default,
    the flat store reports the classifier list [[""]], read back from the
    empty text it stored, and the structured store the empty list.  And a
    rule whose executable has a dollar sign is resolved by the structured
    store, while the flat store, whose [set] refused the executable, is
    left with an empty section on which the resolution raises. *)
Lemma stores_disagree :
  get_file_editor (structured_registry shadowed_dict openers_dict) "pdf"
  = Ok (mkCommand "/usr/bin/zathura" "" ["pdf"] "default-pdf")
  /\ get_file_editor (flat_registry shadowed_dict openers_dict) "pdf"
     = Ok (mkCommand "/usr/bin/vi" "" [""] "file-editors")
  /\ get_file_editor (structured_registry editors_dict openers_dict) "bin"
     = Ok (mkCommand "/usr/bin/vi" "" [] "default")
  /\ get_file_editor (flat_registry editors_dict openers_dict) "bin"
     = Ok (mkCommand "/usr/bin/vi" "" [""] "file-editors")
  /\ get_file_editor (structured_registry dollar_dict openers_dict) "txt"
     = Ok env_editor
  /\ get_file_editor (flat_registry dollar_dict openers_dict) "txt"
     = Raise (KeyError "extensions").
Proof.
  repeat split; vm_compute; reflexivity.
Qed.

(** * Further properties of the code *)

(** ** More on dictionaries and the scan *)

Lemma dict_set_same {V} (k : string) (v : V) (d : list (string * V)) :
  dict_get k d = Some v -> dict_set k v d = d.
Proof.
  induction d as [|[k' v'] d IH]; simpl; [discriminate|].
  destruct (String.eqb_spec k k') as [->|_].
  - now intros [= ->].
  - intros H. now rewrite IH.
Qed.

Lemma dict_get_del_eq {V} (k : string) (d : list (string * V)) :
  dict_get k (dict_del k d) = None.
Proof.
  unfold dict_del. induction d as [|[k' v'] d IH]; simpl; [reflexivity|].
  destruct (String.eqb k k') eqn:E; simpl; [exact IH|]. now rewrite E.
Qed.

Lemma dict_get_del_neq {V} (k k' : string) (d : list (string * V)) :
  k' <> k -> dict_get k' (dict_del k d) = dict_get k' d.
Proof.
  intros Hne. unfold dict_del.
  induction d as [|[k0 v0] d IH]; simpl; [reflexivity|].
  destruct (String.eqb_spec k k0) as [->|Hk]; simpl.
  - apply String.eqb_neq in Hne. now rewrite Hne.
  - now rewrite IH.
Qed.

Lemma dict_keys_del {V} (k : string) (d : list (string * V)) :
  map fst (dict_del k d)
  = filter (fun s => negb (String.eqb k s)) (map fst d).
Proof.
  unfold dict_del. induction d as [|[k0 v0] d IH]; simpl; [reflexivity|].
  destruct (String.eqb k k0); simpl; now rewrite IH.
Qed.

Lemma dict_del_absent {V} (k : string) (d : list (string * V)) :
  dict_get k d = None -> dict_del k d = d.
Proof.
  unfold dict_del. induction d as [|[k0 v0] d IH]; simpl; [reflexivity|].
  destruct (String.eqb k k0); [discriminate|]. simpl.
  intros H. now rewrite IH.
Qed.

Lemma dict_del_set_absent {V} (k : string) (v : V) (d : list (string * V)) :
  dict_get k d = None -> dict_del k (dict_set k v d) = d.
Proof.
  intros H. rewrite dict_set_absent by assumption.
  unfold dict_del. rewrite filter_app. simpl. rewrite String.eqb_refl. simpl.
  rewrite app_nil_r. now apply dict_del_absent.
Qed.

(** The first occurrence of an element of a list. *)
Lemma first_occurrence (s : string) (l : list string) :
  In s l -> exists pre post, l = (pre ++ s :: post)%list /\ ~ In s pre.
Proof.
  induction l as [|a l IH]; [intros []|].
  destruct (string_dec a s) as [->|Hne].
  - intros _. now exists [], l.
  - intros [E|H]; [congruence|].
    destruct (IH H) as (pre & post & -> & Hpre).
    exists (a :: pre), post. split; [reflexivity|].
    intros [E|HIn]; [congruence | now apply Hpre].
Qed.

(** ** One section deleted *)

Lemma without_section_same_but (self : ConfigParser) (S : string) :
  same_but S self (without_section self S).
Proof.
  split; [reflexivity|]. intros s Hs. unfold without_section.
  cbn [_sections]. now apply dict_get_del_neq.
Qed.

Lemma has_section_without_section (self : ConfigParser) (S : string) :
  has_section (without_section self S) S = false.
Proof.
  unfold has_section, without_section, dict_has. simpl.
  now rewrite dict_get_del_eq.
Qed.

Lemma getitem_without_section_eq (self : ConfigParser) (S : string) :
  String.eqb S default_section = false ->
  getitem (without_section self S) S = Raise (KeyError S).
Proof.
  intros H. apply getitem_absent; [assumption|].
  apply has_section_without_section.
Qed.

Lemma sections_without_section (self : ConfigParser) (S : string) :
  sections (without_section self S)
  = filter (fun s => negb (String.eqb S s)) (sections self).
Proof. unfold sections, without_section. simpl. apply dict_keys_del. Qed.

Lemma remove_section_present (self : ConfigParser) (S : string) :
  has_section self S = true ->
  remove_section self S = (true, without_section self S).
Proof. intros H. unfold remove_section. now rewrite H. Qed.

(** Deleting a section that the scan does not test, and that no reference
    can name, does not change how the scan ends. *)
Lemma scan_without_section (self : ConfigParser) (S : string)
      (section_kind class_kind class_name : string) :
  contains ":" S = true ->
  visited section_kind S = false ->
  CfgConfig.scan (without_section self S) section_kind class_kind class_name
                 (sections (without_section self S))
  = renew (without_section self S)
          (CfgConfig.scan self section_kind class_kind class_name
                          (sections self)).
Proof.
  intros Hcolon Hv. rewrite sections_without_section.
  rewrite (scan_renew S self).
  - f_equal. induction (sections self) as [|s l IH]; [reflexivity|].
    cbn [filter]. destruct (String.eqb_spec S s) as [<-|Hne]; cbn [negb].
    + now rewrite scan_skip.
    + cbn [CfgConfig.scan]. now rewrite IH.
  - assumption.
  - apply without_section_same_but.
  - intros s _ Hs ->. congruence.
Qed.

(** Deleting a section that the scan for a kind does not test, that is not
    the default section of that kind, and whose name has a colon, leaves
    the resolution for this kind as it was. *)
Lemma get_command_without_section
      (self : ConfigParser) (S : string)
      (section_kind class_kind class_name : string) :
  contains ":" S = true ->
  visited section_kind S = false ->
  S <> section_kind ++ ":default" ->
  CfgConfig.__get_command (without_section self S)
                          section_kind class_kind class_name
  = CfgConfig.__get_command self section_kind class_kind class_name.
Proof.
  intros Hcolon Hv Hne. rewrite !get_command_unfold.
  unfold CfgConfig.__get_section. rewrite scan_without_section by assumption.
  pose proof (without_section_same_but self S) as Hsame.
  destruct (CfgConfig.scan self section_kind class_kind class_name
                           (sections self)) as [[p|]|] eqn:Hscan;
    cbn [renew bind]; [| |reflexivity].
  - apply scan_found in Hscan as (_ & Hvp & Hp & _).
    apply getitem_inv in Hp as [Hp _]. rewrite Hp at 2.
    apply (command_of_agree S); [assumption..|].
    intros E. rewrite E in Hvp. congruence.
  - rewrite (getitem_same_but S self _ _ Hsame) by congruence.
    destruct (getitem self (section_kind ++ ":default")) as [p|] eqn:Hp;
      [|reflexivity].
    apply getitem_inv in Hp as [-> _]. cbn [bind].
    apply (command_of_agree S); [assumption..|congruence].
Qed.

(** After a section is written that the scan tests and that lists the
    classifier, the scan returns it, provided no other rule lists the
    classifier. *)
Lemma scan_after_write (self : ConfigParser) (S : string) (opts : options)
      (section_kind class_kind class_name : string) :
  contains ":" S = true ->
  visited section_kind S = true ->
  matches (with_section self S opts) class_kind class_name S ->
  (forall s, In s (sections self) -> s <> S ->
             visited section_kind s = true ->
             misses self class_kind class_name s) ->
  CfgConfig.scan (with_section self S opts) section_kind class_kind class_name
                 (sections (with_section self S opts))
  = Ok (Some (mkSectionProxy (with_section self S opts) S)).
Proof.
  intros Hcolon Hv Hm Hothers.
  assert (HS : In S (sections (with_section self S opts)))
    by (apply has_section_In, has_section_with_section).
  destruct (first_occurrence _ _ HS) as (pre & post & Heq & Hpre).
  rewrite Heq, scan_app.
  - destruct (scan_hit (with_section self S opts) section_kind class_kind
                       class_name S post Hv Hm) as (p & Hp & ->).
    apply getitem_inv in Hp as [-> _]. reflexivity.
  - intros s Hs Hvs.
    assert (Hne : s <> S) by (intros ->; contradiction).
    assert (Hold : In s (sections self)).
    { assert (H : In s (sections (with_section self S opts)))
        by (rewrite Heq; apply in_or_app; now left).
      rewrite sections_with_section in H.
      destruct (has_section self S); [assumption|].
      apply in_app_or in H as [H|[H|[]]]; [assumption | congruence]. }
    destruct (Hothers s Hold Hne Hvs) as (l & Hl & Hn).
    exists l. split; [|assumption]. rewrite <- Hl.
    apply (classifiers_agree S);
      [assumption | apply with_section_same_but | assumption].
Qed.

(** Reading an option of another section than the rewritten one. *)
Lemma read_agree (S : string) (self self' : ConfigParser) (s o : string) :
  contains ":" S = true -> same_but S self self' -> s <> S ->
  (p <- getitem self' s ;; proxy_get p o)
  = (p <- getitem self s ;; proxy_get p o).
Proof.
  intros Hcolon Hsame Hs.
  rewrite (getitem_same_but S self self' s Hsame Hs).
  destruct (getitem self s) as [p|] eqn:Hp; [|reflexivity].
  apply getitem_inv in Hp as [-> _]. cbn [bind].
  now apply (proxy_get_agree S).
Qed.

(** ** The mutators of the flat store *)

Lemma stored_section_visited (kind n : string) :
  contains "default" (kind ++ ":" ++ n) = false ->
  visited kind (kind ++ ":" ++ n) = true.
Proof. intros H. unfold visited. now rewrite H, contains_kind. Qed.

Lemma section_options_with_section (self : ConfigParser) (S : string)
      (opts : options) :
  section_options (with_section self S opts) S = opts.
Proof. unfold section_options. now rewrite with_section_own. Qed.

Lemma with_section_again (self : ConfigParser) (S : string)
      (opts opts' : options) :
  with_section (with_section self S opts') S opts = with_section self S opts.
Proof. unfold with_section. simpl. now rewrite dict_set_set. Qed.

(** [set] on a section that is there, whatever the option and the value. *)
Lemma set_on_section (self : ConfigParser) (S : string)
      (o : Datatypes.option string) (v : string) (opts : options) :
  String.eqb S default_section = false -> truthy S = true ->
  set S o v (with_section self S opts)
  = (fst (put o v (Ok tt, opts)),
     with_section self S (snd (put o v (Ok tt, opts)))).
Proof.
  intros Hd Ht. destruct o as [o|]; [|reflexivity].
  cbn [put]. destruct (accepts v) eqn:Hv.
  - now rewrite set_with_section.
  - cbn [fst snd]. unfold set. unfold accepts in Hv.
    destruct (truthy v); [|discriminate]. cbn [negb orb] in Hv.
    unfold before_set in *.
    destruct (contains "$" (strip_references (strip_escaped v)));
      [reflexivity | discriminate].
Qed.

(** [__set_command], whatever the Command and the kind: how it ends, and
    the store it leaves. *)
Lemma set_command_closed (self : ConfigParser) (c : Command) (kind : string) :
  let S := kind ++ ":" ++ stored_name c in
  CfgConfig.__set_command c kind self
  = (fst (stored c kind (section_options self S)),
     with_section self S (snd (stored c kind (section_options self S)))).
Proof.
  intros S. unfold CfgConfig.__set_command. fold (stored_name c). fold S.
  assert (Hd : String.eqb S default_section = false)
    by apply section_key_not_DEFAULT.
  assert (Ht : truthy S = true) by apply section_key_truthy.
  unfold sbind at 1. rewrite ensure_section by assumption.
  unfold stored. set (old := section_options self S).
  unfold sbind at 1. rewrite set_on_section by assumption.
  destruct (put (Some "command") (commands.command c) (Ok tt, old))
    as [[[]|e] o1]; cbn [fst snd]; [|reflexivity].
  unfold sbind at 1. rewrite set_on_section by assumption.
  destruct (put (Some "args") (args c) (Ok tt, o1))
    as [[[]|e] o2]; cbn [fst snd]; [|reflexivity].
  now rewrite set_on_section by assumption.
Qed.

Lemma stored_accepted (c : Command) (kind ck : string) (old : options) :
  classes_name kind = Some ck ->
  fst (stored c kind old) = Ok tt <-> accepted c = true.
Proof.
  intros Hck. unfold stored, accepted, put. rewrite Hck.
  destruct (accepts (commands.command c)); cbn [andb];
    [|split; discriminate].
  destruct (accepts (args c)); cbn [andb]; [|split; discriminate].
  destruct (accepts (join " " (classes c))); split;
    reflexivity || discriminate.
Qed.

(** Storing twice what was stored changes nothing. *)
Lemma stored_again (c : Command) (kind : string) (old : options) :
  stored c kind (snd (stored c kind old))
  = (fst (stored c kind old), snd (stored c kind old)).
Proof.
  unfold stored, put.
  change (optionxform "command") with "command".
  change (optionxform "args") with "args".
  destruct (accepts (commands.command c)); cbn [fst snd]; [|reflexivity].
  destruct (accepts (args c)); cbn [fst snd].
  2:{ now rewrite dict_set_set. }
  assert (E1 : forall o,
             dict_set "command" (commands.command c)
               (dict_set "args" (args c)
                  (dict_set "command" (commands.command c) o))
             = dict_set "args" (args c)
                 (dict_set "command" (commands.command c) o)).
  { intros o. apply dict_set_same.
    rewrite dict_get_set_neq by discriminate. apply dict_get_set_eq. }
  destruct (classes_name kind) as [ck|] eqn:Hck; cbn [fst snd].
  2:{ now rewrite E1, dict_set_set. }
  destruct (accepts (join " " (classes c))); cbn [fst snd].
  2:{ now rewrite E1, dict_set_set. }
  destruct (class_kind_not_reserved _ _ Hck) as [Hc Ha].
  apply String.eqb_neq in Hc, Ha.
  rewrite (classes_name_lower _ _ Hck).
  rewrite (dict_set_same "command" (commands.command c)).
  2:{ rewrite !dict_get_set_neq by (congruence || discriminate).
      apply dict_get_set_eq. }
  rewrite (dict_set_same "args" (args c)).
  2:{ rewrite dict_get_set_neq by congruence. apply dict_get_set_eq. }
  now rewrite dict_set_set.
Qed.

(** X1.  A Command without a dollar sign that [__set_command] stores is
    resolved by each of its classifiers: when the name under which it is
    stored does not contain ["default"], its classifiers have no space, and
    no other rule of the partition lists the classifier, [__get_command]
    returns its executable, arguments and classifier list, under the name
    of the kind. *)
Theorem set_command_then_get_command
        (self : ConfigParser) (c : Command) (kind class_kind x : string) :
  classes_name kind = Some class_kind ->
  dollar_free_command c ->
  contains "default" (kind ++ ":" ++ stored_name c) = false ->
  In x (classes c) ->
  Forall (fun t => contains " " t = false) (classes c) ->
  (forall s, In s (sections self) -> s <> kind ++ ":" ++ stored_name c ->
             visited kind s = true -> misses self class_kind x s) ->
  fst (CfgConfig.__set_command c kind self) = Ok tt
  /\ CfgConfig.__get_command (run (CfgConfig.__set_command c kind) self)
                             kind class_kind x
     = Ok (mkCommand (commands.command c) (args c) (classes c) kind).
Proof.
  intros Hck Hfree Hdef Hx Hsp Hothers. unfold run.
  rewrite (set_command_run self c kind class_kind Hck
                           (dollar_free_accepted c Hfree)).
  cbn [fst snd]. split; [reflexivity|].
  assert (Hcls : split " " (join " " (classes c)) = classes c).
  { apply split_join; [|assumption]. intros E. rewrite E in Hx. contradiction. }
  destruct Hfree as (Hc & Ha & Hl).
  pose proof (command_of_written self kind class_kind (stored_name c)
                (commands.command c) (args c) (join " " (classes c))
                (section_options self (kind ++ ":" ++ stored_name c))
                Hck Hc Ha (join_dollar_free _ Hl)) as Hcmd.
  rewrite get_command_unfold. unfold CfgConfig.__get_section.
  rewrite scan_after_write.
  - cbn [bind]. rewrite Hcmd. now rewrite Hcls.
  - apply section_key_colon.
  - now apply stored_section_visited.
  - exists (classes c). split; [|assumption].
    unfold classifiers. rewrite getitem_with_section_eq. cbn [bind].
    rewrite (proxy_get_own _ _ class_kind (join " " (classes c)) _
               (section_key_not_DEFAULT _ _) (section_key_truthy _ _)
               (with_section_own _ _ _)).
    + cbn [bind]. now rewrite Hcls.
    + rewrite (classes_name_lower _ _ Hck). apply dict_get_set_eq.
    + now apply join_dollar_free.
  - assumption.
Qed.

Lemma set_command_then_get_command_witness :
  fst (CfgConfig.set_file_editor radare shadowed_store) = Ok tt
  /\ CfgConfig.get_file_editor
       (run (CfgConfig.set_file_editor radare) shadowed_store) "exe"
     = Ok (mkCommand "/usr/bin/r2" "-A" ["exe"] "file-editors").
Proof.
  apply (set_command_then_get_command shadowed_store radare
           "file-editors" "extensions" "exe").
  - reflexivity.
  - repeat split; repeat constructor.
  - reflexivity.
  - now left.
  - repeat constructor.
  - intros s [<-|[<-|[]]] _ Hv; discriminate Hv.
Defined.

(** X2.  [__set_command] is idempotent, whether [set] accepts the values
    of the Command or not, and whatever the kind: called a second time
    with the same Command it ends as the first time, with [None] or with
    the same exception, and leaves the store as the first call left it. *)
Theorem set_command_idempotent
        (self : ConfigParser) (c : Command) (kind : string) :
  CfgConfig.__set_command c kind (run (CfgConfig.__set_command c kind) self)
  = (fst (CfgConfig.__set_command c kind self),
     run (CfgConfig.__set_command c kind) self).
Proof.
  unfold run. rewrite (set_command_closed self c kind). cbn [fst snd].
  rewrite set_command_closed.
  rewrite section_options_with_section, stored_again. cbn [fst snd].
  now rewrite with_section_again.
Qed.

(** X3.  [__set_command] touches one section only, whether it raises or
    not: it keeps the [DEFAULT] section and the order of the sections,
    appending the section when it is new, and every other section is kept
    and reads as before.  It succeeds exactly when [set] accepts the
    executable, the arguments and the joined classifiers. *)
Theorem set_command_frame
        (self : ConfigParser) (c : Command) (kind class_kind : string) :
  classes_name kind = Some class_kind ->
  let S := kind ++ ":" ++ stored_name c in
  let self' := run (CfgConfig.__set_command c kind) self in
  (fst (CfgConfig.__set_command c kind self) = Ok tt <-> accepted c = true)
  /\ _defaults self' = _defaults self
  /\ sections self'
     = (if has_section self S then sections self
        else (sections self ++ [S])%list)
  /\ same_but S self self'
  /\ (forall s o, s <> S ->
                  (p <- getitem self' s ;; proxy_get p o)
                  = (p <- getitem self s ;; proxy_get p o)).
Proof.
  intros Hck S self'. subst self'. unfold run.
  rewrite (set_command_closed self c kind). cbn [fst snd]. fold S.
  split; [now apply (stored_accepted c kind class_kind)|].
  split; [reflexivity|].
  split; [apply sections_with_section|].
  split; [apply with_section_same_but|].
  intros s o Hs. apply (read_agree S); [|apply with_section_same_but|exact Hs].
  apply section_key_colon.
Qed.

Lemma set_command_frame_witness :
  fst (CfgConfig.set_file_editor radare shadowed_store) = Ok tt
  /\ sections (run (CfgConfig.set_file_editor radare) shadowed_store)
     = ["file-editors:default-pdf"; "file-editors:default";
        "file-editors:radare"]
  /\ (p <- getitem (run (CfgConfig.set_file_editor radare) shadowed_store)
                   "file-editors:default" ;;
      proxy_get p "command")
     = (p <- getitem shadowed_store "file-editors:default" ;;
        proxy_get p "command").
Proof.
  destruct (set_command_frame shadowed_store radare "file-editors"
                              "extensions" eq_refl)
    as (Hok & _ & Hsec & _ & Hread).
  split; [now apply Hok|]. split; [exact Hsec|].
  apply Hread. discriminate.
Defined.

(** X4.  Storing a file editor whose section name does not contain
    ["url-openers"] leaves the resolution of every domain as it was. *)
Theorem set_file_editor_keeps_url_openers
        (self : ConfigParser) (c : Command) (domain : string) :
  contains "url-openers" ("file-editors" ++ ":" ++ stored_name c) = false ->
  CfgConfig.get_url_opener (run (CfgConfig.set_file_editor c) self) domain
  = CfgConfig.get_url_opener self domain.
Proof.
  intros H. unfold run, CfgConfig.set_file_editor.
  rewrite (set_command_closed self c "file-editors"). cbn [snd].
  unfold CfgConfig.get_url_opener.
  apply get_command_with_section.
  - apply section_key_colon.
  - unfold visited. rewrite H. apply andb_false_r.
  - discriminate.
Qed.

Lemma set_file_editor_keeps_url_openers_witness :
  CfgConfig.get_url_opener (run (CfgConfig.set_file_editor nano) url_store)
                           "youtu.be"
  = CfgConfig.get_url_opener url_store "youtu.be".
Proof.
  apply (set_file_editor_keeps_url_openers url_store nano "youtu.be").
  reflexivity.
Defined.

Lemma without_with_section (self : ConfigParser) (S : string)
      (opts : options) :
  has_section self S = false ->
  without_section (with_section self S opts) S = self.
Proof.
  intros H. unfold without_section, with_section. cbn [_defaults _sections].
  rewrite dict_del_set_absent.
  - now destruct self.
  - unfold has_section, dict_has in H.
    now destruct (dict_get S (_sections self)).
Qed.

(** X5.  Removing a rule that was just stored, and that the store did not
    have before, gives the store back as it was. *)
Theorem set_command_then_remove_command
        (self : ConfigParser) (c : Command) (kind class_kind : string) :
  classes_name kind = Some class_kind ->
  has_section self (kind ++ ":" ++ stored_name c) = false ->
  CfgConfig.__remove_command (stored_name c) kind
    (run (CfgConfig.__set_command c kind) self)
  = (Ok tt, self).
Proof.
  intros Hck Habs. unfold run.
  rewrite (set_command_closed self c kind). cbn [snd].
  unfold CfgConfig.__remove_command.
  rewrite remove_section_present by apply has_section_with_section.
  now rewrite without_with_section.
Qed.

Lemma set_command_then_remove_command_witness :
  CfgConfig.remove_file_editor "radare"
    (run (CfgConfig.set_file_editor radare) shadowed_store)
  = (Ok tt, shadowed_store).
Proof.
  apply (set_command_then_remove_command shadowed_store radare
           "file-editors" "extensions"); reflexivity.
Defined.

(** X6.  Removing a rule that is there succeeds and deletes its section
    only: the other sections keep their order, are kept as they are and
    read as before, and a second removal of the same rule raises
    [ValueError] and changes nothing. *)
Theorem remove_command_present
        (self : ConfigParser) (command_name kind : string) :
  let S := kind ++ ":" ++ command_name in
  has_section self S = true ->
  let self' := run (CfgConfig.__remove_command command_name kind) self in
  fst (CfgConfig.__remove_command command_name kind self) = Ok tt
  /\ has_section self' S = false
  /\ sections self'
     = filter (fun s => negb (String.eqb S s)) (sections self)
  /\ same_but S self self'
  /\ (forall s o, s <> S ->
                  (p <- getitem self' s ;; proxy_get p o)
                  = (p <- getitem self s ;; proxy_get p o))
  /\ CfgConfig.__remove_command command_name kind self'
     = (Raise (ValueError "Command not found in config file."), self').
Proof.
  intros S H self'. subst self'. unfold run, CfgConfig.__remove_command.
  fold S. rewrite remove_section_present by assumption. cbn [fst snd].
  split; [reflexivity|].
  split; [apply has_section_without_section|].
  split; [apply sections_without_section|].
  split; [apply without_section_same_but|].
  split.
  - intros s o Hs.
    apply (read_agree S); [|apply without_section_same_but|exact Hs].
    apply section_key_colon.
  - unfold remove_section. now rewrite has_section_without_section.
Qed.

Lemma remove_command_present_witness :
  fst (CfgConfig.remove_file_editor "nano" editors_store) = Ok tt
  /\ has_section (run (CfgConfig.remove_file_editor "nano") editors_store)
                 "file-editors:nano" = false
  /\ sections (run (CfgConfig.remove_file_editor "nano") editors_store)
     = ["file-editors:radare"; "file-editors:default"]
  /\ same_but "file-editors:nano" editors_store
              (run (CfgConfig.remove_file_editor "nano") editors_store)
  /\ (forall s o, s <> "file-editors:nano" ->
                  (p <- getitem (run (CfgConfig.remove_file_editor "nano")
                                     editors_store) s ;;
                   proxy_get p o)
                  = (p <- getitem editors_store s ;; proxy_get p o))
  /\ CfgConfig.remove_file_editor "nano"
       (run (CfgConfig.remove_file_editor "nano") editors_store)
     = (Raise (ValueError "Command not found in config file."),
        run (CfgConfig.remove_file_editor "nano") editors_store).
Proof.
  exact (remove_command_present editors_store "nano" "file-editors" eq_refl).
Defined.

(** X7.  The default can be removed like any rule, by the name
    ["default"].  Afterwards the classifiers that a rule lists resolve as
    before, and every classifier that no rule lists raises [KeyError] for
    the default section. *)
Theorem remove_default_then_get_command
        (self : ConfigParser) (kind class_kind x : string) :
  has_section self (kind ++ ":" ++ "default") = true ->
  let self' := run (CfgConfig.__remove_command "default" kind) self in
  fst (CfgConfig.__remove_command "default" kind self) = Ok tt
  /\ (no_match self kind class_kind x ->
      CfgConfig.__get_command self' kind class_kind x
      = Raise (KeyError (kind ++ ":default")))
  /\ (~ no_match self kind class_kind x ->
      CfgConfig.__get_command self' kind class_kind x
      = CfgConfig.__get_command self kind class_kind x).
Proof.
  intros H self'. subst self'. unfold run, CfgConfig.__remove_command.
  rewrite remove_section_present by assumption. cbn [fst snd].
  split; [reflexivity|].
  pose proof (default_section_unvisited kind kind) as Hv.
  pose proof (section_key_colon kind "default") as Hcolon.
  split.
  - intros Hn. rewrite get_command_unfold. unfold CfgConfig.__get_section.
    rewrite scan_without_section by assumption.
    apply scan_none in Hn. rewrite Hn. cbn [renew bind].
    change (kind ++ ":default") with (kind ++ ":" ++ "default").
    now rewrite getitem_without_section_eq
      by apply section_key_not_DEFAULT.
  - intros Hn. rewrite !get_command_unfold. unfold CfgConfig.__get_section.
    rewrite scan_without_section by assumption.
    destruct (CfgConfig.scan self kind class_kind x (sections self))
      as [[p|]|] eqn:Hs; cbn [renew bind]; [| |reflexivity].
    + apply scan_found in Hs as (_ & Hvp & Hp & _).
      apply getitem_inv in Hp as [Hp _]. rewrite Hp at 2.
      apply (command_of_agree (kind ++ ":" ++ "default"));
        [assumption | apply without_section_same_but|].
      intros E. rewrite E in Hvp. congruence.
    + exfalso. apply Hn. exact (proj1 (scan_none _ _ _ _ _) Hs).
Qed.

Lemma remove_default_then_get_command_witness :
  fst (CfgConfig.remove_file_editor "default" editors_store) = Ok tt
  /\ CfgConfig.get_file_editor
       (run (CfgConfig.remove_file_editor "default") editors_store) "bin"
     = Raise (KeyError "file-editors:default")
  /\ CfgConfig.get_file_editor
       (run (CfgConfig.remove_file_editor "default") editors_store) "md"
     = Ok (mkCommand "/usr/bin/nano" "" ["txt"; "md"] "file-editors").
Proof.
  split; [reflexivity|]. split; [|reflexivity].
  apply (proj1 (proj2 (remove_default_then_get_command editors_store
                         "file-editors" "extensions" "bin" eq_refl))).
  intros s [<-|[<-|[<-|[]]]] Hv; try discriminate Hv.
  - exists ["txt"; "md"]. split; [reflexivity|].
    intros [H|[H|[]]]; discriminate H.
  - exists ["exe"]. split; [reflexivity|].
    intros [H|[]]; discriminate H.
Defined.

(** X8.  [set_url_opener] is invisible to resolution: when the section
    ["opener:<name>"] that it writes before it raises is tested for neither
    kind, every domain and every extension resolve as before. *)
Theorem set_url_opener_changes_no_resolution
        (self : ConfigParser) (c : Command) (x : string) :
  visited "url-openers" ("opener" ++ ":" ++ stored_name c) = false ->
  visited "file-editors" ("opener" ++ ":" ++ stored_name c) = false ->
  CfgConfig.get_url_opener (run (CfgConfig.set_url_opener c) self) x
  = CfgConfig.get_url_opener self x
  /\ CfgConfig.get_file_editor (run (CfgConfig.set_url_opener c) self) x
     = CfgConfig.get_file_editor self x.
Proof.
  intros Hu Hf. unfold run, CfgConfig.set_url_opener.
  rewrite (set_command_closed self c "opener"). cbn [snd].
  unfold CfgConfig.get_url_opener, CfgConfig.get_file_editor.
  split; apply get_command_with_section;
    (apply section_key_colon || assumption || discriminate).
Qed.

Lemma set_url_opener_changes_no_resolution_witness :
  CfgConfig.get_url_opener (run (CfgConfig.set_url_opener ytdl) editors_store)
                           "youtu.be"
  = CfgConfig.get_url_opener editors_store "youtu.be"
  /\ CfgConfig.get_file_editor
       (run (CfgConfig.set_url_opener ytdl) editors_store) "youtu.be"
     = CfgConfig.get_file_editor editors_store "youtu.be".
Proof.
  apply (set_url_opener_changes_no_resolution editors_store ytdl "youtu.be");
    reflexivity.
Defined.

(** ** The front end's [add] and [remove] *)

(** X9.  [remove] never raises, and [add] raises nothing but the
    [ValueError] of a path or of cases that [set] refuses, in which case it
    writes nothing.  When they return they have kept the configuration file
    in step with the store: either the store is unchanged and nothing is
    written, or exactly one copy is written, the store as the command left
    it. *)
Theorem add_remove_write_what_they_leave :
  (forall which abspath script mode cases_list name default w,
      let r := turmyx.add which abspath script mode cases_list name default w in
      (fst r = Ok tt
       /\ ((turmyx.config_ctx (snd r) = turmyx.config_ctx w
            /\ turmyx.written (snd r) = turmyx.written w)
           \/ turmyx.written (snd r)
              = List.app (turmyx.written w) [turmyx.config_ctx (snd r)]))
      \/ (exists v n,
             fst r = Raise (InvalidInterpolationSyntax v n)
             /\ accepts v = false
             /\ turmyx.written (snd r) = turmyx.written w))
  /\ (forall script w,
         let r := turmyx.remove script w in
         fst r = Ok tt
         /\ ((turmyx.config_ctx (snd r) = turmyx.config_ctx w
              /\ turmyx.written (snd r) = turmyx.written w)
             \/ turmyx.written (snd r)
                = List.app (turmyx.written w) [turmyx.config_ctx (snd r)])).
Proof.
  split.
  - intros which abspath script mode cases_list name default w r. subst r.
    destruct (mem mode ["opener"; "editor"]) eqn:Hmode.
    2:{ left. unfold turmyx.add. rewrite Hmode. cbn.
        split; [reflexivity|]. left. split; reflexivity. }
    destruct (which script) as [path|] eqn:Hwhich.
    2:{ left. unfold turmyx.add. rewrite Hmode, Hwhich. cbn.
        split; [reflexivity|]. left. split; reflexivity. }
    destruct (accepts (abspath path)) eqn:Hp.
    2:{ right.
        destruct (add_path_rejected which abspath w script mode cases_list
                    name default path Hmode Hwhich Hp) as [n ->].
        exists (abspath path), n. repeat split. assumption. }
    assert (Hcases : (default = true \/ cases_list = []
                      \/ accepts (join " " cases_list) = true)
                     \/ (default = false /\ cases_list <> []
                         /\ accepts (join " " cases_list) = false)).
    { destruct default; [left; now left|].
      destruct cases_list as [|x l]; [left; right; now left|].
      destruct (accepts (join " " (x :: l))).
      - left. right. now right.
      - right. repeat split. discriminate. }
    destruct Hcases as [Hc|(Hd & Hne & Hc)].
    + left.
      rewrite (add_accepted which abspath w script mode cases_list name
                            default path Hmode Hwhich Hp Hc).
      split; [reflexivity|]. right. reflexivity.
    + right.
      destruct (add_cases_rejected which abspath w script mode cases_list
                  name default path Hmode Hwhich Hp Hd Hne Hc) as [n ->].
      exists (join " " cases_list), n. repeat split. assumption.
  - intros script w r. subst r. unfold turmyx.remove, remove_section.
    destruct (has_section (turmyx.config_ctx w) script).
    + cbn. split; [reflexivity|]. right. reflexivity.
    + unfold sbind, turmyx.echo, sret.
      destruct (turmyx.section_guesses (turmyx.config_ctx w) script); cbn;
        (split; [reflexivity|]; left; split; reflexivity).
Qed.

(** X10.  When [set] accepts the path and the cases, [add] succeeds and
    replaces the section it writes: afterwards the section holds the
    executable and, for a rule with cases, the classifier list, and nothing
    of what it held before; every other section is kept and reads as
    before.  With [--default] the section is ["<mode>:default"] and holds
    the executable only, whatever [--name] and the cases are. *)
Theorem add_replaces_section
        (which : string -> option string) (abspath : string -> string)
        (w : turmyx.World) (script mode : string) (cases_list : list string)
        (name : option string) (default : bool) (path : string) :
  mem mode ["opener"; "editor"] = true ->
  which script = Some path ->
  accepts (abspath path) = true ->
  default = true \/ cases_list = []
  \/ accepts (join " " cases_list) = true ->
  let r := turmyx.add which abspath script mode cases_list name default w in
  let c' := turmyx.config_ctx (snd r) in
  let S := added_section (abspath path) mode name default in
  fst r = Ok tt
  /\ has_section c' S = true
  /\ section_options c' S
     = added_options (abspath path) mode cases_list default
  /\ same_but S (turmyx.config_ctx w) c'
  /\ (forall s o, s <> S ->
                  (p <- getitem c' s ;; proxy_get p o)
                  = (p <- getitem (turmyx.config_ctx w) s ;; proxy_get p o))
  /\ (default = true ->
      S = mode ++ ":default"
      /\ added_options (abspath path) mode cases_list default
         = [("command", abspath path)]).
Proof.
  intros Hmode Hwhich Hp Hc r c' S. subst c' r.
  rewrite (add_accepted which abspath w script mode cases_list name default
                        path Hmode Hwhich Hp Hc).
  cbn [fst snd turmyx.config_ctx]. fold S.
  split; [reflexivity|].
  split; [apply has_section_with_section|].
  split; [apply section_options_with_section|].
  split; [apply with_section_same_but|].
  split.
  - intros s o Hs.
    apply (read_agree S); [|apply with_section_same_but|exact Hs].
    apply added_section_key.
  - intros ->. split; [reflexivity|].
    unfold added_options. now destruct cases_list.
Qed.

Lemma add_replaces_section_witness :
  section_options
    (turmyx.config_ctx
       (snd (turmyx.add which_usr_bin abspath_id "emacs" "editor" ["txt"]
                        (Some "nano") false
                        (turmyx.mkWorld guess_store [] []))))
    "editor:nano"
  = [("command", "/usr/bin/emacs"); ("extensions", "txt")].
Proof.
  apply (add_replaces_section which_usr_bin abspath_id
           (turmyx.mkWorld guess_store [] []) "emacs" "editor"
           ["txt"] (Some "nano") false "/usr/bin/emacs"
           eq_refl eq_refl eq_refl).
  right. right. reflexivity.
Defined.

(** ** The front end's [editor] and [opener] *)



Lemma call_section_calls
      (check_call : list string -> launch.spawn)
      (config_ctx : ConfigParser) (section target : string) :
  snd (fst (launch.call_section check_call config_ctx section target)) = []
  \/ exists command arguments,
       (p <- getitem config_ctx section ;; proxy_get p "command") = Ok command
       /\ snd (fst (launch.call_section check_call config_ctx section target))
          = [(command :: arguments ++ [target])%list]
       /\ (contains "command_args" section = false -> arguments = []).
Proof.
  unfold launch.call_section.
  destruct (p <- getitem config_ctx section;; proxy_get p "command")
    as [command|]; [|now left].
  destruct (contains "command_args" section).
  - destruct (p <- getitem config_ctx section;;
              arguments <- proxy_get p "command_args";;
              Ok (command :: split " " arguments ++ [target])%list)
      as [call_args|] eqn:E; [|now left].
    right. destruct (getitem config_ctx section) as [p|]; [|discriminate].
    cbn [bind] in E.
    destruct (proxy_get p "command_args") as [a|]; [|discriminate].
    injection E as <-. exists command, (split " " a).
    split; [reflexivity|]. split; [|discriminate].
    unfold launch.attempt. now destruct (check_call _).
  - right. exists command, []. split; [reflexivity|].
    split; [|reflexivity].
    unfold launch.attempt. now destruct (check_call _).
Qed.

(** X12.  [editor] and [opener] hand at most one argument list to
    [check_call]: the executable of the guessed section, then arguments,
    then the file or URL as it was given.  Arguments are passed only for a
    section whose name contains ["command_args"]; for any other section the
    list is the executable and the target, whatever the section holds. *)
Theorem launch_calls_at_most_once
        (check_call : list string -> launch.spawn)
        (netloc : string -> result string)
        (config_ctx : ConfigParser) (target : string) :
  (snd (fst (launch.editor check_call config_ctx (Some target))) = []
   \/ exists section command arguments,
        turmyx.TurmyxConfig.guess_file_command config_ctx target = Ok section
        /\ (p <- getitem config_ctx section ;; proxy_get p "command")
           = Ok command
        /\ snd (fst (launch.editor check_call config_ctx (Some target)))
           = [(command :: arguments ++ [target])%list]
        /\ (contains "command_args" section = false -> arguments = []))
  /\ (snd (fst (launch.opener check_call netloc config_ctx (Some target))) = []
      \/ exists section command arguments,
           snd (turmyx.TurmyxConfig.guess_url_command netloc config_ctx
                                                      target)
           = Ok section
           /\ (p <- getitem config_ctx section ;; proxy_get p "command")
              = Ok command
           /\ snd (fst (launch.opener check_call netloc config_ctx
                                      (Some target)))
              = [(command :: arguments ++ [target])%list]
           /\ (contains "command_args" section = false -> arguments = [])).
Proof.
  split.
  - unfold launch.editor.
    destruct (turmyx.TurmyxConfig.guess_file_command config_ctx target)
      as [section|]; [|now left].
    destruct (call_section_calls check_call config_ctx section target)
      as [H|(command & arguments & Hc & Hcall & Ha)]; [now left|].
    right. now exists section, command, arguments.
  - unfold launch.opener.
    destruct (turmyx.TurmyxConfig.guess_url_command netloc config_ctx target)
      as [printed [section|]]; [|now left].
    destruct (call_section_calls check_call config_ctx section target)
      as [H|(command & arguments & Hc & Hcall & Ha)].
    + left. destruct (launch.call_section check_call config_ctx section target)
        as [[e c] r]. exact H.
    + right. exists section, command, arguments.
      split; [reflexivity|]. split; [assumption|]. split; [|assumption].
      destruct (launch.call_section check_call config_ctx section target)
        as [[e c] r]. exact Hcall.
Qed.



(** ** The classifier that [guess_file_command] derives *)

(** X14.  [guess_file_command] looks at the last component of the path
    only, and there at what follows the last dot: a file [stem.ext]
    resolves like a file named [ext], in any directory.  A name without a
    dot is its own classifier. *)
Theorem guess_file_command_by_extension (self : ConfigParser) :
  (forall dir name,
      turmyx.TurmyxConfig.guess_file_command self (dir ++ "/" ++ name)
      = turmyx.TurmyxConfig.guess_file_command self name)
  /\ (forall stem ext,
         contains "/" ext = false -> contains "." ext = false ->
         extension_of (stem ++ "." ++ ext) = ext
         /\ turmyx.TurmyxConfig.guess_file_command self (stem ++ "." ++ ext)
            = turmyx.TurmyxConfig.guess_file_command self ext)
  /\ (forall name,
         contains "/" name = false -> contains "." name = false ->
         extension_of name = name).
Proof.
  split; [|split].
  - intros dir name. unfold turmyx.TurmyxConfig.guess_file_command.
    now rewrite basename_of_path.
  - intros stem ext Hs Hd. split; [now apply extension_of_suffix|].
    rewrite !guess_file_command_result.
    now rewrite extension_of_suffix, extension_of_plain.
  - exact extension_of_plain.
Qed.

Lemma guess_file_command_by_extension_witness :
  extension_of ("/sdcard/my.notes/todo.list" ++ "." ++ "md") = "md"
  /\ turmyx.TurmyxConfig.guess_file_command
       cli_store ("/sdcard/my.notes/todo.list" ++ "." ++ "md")
     = turmyx.TurmyxConfig.guess_file_command cli_store "md".
Proof.
  apply (proj1 (proj2 (guess_file_command_by_extension cli_store))
               "/sdcard/my.notes/todo.list" "md"); reflexivity.
Defined.

(** ** What resolution returns *)

Lemma scan_found_first
      (self : ConfigParser) (section_kind class_kind class_name : string)
      (todo : list string) (p : SectionProxy) :
  CfgConfig.scan self section_kind class_kind class_name todo = Ok (Some p) ->
  exists pre post,
    todo = (pre ++ configparser.name p :: post)%list
    /\ (forall s, In s pre -> visited section_kind s = true ->
                  misses self class_kind class_name s)
    /\ visited section_kind (configparser.name p) = true
    /\ matches self class_kind class_name (configparser.name p)
    /\ getitem self (configparser.name p) = Ok p.
Proof.
  induction todo as [|s todo IH]; [discriminate|].
  destruct (visited section_kind s) eqn:Hv.
  - cbn [CfgConfig.scan]. fold (visited section_kind s). rewrite Hv.
    destruct (getitem self s) as [q|] eqn:Hq; [|discriminate]. cbn [bind].
    destruct (proxy_get q class_kind) as [v|] eqn:Hg; [|discriminate].
    cbn [bind].
    destruct (mem class_name (split " " v)) eqn:Hm.
    + intros [= <-]. pose proof (getitem_name _ _ _ Hq) as Hn.
      exists [], todo. rewrite Hn.
      split; [reflexivity|]. split; [intros ? []|].
      split; [assumption|]. split; [|assumption].
      exists (split " " v). split; [|now apply mem_In].
      unfold classifiers. rewrite Hq. cbn [bind]. now rewrite Hg.
    + intros H. destruct (IH H) as (pre & post & -> & Hpre & Hvp & Hmp & Hp).
      exists (s :: pre), post.
      split; [reflexivity|]. split; [|auto].
      intros s' [<-|Hs'] Hv'; [|now apply Hpre].
      exists (split " " v). split; [|now apply mem_false].
      unfold classifiers. rewrite Hq. cbn [bind]. now rewrite Hg.
  - rewrite scan_skip by assumption. intros H.
    destruct (IH H) as (pre & post & -> & Hpre & Hvp & Hmp & Hp).
    exists (s :: pre), post.
    split; [reflexivity|]. split; [|auto].
    intros s' [<-|Hs'] Hv'; [congruence | now apply Hpre].
Qed.

(** X15.  Whatever [__get_section] returns is the first match or the
    fallback: either a tested section that lists the classifier, before
    which every tested section has a classifier list without it, or the
    section ["<kind>:default"] when no tested section lists the
    classifier.  The Command that [__get_command] builds from a match lists
    the classifier. *)
Theorem get_section_sound
        (self : ConfigParser) (section_kind class_kind class_name : string) :
  (forall p,
      CfgConfig.__get_section self section_kind class_kind class_name = Ok p ->
      (exists pre post,
          sections self = (pre ++ configparser.name p :: post)%list
          /\ (forall s, In s pre -> visited section_kind s = true ->
                        misses self class_kind class_name s)
          /\ visited section_kind (configparser.name p) = true
          /\ matches self class_kind class_name (configparser.name p))
      \/ (configparser.name p = section_kind ++ ":default"
          /\ no_match self section_kind class_kind class_name))
  /\ (forall c,
         CfgConfig.__get_command self section_kind class_kind class_name
         = Ok c ->
         In class_name (classes c)
         \/ no_match self section_kind class_kind class_name).
Proof.
  split.
  - intros p. unfold CfgConfig.__get_section.
    destruct (CfgConfig.scan self section_kind class_kind class_name
                             (sections self)) as [[q|]|] eqn:Hs;
      cbn [bind]; [| |discriminate].
    + intros [= <-]. left.
      destruct (scan_found_first _ _ _ _ _ _ Hs)
        as (pre & post & E & Hpre & Hv & Hm & _).
      now exists pre, post.
    + intros Hp. right. split; [now apply getitem_name in Hp|].
      exact (proj1 (scan_none _ _ _ _ _) Hs).
  - intros c. unfold CfgConfig.__get_command, CfgConfig.__get_section.
    destruct (CfgConfig.scan self section_kind class_kind class_name
                             (sections self)) as [[q|]|] eqn:Hs;
      cbn [bind]; [| |discriminate].
    + intros H. left.
      destruct (scan_found_first _ _ _ _ _ _ Hs)
        as (_ & _ & _ & _ & _ & (l & Hl & Hin) & Hq).
      apply classifiers_inv in Hl as (q' & v & Hq' & Hv & ->).
      rewrite Hq in Hq'. injection Hq' as <-.
      destruct (proxy_get q "command") as [cmd|]; [|discriminate].
      cbn [bind] in H.
      destruct (if proxy_contains q "args" then proxy_get q "args"
                else Ok "")
        as [a|]; [|discriminate].
      cbn [bind] in H.
      assert (Ho : proxy_contains q class_kind = true).
      { unfold proxy_contains. unfold proxy_get in Hv.
        destruct (has_option (_parser q) (configparser.name q) class_kind);
          [reflexivity | discriminate]. }
      rewrite Ho, Hv in H. cbn [bind] in H. injection H as <-. exact Hin.
    + intros _. right. exact (proj1 (scan_none _ _ _ _ _) Hs).
Qed.

Lemma get_section_sound_witness :
  In "exe" (classes (mkCommand "/usr/bin/r2" "-A" ["exe"] "file-editors"))
  \/ no_match editors_store "file-editors" "extensions" "exe".
Proof.
  apply (proj2 (get_section_sound editors_store "file-editors" "extensions"
                                  "exe")).
  reflexivity.
Defined.

(** ** The classifier list in the flat store *)

(** X16.  The flat store keeps a classifier list as one text, joined by
    spaces by [__set_command] and split at spaces by the scan and by
    [__get_command].  For a Command without a dollar sign, the list that
    is read from the section that [__set_command] wrote is the list stored
    exactly when the list is not empty and no classifier contains a space;
    the empty list is read back as the list of the empty classifier. *)
Theorem classes_survive_storage
        (self : ConfigParser) (c : Command) (kind class_kind : string) :
  classes_name kind = Some class_kind ->
  dollar_free_command c ->
  let self' := run (CfgConfig.__set_command c kind) self in
  let S := kind ++ ":" ++ stored_name c in
  classifiers self' class_kind S = Ok (split " " (join " " (classes c)))
  /\ command_of (mkSectionProxy self' S) class_kind
     = Ok (mkCommand (commands.command c) (args c)
                     (split " " (join " " (classes c))) kind)
  /\ (classifiers self' class_kind S = Ok (classes c)
      <-> classes c <> []
          /\ Forall (fun t => contains " " t = false) (classes c))
  /\ (classes c = [] -> classifiers self' class_kind S = Ok [""]).
Proof.
  intros Hck Hfree self' S. subst self'. unfold run.
  rewrite (set_command_run self c kind class_kind Hck
                           (dollar_free_accepted c Hfree)).
  cbn [snd]. fold S.
  destruct Hfree as (Hc & Ha & Hl).
  assert (Hread : classifiers
                    (with_section self S
                       (dict_set class_kind (join " " (classes c))
                          (dict_set "args" (args c)
                             (dict_set "command" (commands.command c)
                                (section_options self S)))))
                    class_kind S
                  = Ok (split " " (join " " (classes c)))).
  { unfold classifiers. rewrite getitem_with_section_eq. cbn [bind].
    rewrite (proxy_get_own _ S class_kind (join " " (classes c)) _
               (section_key_not_DEFAULT _ _) (section_key_truthy _ _)
               (with_section_own _ _ _)).
    - reflexivity.
    - rewrite (classes_name_lower _ _ Hck). apply dict_get_set_eq.
    - now apply join_dollar_free. }
  split; [exact Hread|]. split.
  - apply command_of_written; auto using join_dollar_free.
  - rewrite Hread. split.
    + split.
      * intros [= H]. split.
        -- intros E. rewrite E in H. discriminate H.
        -- rewrite <- H. apply split_pieces.
      * intros [Hne Hall]. now rewrite split_join.
    + now intros ->.
Qed.

Lemma classes_survive_storage_witness :
  classifiers (run (CfgConfig.set_file_editor nano) shadowed_store)
              "extensions" "file-editors:nano"
  = Ok ["txt"; "md"]
  /\ classifiers (run (CfgConfig.set_file_editor vim) shadowed_store)
                 "extensions" "file-editors:vim"
     = Ok [""].
Proof.
  assert (Hnano : dollar_free_command nano)
    by (repeat split; repeat constructor).
  assert (Hvim : dollar_free_command vim)
    by (repeat split; repeat constructor).
  split.
  - apply (proj1 (proj2 (proj2 (classes_survive_storage
                                  shadowed_store nano "file-editors"
                                  "extensions" eq_refl Hnano)))).
    split; [discriminate | repeat constructor].
  - apply (proj2 (proj2 (proj2 (classes_survive_storage
                                  shadowed_store vim "file-editors"
                                  "extensions" eq_refl Hvim)))).
    reflexivity.
Defined.

(** ** Renaming the classifier key of the structured store *)

Lemma rename_there_and_back (from to : string)
      (m : list (string * yaml)) (v : yaml) :
  from <> to ->
  dict_get from m = Some v -> dict_get to m = None ->
  exists m' m'',
    YAMLConfig.rename from to (YMap m) = Ok (YMap m')
    /\ YAMLConfig.rename to from (YMap m') = Ok (YMap m'')
    /\ forall k, dict_get k m'' = dict_get k m.
Proof.
  intros Hne Hfrom Hto.
  exists (dict_set to v (dict_del from m)).
  exists (dict_set from v (dict_del to (dict_set to v (dict_del from m)))).
  unfold YAMLConfig.rename. rewrite Hfrom, dict_get_set_eq.
  split; [reflexivity|]. split; [reflexivity|].
  intros k. destruct (string_dec k from) as [->|Hk].
  - now rewrite dict_get_set_eq.
  - rewrite dict_get_set_neq by assumption.
    destruct (string_dec k to) as [->|Hk'].
    + now rewrite dict_get_del_eq.
    + rewrite dict_get_del_neq, dict_get_set_neq, dict_get_del_neq
        by assumption.
      reflexivity.
Qed.

Lemma rename_each_there_and_back (from to : string)
      (m : list (string * yaml)) :
  from <> to ->
  (forall k d, In (k, d) m ->
               exists dm v, d = YMap dm /\ dict_get from dm = Some v
                            /\ dict_get to dm = None) ->
  exists m' m'',
    YAMLConfig.rename_each from to m = Ok m'
    /\ YAMLConfig.rename_each to from m' = Ok m''
    /\ same_commands m m''.
Proof.
  intros Hne. induction m as [|[k d] m IH]; intros H.
  - exists [], []. repeat split. constructor.
  - destruct (H k d (or_introl eq_refl)) as (dm & v & -> & Hf & Ht).
    destruct (rename_there_and_back from to dm v Hne Hf Ht)
      as (d' & d'' & Hd' & Hd'' & Hsame).
    destruct IH as (m' & m'' & Hm' & Hm'' & Hall).
    { intros k0 d0 HIn. apply (H k0 d0). now right. }
    exists ((k, YMap d') :: m'), ((k, YMap d'') :: m'').
    cbn [YAMLConfig.rename_each]. rewrite Hd', Hm'. cbn [bind].
    rewrite Hd'', Hm''. cbn [bind].
    split; [reflexivity|]. split; [reflexivity|].
    constructor; [|assumption]. split; [reflexivity|].
    now exists dm, d''.
Qed.

(** X17.  The renaming that [load] applies to a partition, [extensions]
    (or [domains]) to [classes] in each of its commands, is undone by the
    renaming that [as_dict] applies: the partition comes back with its
    keys where they were, and each command with the same value under every
    key. *)
Theorem rename_commands_there_and_back
        (key : string) (p m : list (string * yaml)) :
  key <> "classes" ->
  dict_get "commands" p = Some (YMap m) ->
  (forall k d, In (k, d) m ->
               exists dm v, d = YMap dm /\ dict_get key dm = Some v
                            /\ dict_get "classes" dm = None) ->
  exists m' m'',
    YAMLConfig.rename_commands key "classes" (YMap p)
    = Ok (YMap (dict_set "commands" (YMap m') p))
    /\ YAMLConfig.rename_commands "classes" key
         (YMap (dict_set "commands" (YMap m') p))
       = Ok (YMap (dict_set "commands" (YMap m'') p))
    /\ same_commands m m''.
Proof.
  intros Hne Hp Hm.
  destruct (rename_each_there_and_back key "classes" m Hne Hm)
    as (m' & m'' & Hm' & Hm'' & Hsame).
  exists m', m''. unfold YAMLConfig.rename_commands, YAMLConfig.get.
  rewrite Hp. cbn [bind]. rewrite Hm'. cbn [bind].
  split; [reflexivity|].
  rewrite dict_get_set_eq. cbn [bind]. rewrite Hm''. cbn [bind].
  now rewrite dict_set_set.
Qed.

Lemma rename_commands_there_and_back_witness :
  exists m' m'',
    YAMLConfig.rename_commands "extensions" "classes"
      (YMap [("commands",
              YMap [("nano", YMap [("extensions", YSeq [YStr "txt"]);
                                   ("command", YStr "/usr/bin/nano")])])])
    = Ok (YMap (dict_set "commands" (YMap m')
                  [("commands",
                    YMap [("nano", YMap [("extensions", YSeq [YStr "txt"]);
                                         ("command", YStr "/usr/bin/nano")])])]))
    /\ YAMLConfig.rename_commands "classes" "extensions"
         (YMap (dict_set "commands" (YMap m')
                  [("commands",
                    YMap [("nano", YMap [("extensions", YSeq [YStr "txt"]);
                                         ("command", YStr "/usr/bin/nano")])])]))
       = Ok (YMap (dict_set "commands" (YMap m'')
                     [("commands",
                       YMap [("nano", YMap [("extensions", YSeq [YStr "txt"]);
                                            ("command",
                                             YStr "/usr/bin/nano")])])]))
    /\ same_commands
         [("nano", YMap [("extensions", YSeq [YStr "txt"]);
                         ("command", YStr "/usr/bin/nano")])] m''.
Proof.
  apply (rename_commands_there_and_back "extensions"
           [("commands",
             YMap [("nano", YMap [("extensions", YSeq [YStr "txt"]);
                                  ("command", YStr "/usr/bin/nano")])])]
           [("nano", YMap [("extensions", YSeq [YStr "txt"]);
                           ("command", YStr "/usr/bin/nano")])]).
  - discriminate.
  - reflexivity.
  - intros k d [[= <- <-]|[]]. eexists. eexists.
    split; [reflexivity|]. split; reflexivity.
Defined.

(** ** Resolution after [remove] *)

(** A scan that does not end on the deleted section ends the same way on
    the store without it, when no reference can name the section. *)
Lemma scan_filter_removed (self : ConfigParser) (S : string)
      (section_kind class_kind class_name : string) (todo : list string)
      (r : option SectionProxy) :
  contains ":" S = true ->
  CfgConfig.scan self section_kind class_kind class_name todo = Ok r ->
  (forall p, r = Some p -> configparser.name p <> S) ->
  CfgConfig.scan (without_section self S) section_kind class_kind class_name
                 (filter (fun s => negb (String.eqb S s)) todo)
  = renew (without_section self S) (Ok r).
Proof.
  intros Hcolon Hscan Hr.
  pose proof (without_section_same_but self S) as Hsame.
  induction todo as [|s todo IH]; [now injection Hscan as <-|].
  cbn [filter]. cbn [CfgConfig.scan] in Hscan.
  destruct (String.eqb_spec S s) as [<-|Hne]; cbn [negb].
  - destruct (negb (contains "default" S) && contains section_kind S);
      [|exact (IH Hscan)].
    destruct (getitem self S) as [p|] eqn:Hp; [|discriminate].
    cbn [bind] in Hscan.
    destruct (proxy_get p class_kind) as [v|]; [|discriminate].
    cbn [bind] in Hscan.
    destruct (mem class_name (split " " v)); [|exact (IH Hscan)].
    injection Hscan as <-. exfalso.
    apply (Hr p eq_refl). exact (getitem_name _ _ _ Hp).
  - cbn [CfgConfig.scan].
    destruct (negb (contains "default" s) && contains section_kind s);
      [|exact (IH Hscan)].
    assert (Hs : s <> S) by congruence.
    rewrite (getitem_same_but S self _ s Hsame Hs).
    destruct (getitem self s) as [p|] eqn:Hp; [|discriminate].
    apply getitem_inv in Hp as [-> _]. cbn [bind] in *.
    rewrite (proxy_get_agree S self _ Hcolon Hsame s class_kind Hs).
    destruct (proxy_get (mkSectionProxy self s) class_kind) as [v|];
      [|discriminate].
    cbn [bind] in *.
    destruct (mem class_name (split " " v)); [|exact (IH Hscan)].
    now injection Hscan as <-.
Qed.

(** X18.  After the command [remove] has deleted a section whose name has
    a colon, as the sections of the rules have, the file resolution answers
    as before for every file it did not send to that section, and it never
    answers with the deleted section again, unless that section is the
    default [editor:default], which the resolution names without looking
    it up. *)
Theorem remove_then_guess_file_command
        (w : turmyx.World) (script file : string) :
  has_section (turmyx.config_ctx w) script = true ->
  contains ":" script = true ->
  let after := turmyx.config_ctx (snd (turmyx.remove script w)) in
  (forall s,
      turmyx.TurmyxConfig.guess_file_command (turmyx.config_ctx w) file = Ok s ->
      s <> script ->
      turmyx.TurmyxConfig.guess_file_command after file = Ok s)
  /\ (script <> "editor:default" ->
      turmyx.TurmyxConfig.guess_file_command after file <> Ok script)
  /\ (script = "editor:default" ->
      turmyx.TurmyxConfig.guess_file_command after file
      = turmyx.TurmyxConfig.guess_file_command (turmyx.config_ctx w) file).
Proof.
  intros Hhas Hcolon after.
  assert (Hafter : after = without_section (turmyx.config_ctx w) script).
  { unfold after, turmyx.remove.
    now rewrite (remove_section_present _ _ Hhas). }
  rewrite Hafter. rewrite !guess_file_command_result.
  split; [|split].
  - intros s Hs Hne. rewrite sections_without_section.
    destruct (CfgConfig.scan (turmyx.config_ctx w) "editor" "extensions"
                             (extension_of file)
                             (sections (turmyx.config_ctx w)))
      as [r|] eqn:Hscan; [|discriminate].
    cbn [bind] in Hs. injection Hs as Hs.
    rewrite (scan_filter_removed _ _ _ _ _ _ r Hcolon Hscan).
    + rewrite renew_named. cbn [bind]. now f_equal.
    + intros p ->. now subst.
  - intros Hne H.
    destruct (CfgConfig.scan (without_section (turmyx.config_ctx w) script)
                             "editor" "extensions" (extension_of file)
                             (sections
                                (without_section (turmyx.config_ctx w) script)))
      as [[p|]|] eqn:Hscan; cbn [bind] in H; try discriminate.
    + injection H as H.
      apply scan_found in Hscan as (HIn & _).
      rewrite sections_without_section, H in HIn.
      apply filter_In in HIn as [_ HIn].
      now rewrite String.eqb_refl in HIn.
    + injection H as H. now apply Hne.
  - intros ->. rewrite scan_without_section by reflexivity.
    apply renew_named.
Qed.

Lemma remove_then_guess_file_command_witness :
  turmyx.TurmyxConfig.guess_file_command
    (turmyx.config_ctx
       (snd (turmyx.remove "editor:nano" (turmyx.mkWorld cli_store [] []))))
    "notes.txt"
  <> Ok "editor:nano"
  /\ turmyx.TurmyxConfig.guess_file_command
       (turmyx.config_ctx
          (snd (turmyx.remove "editor:nano" (turmyx.mkWorld cli_store [] []))))
       "a.exe"
     = Ok "editor:radare".
Proof.
  destruct (remove_then_guess_file_command
              (turmyx.mkWorld cli_store [] []) "editor:nano" "notes.txt"
              eq_refl eq_refl) as (_ & H & _).
  destruct (remove_then_guess_file_command
              (turmyx.mkWorld cli_store [] []) "editor:nano" "a.exe"
              eq_refl eq_refl) as (H' & _ & _).
  split.
  - apply H. discriminate.
  - apply H'; [reflexivity | discriminate].
Defined.

(** The colon matters: the section [paths] can be named by a reference.
    Before it is removed the file [a.txt] resolves to [editor:nano], whose
    extension list refers to it; afterwards the resolution raises. *)
Lemma remove_referenced_section :
  turmyx.TurmyxConfig.guess_file_command referring_store "a.txt"
  = Ok "editor:nano"
  /\ turmyx.TurmyxConfig.guess_file_command
       (turmyx.config_ctx
          (snd (turmyx.remove "paths" (turmyx.mkWorld referring_store [] []))))
       "a.txt"
     = Raise (InterpolationMissingOptionError
                "extensions" "editor:nano" "${paths:ext} txt" "paths:ext").
Proof.
  split; vm_compute; reflexivity.
Qed.
